(** * PlexWatch dashboard cog: a shallow embedding of [cogs/plex_core.py]

    The cog polls a Plex server (and optionally a Jellyfin server), renders
    the active sessions as text blocks, keeps a time-boxed cache of the
    library statistics and maintains one dashboard message in a Discord
    channel.  This file embeds the Python code of [PlexCore] function by
    function and proves the properties its specification states.

    Conventions of the embedding:
    - Python exceptions are values of [res]; [try]/[except Exception] is
      [catch];
    - methods that read or write [self] are state transformers over the
      record [cog];
    - everything outside the process is a value that is fixed for the
      duration of one poll: the Plex and Jellyfin servers and the clocks in
      [world], the channel and the message-id file in [discord], the other
      cogs in [bot], a file read at start-up in [file_state];
    - Python [float] is IEEE binary64, computed with the Standard Library's
      [SpecFloat] (precision 53, exponent bound 1024);
    - Python [str] is [string]: the source file stores its glyphs as
      multi-byte sequences and the embedding copies those bytes. *)

From Stdlib Require Import ZArith List String Ascii Bool Lia.
From Stdlib Require Import Floats.SpecFloat.
Import ListNotations.

Local Open Scope string_scope.
Local Open Scope Z_scope.

(** ** Python exceptions and results *)

Module Py.

Inductive exn : Type :=
| AttributeError
| TypeError
| ValueError
| KeyError
| IndexError
| ZeroDivisionError
| OverflowError
| NotFound        (* [discord.NotFound] *)
| ExternalError.  (* any other exception of a collaborator: plexapi, network, Discord *)

Inductive res (A : Type) : Type :=
| Ok (a : A)
| Raise (e : exn).

Arguments Ok {A} a.
Arguments Raise {A} e.

Definition rbind {A B : Type} (m : res A) (k : A -> res B) : res B :=
  match m with
  | Ok a => k a
  | Raise e => Raise e
  end.

(** [try: m except Exception: h] *)
Definition catch {A : Type} (m : res A) (h : exn -> A) : A :=
  match m with
  | Ok a => a
  | Raise e => h e
  end.

Definition is_ok {A : Type} (m : res A) : bool :=
  match m with Ok _ => true | Raise _ => false end.

(** ** Attributes of loosely typed records

    A field of a plexapi object or of a Jellyfin JSON object can be missing,
    present with value [None] (JSON [null]), or present with a value. *)

Inductive attr (A : Type) : Type :=
| Absent
| PyNone
| Val (a : A).

Arguments Absent {A}.
Arguments PyNone {A}.
Arguments Val {A} a.

(** [d[name]] on a dict: a missing key raises, [None] is a value. *)
Definition key {A : Type} (x : attr A) : res (option A) :=
  match x with
  | Absent => Raise KeyError
  | PyNone => Ok None
  | Val a => Ok (Some a)
  end.

(** [obj.name]: a missing attribute raises, [None] is a value. *)
Definition dot {A : Type} (x : attr A) : res (option A) :=
  match x with
  | Absent => Raise AttributeError
  | PyNone => Ok None
  | Val a => Ok (Some a)
  end.

Definition hasattr {A : Type} (x : attr A) : bool :=
  match x with Absent => false | _ => true end.

(** [getattr(obj, name, default)] and [dict.get(key, default)]: the default
    replaces a missing field only, a stored [None] is returned as it is. *)
Definition getattr {A : Type} (x : attr A) (default : option A) : option A :=
  match x with
  | Absent => default
  | PyNone => None
  | Val a => Some a
  end.

(** A value that must not be [None] where it is used (arithmetic, method
    call, format with a numeric code): [None] raises [TypeError]. *)
Definition need {A : Type} (x : option A) : res A :=
  match x with
  | Some a => Ok a
  | None => Raise TypeError
  end.

(** A method call or attribute access on a value that may be [None]. *)
Definition need_obj {A : Type} (x : option A) : res A :=
  match x with
  | Some a => Ok a
  | None => Raise AttributeError
  end.

(** ** Strings

    A [str] is embedded as the bytes of its UTF-8 encoding.  On a text of
    ASCII characters the functions below do what Python does.  On other
    texts they take every byte for a character of its own, so the blank
    characters and the decimal digits that Unicode has beyond ASCII are not
    recognised; what is proved of [strip], [split_ws], [int_of_str] and
    [float_of_str] on a text that is not computed by the code itself is
    therefore stated for ASCII texts. *)

Definition ascii_text (s : string) : bool :=
  forallb (fun c => (N_of_ascii c <? 128)%N) (list_ascii_of_string s).

Definition is_space (c : ascii) : bool :=
  let n := N_of_ascii c in
  (((9 <=? n) && (n <=? 13)) || ((28 <=? n) && (n <=? 32)))%N.

Definition is_digit (c : ascii) : bool :=
  let n := N_of_ascii c in ((48 <=? n) && (n <=? 57))%N.

Definition digit_val (c : ascii) : Z := Z.of_N (N_of_ascii c) - 48.

Definition digit_char (d : Z) : ascii := ascii_of_N (Z.to_N (48 + d)).

(** [s.split(sep)] for a one-character separator. *)
Fixpoint split_on (sep : ascii) (s : string) : list string :=
  match s with
  | EmptyString => [EmptyString]
  | String c rest =>
      if Ascii.eqb c sep then EmptyString :: split_on sep rest
      else match split_on sep rest with
           | [] => [String c EmptyString]
           | p :: ps => String c p :: ps
           end
  end.

(** [s.split()]: maximal runs of non-whitespace characters. *)
Fixpoint split_ws_aux (cur : option string) (s : string) : list string :=
  match s with
  | EmptyString => match cur with Some w => [w] | None => [] end
  | String c rest =>
      if is_space c then
        match cur with
        | Some w => w :: split_ws_aux None rest
        | None => split_ws_aux None rest
        end
      else
        match cur with
        | Some w => split_ws_aux (Some (w ++ String c EmptyString)) rest
        | None => split_ws_aux (Some (String c EmptyString)) rest
        end
  end.

Definition split_ws (s : string) : list string := split_ws_aux None s.

Fixpoint lstrip (s : string) : string :=
  match s with
  | String c rest => if is_space c then lstrip rest else s
  | EmptyString => EmptyString
  end.

Fixpoint rstrip (s : string) : string :=
  match s with
  | EmptyString => EmptyString
  | String c rest =>
      match rstrip rest with
      | EmptyString => if is_space c then EmptyString else String c EmptyString
      | r => String c r
      end
  end.

Definition strip (s : string) : string := rstrip (lstrip s).

(** The blanks that [int] and [float] skip around a number: tab to
    carriage return and the space.  The separators 0x1C to 0x1F, which
    [str.strip] removes, are not among them. *)
Definition is_blank (c : ascii) : bool :=
  let n := N_of_ascii c in (((9 <=? n) && (n <=? 13)) || (n =? 32))%N.

Fixpoint lstrip_blank (s : string) : string :=
  match s with
  | String c rest => if is_blank c then lstrip_blank rest else s
  | EmptyString => EmptyString
  end.

Fixpoint rstrip_blank (s : string) : string :=
  match s with
  | EmptyString => EmptyString
  | String c rest =>
      match rstrip_blank rest with
      | EmptyString => if is_blank c then EmptyString else String c EmptyString
      | r => String c r
      end
  end.

Definition strip_blank (s : string) : string := rstrip_blank (lstrip_blank s).

(** [s.replace(old, new)] for a non-empty [old]: leftmost matches, not
    overlapping.  [skip] counts the characters of a match still to drop. *)
Fixpoint replace_aux (old new : string) (skip : nat) (s : string) : string :=
  match s with
  | EmptyString => EmptyString
  | String c rest =>
      match skip with
      | S k => replace_aux old new k rest
      | O =>
          if prefix old s
          then new ++ replace_aux old new (pred (String.length old)) rest
          else String c (replace_aux old new O rest)
      end
  end.

Definition replace (old new s : string) : string := replace_aux old new O s.

(** [sep.join(parts)] *)
Fixpoint join (sep : string) (parts : list string) : string :=
  match parts with
  | [] => EmptyString
  | [p] => p
  | p :: ps => p ++ sep ++ join sep ps
  end.

(** [s * n]: empty for [n <= 0]. *)
Fixpoint repeat_nat (s : string) (n : nat) : string :=
  match n with
  | O => EmptyString
  | S k => s ++ repeat_nat s k
  end.

Definition repeat_str (s : string) (n : Z) : string := repeat_nat s (Z.to_nat n).

Definition endswith (suffix s : string) : bool :=
  let ls := String.length s in
  let lx := String.length suffix in
  (lx <=? ls)%nat && String.eqb (substring (ls - lx) lx s) suffix.

(** [s[:-1]] *)
Definition drop_last (s : string) : string :=
  substring 0 (pred (String.length s)) s.

(** ** Integers as text *)

(** The decimal digits of a non-negative integer, most significant first.
    [fuel] bounds the number of digits. *)
Fixpoint digits_aux (fuel : nat) (n : Z) (acc : string) : string :=
  match fuel with
  | O => acc
  | S f =>
      let acc' := String (digit_char (n mod 10)) acc in
      if n / 10 =? 0 then acc' else digits_aux f (n / 10) acc'
  end.

Definition digits (n : Z) : string :=
  digits_aux (S (Z.to_nat (Z.log2 n))) n EmptyString.

(** [str(n)] for an [int] *)
Definition str_of_int (n : Z) : string :=
  if n <? 0 then "-" ++ digits (- n) else digits n.

(** [format(n, "0<w>d")]: sign first, then zeros up to the width. *)
Definition fmt_0d (w : nat) (n : Z) : string :=
  let body := digits (Z.abs n) in
  let sign := if n <? 0 then "-" else "" in
  let used := (String.length sign + String.length body)%nat in
  sign ++ repeat_nat "0" (w - used) ++ body.

(** Digits with single underscores allowed between them, as [int] and
    [float] accept them: the value read and the number of digits, or [None]
    when the text is not of that form. *)
Fixpoint digit_run (s : string) (acc : Z) (cnt : Z) (after_digit : bool)
  : option (Z * Z) :=
  match s with
  | EmptyString => if after_digit then Some (acc, cnt) else None
  | String c rest =>
      if is_digit c then digit_run rest (10 * acc + digit_val c) (cnt + 1) true
      else if Ascii.eqb c "_" then
             if after_digit then
               match rest with
               | String d _ =>
                   if is_digit d then digit_run rest acc cnt false else None
               | EmptyString => None
               end
             else None
           else None
  end.

Definition split_sign (s : string) : bool * string :=
  match s with
  | String "-" rest => (true, rest)
  | String "+" rest => (false, rest)
  | _ => (false, s)
  end.

(** [int(s)] for a [str] in base ten. *)
Definition int_of_str (s : string) : res Z :=
  let '(neg, body) := split_sign (strip_blank s) in
  match digit_run body 0 0 false with
  | Some (n, _) => Ok (if neg then - n else n)
  | None => Raise ValueError
  end.

(** ** Floating point: IEEE binary64 *)

Definition float : Type := spec_float.
Definition prec : Z := 53.
Definition emax : Z := 1024.

Definition fadd : float -> float -> float := SFadd prec emax.
Definition fsub : float -> float -> float := SFsub prec emax.
Definition fmul : float -> float -> float := SFmul prec emax.

(** [float(n)] for an [int]: nearest, ties to even; too large raises. *)
Definition float_of_int (n : Z) : res float :=
  match binary_normalize prec emax n 0 false with
  | S754_infinity _ => Raise OverflowError
  | x => Ok x
  end.

Definition is_zero (x : float) : bool :=
  match x with S754_zero _ => true | _ => false end.

(** [x / y] on floats: a zero divisor raises. *)
Definition fdiv (x y : float) : res float :=
  if is_zero y then Raise ZeroDivisionError else Ok (SFdiv prec emax x y).

(** [a / b] on ints: the correctly rounded quotient of the two integers. *)
Definition int_truediv (a b : Z) : res float :=
  if b =? 0 then Raise ZeroDivisionError
  else if a =? 0 then Ok (S754_zero (b <? 0))
  else
    match SFdiv prec emax (S754_finite (a <? 0) (Z.to_pos (Z.abs a)) 0)
                          (S754_finite (b <? 0) (Z.to_pos (Z.abs b)) 0) with
    | S754_infinity _ => Raise OverflowError
    | q => Ok q
    end.

(** [int(x)]: truncation toward zero. *)
Definition int_of_float (x : float) : res Z :=
  match x with
  | S754_zero _ => Ok 0
  | S754_nan => Raise ValueError
  | S754_infinity _ => Raise OverflowError
  | S754_finite s m e =>
      let a := Z.shiftl (Zpos m) e in
      Ok (if s then - a else a)
  end.

(** The three-way comparison of a float with an int, exact as in Python. *)
Definition float_cmp_int (x : float) (n : Z) : option comparison :=
  match x with
  | S754_nan => None
  | S754_infinity s => Some (if s then Lt else Gt)
  | S754_zero _ => Some (0 ?= n)
  | S754_finite s m e =>
      let v := if s then Zneg m else Zpos m in
      Some (if 0 <=? e then (v * 2 ^ e ?= n) else (v ?= n * 2 ^ (- e)))
  end.

Definition float_le_int (x : float) (n : Z) : bool :=
  match float_cmp_int x n with
  | Some (Lt | Eq) => true
  | _ => false
  end.

Definition float_ge_int (x : float) (n : Z) : bool :=
  match float_cmp_int x n with
  | Some (Gt | Eq) => true
  | _ => false
  end.

(** [n / d] rounded to the nearest integer, ties to even ([0 <= n], [0 < d]). *)
Definition round_half_even (n d : Z) : Z :=
  let q := n / d in
  match 2 * (n mod d) ?= d with
  | Lt => q
  | Gt => q + 1
  | Eq => if Z.even q then q else q + 1
  end.

(** [m * 2^e * 10^p] rounded to an integer. *)
Definition scaled (p : nat) (m : positive) (e : Z) : Z :=
  let n := Zpos m * 10 ^ Z.of_nat p in
  if 0 <=? e then n * 2 ^ e else round_half_even n (2 ^ (- e)).

(** Thousands separators in a run of digits. *)
Fixpoint group_aux (s : string) (k : nat) : string :=
  match s with
  | EmptyString => EmptyString
  | String c EmptyString => s
  | String c rest =>
      match k with
      | O | S O => String c ("," ++ group_aux rest 3)
      | S k' => String c (group_aux rest k')
      end
  end.

Definition group3 (s : string) : string :=
  group_aux s (S ((String.length s - 1) mod 3)).

(** A non-negative integer [q], read as [q / 10^p], in fixed notation. *)
Definition fixed (grouped : bool) (p : nat) (q : Z) : string :=
  let whole := digits (q / 10 ^ Z.of_nat p) in
  (if grouped then group3 whole else whole)
  ++ match p with
     | O => ""
     | _ => "." ++ fmt_0d p (q mod 10 ^ Z.of_nat p)
     end.

(** [format(x, ".<p>f")] and, with [grouped], [format(x, ",.<p>f")]. *)
Definition fmt_float (grouped : bool) (p : nat) (x : float) : string :=
  match x with
  | S754_nan => "nan"
  | S754_infinity s => (if s then "-" else "") ++ "inf"
  | S754_zero s => (if s then "-" else "") ++ fixed grouped p 0
  | S754_finite s m e => (if s then "-" else "") ++ fixed grouped p (scaled p m e)
  end.

Definition fmt_f (p : nat) (x : float) : string := fmt_float false p x.

(** [float(s)] for a [str]: an optional sign, then [inf], [infinity] or
    [nan] in any letter case, or decimal digits with an optional fraction
    and an optional exponent; the value is the nearest binary64. *)
Definition lower (c : ascii) : ascii :=
  let n := N_of_ascii c in
  if ((65 <=? n) && (n <=? 90))%N then ascii_of_N (n + 32) else c.

Fixpoint lower_str (s : string) : string :=
  match s with
  | EmptyString => EmptyString
  | String c rest => String (lower c) (lower_str rest)
  end.

(** The text before the first character satisfying [p] and, when there is
    one, the text after it. *)
Fixpoint cut (p : ascii -> bool) (s : string) : string * option string :=
  match s with
  | EmptyString => (EmptyString, None)
  | String c rest =>
      if p c then (EmptyString, Some rest)
      else let '(a, b) := cut p rest in (String c a, b)
  end.

Definition opt_digit_run (s : string) : option (Z * Z) :=
  match s with
  | EmptyString => Some (0, 0)
  | _ => digit_run s 0 0 false
  end.

(** The decimal literal [body] as a pair [(m, e)] standing for [m * 10^e]. *)
Definition parse_decimal (body : string) : option (Z * Z) :=
  let '(mant, exp) := cut (fun c => Ascii.eqb (lower c) "e") body in
  let '(ip, fp) := cut (fun c => Ascii.eqb c ".") mant in
  let fp' := match fp with Some f => f | None => EmptyString end in
  match ip, fp' with
  | EmptyString, EmptyString => None
  | _, _ =>
      match opt_digit_run ip, opt_digit_run fp' with
      | Some (iv, _), Some (fv, fn) =>
          let m := iv * 10 ^ fn + fv in
          match exp with
          | None => Some (m, - fn)
          | Some ex =>
              let '(eneg, edigits) := split_sign ex in
              match digit_run edigits 0 0 false with
              | Some (ev, _) => Some (m, (if eneg then - ev else ev) - fn)
              | None => None
              end
          end
      | _, _ => None
      end
  end.

Definition float_of_decimal (neg : bool) (m e : Z) : float :=
  if m =? 0 then S754_zero neg
  else if 0 <=? e
       then binary_normalize prec emax ((if neg then - m else m) * 10 ^ e) 0 false
       else SFdiv prec emax (S754_finite neg (Z.to_pos m) 0)
                            (S754_finite false (Z.to_pos (10 ^ (- e))) 0).

Definition float_of_str (s : string) : res float :=
  let '(neg, body) := split_sign (strip_blank s) in
  let word := lower_str body in
  if String.eqb word "inf" || String.eqb word "infinity" then Ok (S754_infinity neg)
  else if String.eqb word "nan" then Ok S754_nan
  else match parse_decimal body with
       | Some (m, e) => Ok (float_of_decimal neg m e)
       | None => Raise ValueError
       end.

(** ** Numbers that are [int] or [float] at run time *)

Inductive num : Type :=
| I (n : Z)
| F (x : float).

Definition to_float (a : num) : res float :=
  match a with
  | I n => float_of_int n
  | F x => Ok x
  end.

Definition num_add (a b : num) : res num :=
  match a, b with
  | I m, I n => Ok (I (m + n))
  | _, _ =>
      rbind (to_float a) (fun x =>
      rbind (to_float b) (fun y => Ok (F (fadd x y))))
  end.

Definition num_mul (a b : num) : res num :=
  match a, b with
  | I m, I n => Ok (I (m * n))
  | _, _ =>
      rbind (to_float a) (fun x =>
      rbind (to_float b) (fun y => Ok (F (fmul x y))))
  end.

(** [a / b]: always a float. *)
Definition num_truediv (a b : num) : res float :=
  match a, b with
  | I m, I n => int_truediv m n
  | _, _ =>
      rbind (to_float a) (fun x =>
      rbind (to_float b) (fun y => fdiv x y))
  end.

Definition num_ge_int (a : num) (n : Z) : bool :=
  match a with
  | I m => n <=? m
  | F x => float_ge_int x n
  end.

(** [format(a, ".<p>f")]: an [int] is converted to [float] first. *)
Definition fmt_num (grouped : bool) (p : nat) (a : num) : res string :=
  rbind (to_float a) (fun x => Ok (fmt_float grouped p x)).

(** ** [datetime.timedelta] *)

(** A [timedelta] in its normal form: days, seconds in [0, 86400) and
    microseconds in [0, 10^6). *)
Record timedelta : Type := mk_timedelta {
  td_days : Z;
  td_seconds : Z;
  td_microseconds : Z
}.

(** Normalisation of a number of microseconds; the type holds at most
    999999999 days in either direction. *)
Definition timedelta_of_us (us : Z) : res timedelta :=
  let days := us / 86400000000 in
  let rest := us mod 86400000000 in
  if (days <? -999999999) || (999999999 <? days) then Raise OverflowError
  else Ok (mk_timedelta days (rest / 1000000) (rest mod 1000000)).

(** [timedelta(milliseconds=ms)] *)
Definition timedelta_ms (ms : Z) : res timedelta := timedelta_of_us (ms * 1000).

Definition timedelta_us (d : timedelta) : Z :=
  (td_days d * 86400 + td_seconds d) * 1000000 + td_microseconds d.

(** [d.total_seconds()] *)
Definition total_seconds (d : timedelta) : res float :=
  int_truediv (timedelta_us d) 1000000.

(** [str(d)] *)
Definition str_of_timedelta (d : timedelta) : string :=
  let mm := td_seconds d / 60 in
  let ss := td_seconds d mod 60 in
  let hh := mm / 60 in
  let mm := mm mod 60 in
  let s := str_of_int hh ++ ":" ++ fmt_0d 2 mm ++ ":" ++ fmt_0d 2 ss in
  let s :=
    if td_days d =? 0 then s
    else str_of_int (td_days d) ++ " day"
         ++ (if Z.abs (td_days d) =? 1 then "" else "s") ++ ", " ++ s in
  if td_microseconds d =? 0 then s
  else s ++ "." ++ fmt_0d 6 (td_microseconds d).

(** ** Lists *)

(** [l[i]] for [0 <= i], and [l[i]] counted from the end for [i < 0]. *)
Definition index {A : Type} (l : list A) (i : Z) : res A :=
  let j := if i <? 0 then Z.of_nat (List.length l) + i else i in
  if j <? 0 then Raise IndexError
  else match nth_error l (Z.to_nat j) with
       | Some a => Ok a
       | None => Raise IndexError
       end.

(** Truth value of a list, a string, an int, a float, an optional value. *)
Definition truthy_list {A : Type} (l : list A) : bool :=
  match l with [] => false | _ => true end.

Definition truthy_str (s : string) : bool :=
  match s with EmptyString => false | _ => true end.

Definition truthy_int (n : Z) : bool := negb (n =? 0).

Definition truthy_float (x : float) : bool := negb (is_zero x).

Definition truthy_opt {A : Type} (t : A -> bool) (x : option A) : bool :=
  match x with Some a => t a | None => false end.

(** [str(x)] inside an f-string for a value that may be [None]. *)
Definition show_opt {A : Type} (f : A -> string) (x : option A) : string :=
  match x with Some a => f a | None => "None" end.

(** [d.get(k)] on a dict kept as an association list in insertion order. *)
Fixpoint dict_get {V : Type} (k : string) (d : list (string * V)) : option V :=
  match d with
  | [] => None
  | (k', v) :: rest => if String.eqb k k' then Some v else dict_get k rest
  end.

(** [d[k] = v]: an existing key keeps its place, a new key goes last. *)
Fixpoint dict_set {V : Type} (k : string) (v : V) (d : list (string * V))
  : list (string * V) :=
  match d with
  | [] => [(k, v)]
  | (k', v') :: rest =>
      if String.eqb k k' then (k, v) :: rest else (k', v') :: dict_set k v rest
  end.

Definition dict_has {V : Type} (k : string) (d : list (string * V)) : bool :=
  match dict_get k d with Some _ => true | None => false end.

End Py.

Import Py.

Notation "x <- m ;; k" := (rbind m (fun x => k))
  (at level 61, m at next level, right associativity).

(** * Playback time formatting *)

(** [PlexCore._format_time] *)
Definition _format_time (time_str : string) (duration : Z) : res string :=
  let parts := split_on ":" time_str in
  let less_than_hour := duration / 1000 <? 3600 in
  if less_than_hour then
    m <- (p <- index parts (-2) ;; int_of_str p) ;;
    s <- (p <- index parts (-1) ;; int_of_str p) ;;
    Ok (fmt_0d 2 m ++ ":" ++ fmt_0d 2 s)
  else
    h <- (p <- index parts 0 ;; int_of_str p) ;;
    m <- (p <- index parts 1 ;; int_of_str p) ;;
    s <- (p <- index parts 2 ;; int_of_str p) ;;
    Ok (fmt_0d 1 h ++ ":" ++ fmt_0d 2 m ++ ":" ++ fmt_0d 2 s).

(** [str(timedelta(milliseconds=ms)).split(".")[0]], the first argument of
    both calls of [_format_time] in [format_stream_info]. *)
Definition plex_time_str (ms : Z) : res string :=
  d <- timedelta_ms ms ;;
  index (split_on "." (str_of_timedelta d)) 0.

(** The Plex rendering of a position of [ms] milliseconds in an item of
    [duration] milliseconds. *)
Definition plex_time (ms duration : Z) : res string :=
  t <- plex_time_str ms ;;
  _format_time t duration.

(** [PlexCore._format_jellyfin_time] *)
Definition _format_jellyfin_time (seconds total_seconds : Z) : string :=
  let hours := seconds / 3600 in
  let minutes := (seconds mod 3600) / 60 in
  let secs := seconds mod 60 in
  if total_seconds <? 3600
  then fmt_0d 2 minutes ++ ":" ++ fmt_0d 2 secs
  else str_of_int hours ++ ":" ++ fmt_0d 2 minutes ++ ":" ++ fmt_0d 2 secs.

(** * Fixed texts

    The literals of the source file, byte for byte. *)

Definition STATUS_ONLINE : string := "ðŸŸ¢ Online".
Definition STATUS_OFFLINE : string := "ðŸ”´ Offline".
Definition DEFAULT_OFFLINE_TEXT : string := "ðŸ”´ Server Offline!".
Definition DEFAULT_STREAM_TEXT : string := "{count} active Stream{s} ðŸŸ¢".
Definition DEFAULT_EMOJI : string := "ðŸŽ¬".
Definition GLYPH_TRACK : string := "ðŸŽµ".
Definition GLYPH_MOVIE : string := "ðŸŽ¥".
Definition GLYPH_SHOW : string := "ðŸ“º".
Definition GLYPH_PAUSED : string := "â¸ï¸".
Definition GLYPH_FILLED : string := "â–“".
Definition GLYPH_EMPTY : string := "â–‘".
Definition GLYPH_TRANSCODE : string := "ðŸ”„".
Definition GLYPH_DIRECT : string := "â¯ï¸".
Definition LINE2_LEAD : string := "â””â”€ ".
Definition LINE3_LEAD : string := " â””â”€ ".
Definition PLACEHOLDER_LEAD : string := "```â“ Stream could not be loaded (# ".
Definition PLACEHOLDER_TAIL : string := ")```".
Definition JF_PLACEHOLDER_LEAD : string := "```â“ Jellyfin stream could not be loaded (# ".
Definition FIELD_UPTIME : string := "Server Uptime ðŸ–¥ï¸".
Definition EPISODES_SUFFIX : string := " Episodes ðŸ“º".
Definition NO_STREAMS : string := "ðŸ’¤ *No active streams currently*".
Definition FIELD_DOWNLOADS : string := "Downloads ðŸ“¥".
Definition FIELD_FREE : string := "Free Space ðŸ’¾".
Definition FIELD_TOTAL : string := "Total Space ðŸ—„ï¸".
Definition NO_DOWNLOADS : string := "ðŸ’¤ *No active downloads currently*".

Definition NL : string := String (ascii_of_nat 10) EmptyString.
Definition BLOCK_OPEN : string := "**```".
Definition BLOCK_CLOSE : string := "```**".

(** * Data model *)

(** ** Configuration ([data/config.json] merged over the defaults)

    [_load_config] merges the file over the defaults at the top level only:
    the three groups are always there, but a group that the file gives
    replaces the default group as a whole, so every key inside a group can
    be missing ([None] below), and reading it raises [KeyError].  A key that
    is there holds a value of the type the default configuration gives it. *)

Record section_config : Type := {
  sc_display_name : option string;
  sc_emoji : option string;
  sc_show_episodes : option bool
}.

Record plex_sections_config : Type := {
  show_all : option bool;
  sections_of : option (list (string * section_config))   (* ["sections"]: title -> settings *)
}.

Record presence_section : Type := {
  section_title : option string;
  ps_display_name : option string;
  ps_emoji : option string
}.

Record presence_config : Type := {
  presence_sections : option (list presence_section);
  offline_text : option string;
  stream_text : option string
}.

Record dashboard_config : Type := {
  dash_name : option string;
  icon_url : option string;
  footer_icon_url : option string
}.

Record config : Type := {
  dashboard : dashboard_config;
  plex_sections : plex_sections_config;
  presence : presence_config
}.

(** [group[name]] on a group of the configuration *)
Definition lookup {A : Type} (x : option A) : res A :=
  match x with
  | Some a => Ok a
  | None => Raise KeyError
  end.

(** ** Library statistics: one entry of the cache *)

Record section_stats : Type := {
  count : Z;
  episodes : Z;
  display_name : string;
  emoji : string;
  show_episodes : bool
}.

(** The cache is a Python dict from library title to its entry, in
    insertion order. *)
Definition stats : Type := list (string * section_stats).

(** ** A Plex session, as plexapi hands it over *)

Record plex_stream : Type := {
  streamType : attr Z;
  bitDepth : attr Z;
  samplingRate : attr Z
}.

Record plex_part : Type := { streams : attr (list plex_stream) }.

Record plex_media : Type := {
  videoResolution : attr string;
  m_bitrate : attr Z;
  parts : attr (list plex_part)
}.

Record plex_player : Type := {
  state : attr string;
  product : attr string
}.

Record plex_transcode : Type := { t_bitrate : attr Z }.

Record plex_session : Type := {
  usernames : attr (list string);
  librarySectionTitle : attr string;
  type_ : attr string;
  title : attr string;
  grandparentTitle : attr string;
  parentIndex : attr Z;
  index_ : attr Z;
  year : attr Z;
  viewOffset : attr Z;
  duration : attr Z;
  players : attr (list plex_player);
  media : attr (list plex_media);
  transcodeSession : attr plex_transcode
}.

(** ** The Plex server seen through plexapi *)

Record plex_item : Type := { leafCount : attr Z }.

Record plex_library_section : Type := {
  sec_title : string;
  sec_all : res (list plex_item)          (* [section.all()] *)
}.

(** [self.plex] holds a handle.  The handle keeps no data of its own: every
    call made through it is answered by the server at the time of the call. *)
Inductive PlexServer : Type := PlexHandle.

(** ** Instants

    A [datetime] is a number of microseconds on a fixed time line;
    [time.time()] is a float of seconds. *)
Definition datetime : Type := Z.

(** [a - b] on datetimes *)
Definition datetime_sub (a b : datetime) : res timedelta := timedelta_of_us (a - b).

(** ** A Jellyfin session, as the [/Sessions] endpoint returns it

    The [*_more] flags say whether the JSON object holds keys besides those
    the code reads; they only matter for the truth value of the object. *)

Record jf_media_stream : Type := {
  ms_Type : attr string;
  ms_Height : attr Z
}.

Record jf_now_playing : Type := {
  np_Type : attr string;
  np_SeriesName : attr string;
  np_ParentIndexNumber : attr Z;
  np_IndexNumber : attr Z;
  np_Name : attr string;
  np_ProductionYear : attr Z;
  np_RunTimeTicks : attr Z;
  np_MediaStreams : attr (list jf_media_stream);
  np_Bitrate : attr Z;
  np_more : bool
}.

Record jf_play_state : Type := {
  PositionTicks : attr Z;
  IsPaused : attr bool
}.

Record jf_transcoding_info : Type := {
  ti_Bitrate : attr Z;
  ti_more : bool
}.

Record jf_session : Type := {
  NowPlayingItem : attr jf_now_playing;
  PlayState : attr jf_play_state;
  UserName : attr string;
  TranscodingInfo : attr jf_transcoding_info;
  Client : attr string;
  DeviceName : attr string
}.

(** The empty JSON object, the default of [session.get(key, {})]. *)
Definition empty_now_playing : jf_now_playing :=
  {| np_Type := Absent; np_SeriesName := Absent; np_ParentIndexNumber := Absent;
     np_IndexNumber := Absent; np_Name := Absent; np_ProductionYear := Absent;
     np_RunTimeTicks := Absent; np_MediaStreams := Absent; np_Bitrate := Absent;
     np_more := false |}.

Definition empty_play_state : jf_play_state :=
  {| PositionTicks := Absent; IsPaused := Absent |}.

(** Truth value of a JSON object: it holds at least one key. *)
Definition truthy_now_playing (n : jf_now_playing) : bool :=
  np_more n || hasattr (np_Type n) || hasattr (np_SeriesName n)
  || hasattr (np_ParentIndexNumber n) || hasattr (np_IndexNumber n)
  || hasattr (np_Name n) || hasattr (np_ProductionYear n)
  || hasattr (np_RunTimeTicks n) || hasattr (np_MediaStreams n)
  || hasattr (np_Bitrate n).

Definition truthy_transcoding_info (t : jf_transcoding_info) : bool :=
  ti_more t || hasattr (ti_Bitrate t).

(** The answer of the Jellyfin server to [GET /Sessions]: a transport
    failure, or a status code with the result of decoding the body. *)
Inductive jf_response : Type :=
| JfClientError                                   (* [aiohttp.ClientError] *)
| JfOtherError                                    (* any other exception *)
| JfReply (status_code : Z) (body : res (list jf_session)).

(** ** The world during one poll *)

Record world : Type := {
  w_connect : bool;                               (* [PlexServer(url, token)] succeeds *)
  w_sections : res (list plex_library_section);   (* [plex.library.sections()] *)
  w_sessions : res (list plex_session);           (* [plex.sessions()] *)
  w_time : float;                                 (* [time.time()] *)
  w_now : datetime;                               (* [datetime.now()] *)
  w_utcnow : datetime;                            (* [discord.utils.utcnow()] *)
  w_jellyfin : jf_response
}.

(** ** The state of the cog ([self]) *)

Record cog : Type := {
  cfg : config;
  plex : option PlexServer;
  plex_start_time : option float;
  dashboard_message_id : option Z;
  offline_since : option datetime;
  library_cache : stats;
  last_library_update : option datetime;
  library_update_interval : num;
  user_mapping : list (string * string);
  jellyfin_enabled : bool
}.

Definition set_plex (c : cog) (p : option PlexServer) : cog :=
  {| cfg := cfg c; plex := p; plex_start_time := plex_start_time c;
     dashboard_message_id := dashboard_message_id c;
     offline_since := offline_since c; library_cache := library_cache c;
     last_library_update := last_library_update c;
     library_update_interval := library_update_interval c;
     user_mapping := user_mapping c; jellyfin_enabled := jellyfin_enabled c |}.

Definition set_plex_start_time (c : cog) (t : option float) : cog :=
  {| cfg := cfg c; plex := plex c; plex_start_time := t;
     dashboard_message_id := dashboard_message_id c;
     offline_since := offline_since c; library_cache := library_cache c;
     last_library_update := last_library_update c;
     library_update_interval := library_update_interval c;
     user_mapping := user_mapping c; jellyfin_enabled := jellyfin_enabled c |}.

Definition set_dashboard_message_id (c : cog) (m : option Z) : cog :=
  {| cfg := cfg c; plex := plex c; plex_start_time := plex_start_time c;
     dashboard_message_id := m;
     offline_since := offline_since c; library_cache := library_cache c;
     last_library_update := last_library_update c;
     library_update_interval := library_update_interval c;
     user_mapping := user_mapping c; jellyfin_enabled := jellyfin_enabled c |}.

Definition set_offline_since (c : cog) (t : option datetime) : cog :=
  {| cfg := cfg c; plex := plex c; plex_start_time := plex_start_time c;
     dashboard_message_id := dashboard_message_id c;
     offline_since := t; library_cache := library_cache c;
     last_library_update := last_library_update c;
     library_update_interval := library_update_interval c;
     user_mapping := user_mapping c; jellyfin_enabled := jellyfin_enabled c |}.

(** Both cache fields at once: [get_library_stats] assigns them together. *)
Definition set_library_cache (c : cog) (s : stats) (t : option datetime) : cog :=
  {| cfg := cfg c; plex := plex c; plex_start_time := plex_start_time c;
     dashboard_message_id := dashboard_message_id c;
     offline_since := offline_since c; library_cache := s;
     last_library_update := t;
     library_update_interval := library_update_interval c;
     user_mapping := user_mapping c; jellyfin_enabled := jellyfin_enabled c |}.

(** * Server status reader *)

(** [PlexCore.connect_to_plex] *)
Definition connect_to_plex (w : world) (c : cog) : option PlexServer * cog :=
  if w_connect w then
    (Some PlexHandle,
     match plex_start_time c with
     | None => set_plex_start_time c (Some (w_time w))
     | Some _ => c
     end)
  else (None, set_plex_start_time c None).

(** [int((now - start) / 60)] on two readings of [time.time()] *)
Definition elapsed_minutes (now start : float) : res Z :=
  q <- num_truediv (F (fsub now start)) (I 60) ;;
  int_of_float q.

(** [PlexCore.calculate_uptime] *)
Definition calculate_uptime (w : world) (c : cog) : res string :=
  if negb (truthy_opt truthy_float (plex_start_time c)) then Ok "Offline"
  else
    start <- need (plex_start_time c) ;;
    total_minutes <- elapsed_minutes (w_time w) start ;;
    let hours := total_minutes / 60 in
    let minutes := total_minutes mod 60 in
    Ok (if 99 <? hours then "99+ Hours"
        else fmt_0d 2 hours ++ ":" ++ fmt_0d 2 minutes).

(** A loop whose body may raise. *)
Fixpoint rfold {A B : Type} (f : B -> A -> res B) (l : list A) (b : B) : res B :=
  match l with
  | [] => Ok b
  | a :: rest => b' <- f b a ;; rfold f rest b'
  end.

(** [sum(show.leafCount for show in items)] *)
Definition sum_leafCount (items : list plex_item) : res Z :=
  rfold (fun acc it => n <- (x <- dot (leafCount it) ;; need x) ;; Ok (acc + n))
        items 0.

(** [PlexCore._build_section_stats] *)
Definition _build_section_stats (section : plex_library_section)
  (config : section_config) : res section_stats :=
  all <- sec_all section ;;
  wanted <- lookup (sc_show_episodes config) ;;
  eps <- (if wanted
          then (all' <- sec_all section ;; sum_leafCount all')
          else Ok 0) ;;
  name <- lookup (sc_display_name config) ;;
  glyph <- lookup (sc_emoji config) ;;
  flag <- lookup (sc_show_episodes config) ;;
  Ok {| count := Z.of_nat (List.length all);
        episodes := eps;
        display_name := name;
        emoji := glyph;
        show_episodes := flag |}.

(** [x <= interval] for the configured interval, an int or a float. *)
Definition float_le_num (x : float) (n : num) : bool :=
  match n with
  | I k => float_le_int x k
  | F y => SFleb x y
  end.

(** The guard of [get_library_stats]: a refresh time is known and not more
    than the interval has passed since. *)
Definition cache_is_fresh (w : world) (c : cog) : res bool :=
  match last_library_update c with
  | None => Ok false
  | Some t =>
      d <- datetime_sub (w_now w) t ;;
      x <- total_seconds d ;;
      Ok (float_le_num x (library_update_interval c))
  end.

(** The two loops over the configured sections in [get_library_stats]. *)
Definition configured_stats
  (sections : list (string * plex_library_section))
  (configured_sections : list (string * section_config)) (acc : stats)
  : res stats :=
  rfold (fun (st : stats) (kv : string * section_config) =>
           let title := fst kv in
           match dict_get title sections with
           | Some section =>
               config <- match dict_get title configured_sections with
                         | Some cf => Ok cf
                         | None => Raise KeyError
                         end ;;
               e <- _build_section_stats section config ;;
               Ok (dict_set title e st)
           | None => Ok st
           end)
        configured_sections acc.

(** The loop over the sections that are not configured. *)
Definition unconfigured_stats
  (sections : list (string * plex_library_section))
  (configured_sections : list (string * section_config)) (acc : stats)
  : res stats :=
  rfold (fun (st : stats) (kv : string * plex_library_section) =>
           let '(title, section) := kv in
           if dict_has title configured_sections then Ok st
           else
             all <- sec_all section ;;
             Ok (dict_set title
                   {| count := Z.of_nat (List.length all);
                      episodes := 0;
                      display_name := title;
                      emoji := DEFAULT_EMOJI;
                      show_episodes := false |} st))
        sections acc.

(** The body of the [try] in [get_library_stats], up to the assignment of
    the cache. *)
Definition query_library_stats (w : world) (c : cog) : res stats :=
  secs <- w_sections w ;;
  let sections :=
    fold_left (fun d s => dict_set (sec_title s) s d) secs [] in
  let plex_config := plex_sections (cfg c) in
  configured_sections <- lookup (sections_of plex_config) ;;
  all_wanted <- lookup (show_all plex_config) ;;
  if negb all_wanted then
    configured_stats sections configured_sections []
  else
    st <- configured_stats sections configured_sections [] ;;
    unconfigured_stats sections configured_sections st.

(** [if not self.plex: self.plex = self.connect_to_plex()] *)
Definition ensure_connected (w : world) (c : cog) : cog :=
  match plex c with
  | None => let '(p, c') := connect_to_plex w c in set_plex c' p
  | Some _ => c
  end.

(** [PlexCore.get_library_stats] *)
Definition get_library_stats (w : world) (c : cog) : res stats * cog :=
  match cache_is_fresh w c with
  | Raise e => (Raise e, c)
  | Ok true => (Ok (library_cache c), c)
  | Ok false =>
      let c1 := ensure_connected w c in
      match plex c1 with
      | None => (Ok (library_cache c1), c1)
      | Some _ =>
          match query_library_stats w c1 with
          | Ok st => (Ok st, set_library_cache c1 st (Some (w_now w)))
          | Raise _ => (Ok (library_cache c1), c1)
          end
      end
  end.

(** * Session formatter: Plex *)

Definition opt_str_eqb (x : option string) (y : string) : bool :=
  match x with Some a => String.eqb a y | None => false end.

Definition opt_int_eqb (x : option Z) (y : Z) : bool :=
  match x with Some a => a =? y | None => false end.

(** [s * n] as the interpreter does it: a length beyond the largest index
    raises.  (Running out of memory below that bound is not modelled.) *)
Definition repeat_checked (s : string) (n : Z) : res string :=
  if 2 ^ 63 - 1 <? Z.of_nat (String.length s) * n then Raise OverflowError
  else Ok (repeat_str s n).

(** [PlexCore._get_formatted_title] *)
Definition _get_formatted_title (session : plex_session) : res string :=
  if hasattr (type_ session) && opt_str_eqb (getattr (type_ session) None) "track"
  then
    let artist := getattr (grandparentTitle session) (Some "Unknown Artist") in
    let track := getattr (title session) (Some "Unknown Track") in
    Ok (show_opt id artist ++ " - " ++ show_opt id track)
  else if hasattr (grandparentTitle session) then
    g <- (x <- dot (grandparentTitle session) ;; need_obj x) ;;
    a <- index (split_on ":" g) 0 ;;
    b <- index (split_on "-" a) 0 ;;
    let series_title := strip b in
    episode_info <-
      (if hasattr (parentIndex session) && hasattr (index_ session) then
         p <- (x <- dot (parentIndex session) ;; need x) ;;
         i <- (x <- dot (index_ session) ;; need x) ;;
         Ok ("S" ++ fmt_0d 2 p ++ "E" ++ fmt_0d 2 i)
       else Ok "") ;;
    Ok (series_title ++ " - " ++ episode_info)
  else
    let year :=
      if hasattr (year session)
         && truthy_opt truthy_int (getattr (year session) None)
      then " (" ++ show_opt str_of_int (getattr (year session) None) ++ ")"
      else "" in
    t <- dot (title session) ;;
    Ok (show_opt id t ++ year).

(** The first statement of [format_stream_info]:
    [session.usernames[0] if session.usernames else "Unbekannt"]. *)
Definition stream_user (session : plex_session) : res string :=
  u <- dot (usernames session) ;;
  if truthy_opt truthy_list u then (l <- need u ;; index l 0)
  else Ok "Unbekannt".

(** [progress_percent] *)
Definition progress_percent (session : plex_session) : res num :=
  if hasattr (viewOffset session) && hasattr (duration session)
     && truthy_opt truthy_int (getattr (duration session) None)
  then
    v <- (x <- dot (viewOffset session) ;; need x) ;;
    d <- (x <- dot (duration session) ;; need x) ;;
    q <- int_truediv v d ;;
    p <- num_mul (F q) (I 100) ;;
    Ok p
  else Ok (I 0).

(** The progress bar and the percentage, or the pause glyph. *)
Definition progress_display (is_paused : bool) (percent : num) : res string :=
  if is_paused then Ok GLYPH_PAUSED
  else
    filled <- (t <- num_truediv percent (I 10) ;; n <- int_of_float t ;;
               repeat_checked GLYPH_FILLED n) ;;
    empty <- (t <- num_truediv percent (I 10) ;; n <- int_of_float t ;;
              repeat_checked GLYPH_EMPTY (10 - n)) ;;
    pct <- fmt_num false 1 percent ;;
    Ok ("[" ++ filled ++ empty ++ "] " ++ pct ++ "%").

(** [session.players] when the attribute is there and the list is not
    empty. *)
Definition first_player (session : plex_session) : res (option plex_player) :=
  if hasattr (players session)
     && truthy_opt truthy_list (getattr (players session) None)
  then (l <- need (getattr (players session) None) ;;
        p <- index l 0 ;; Ok (Some p))
  else Ok None.

(** The generator handed to [next]: the first stream of type 2, parts and
    streams visited in order and only as far as needed. *)
Fixpoint first_audio_in (l : list plex_stream) : res (option plex_stream) :=
  match l with
  | [] => Ok None
  | x :: rest =>
      t <- dot (streamType x) ;;
      if opt_int_eqb t 2 then Ok (Some x) else first_audio_in rest
  end.

Fixpoint first_audio (ps : list plex_part) : res (option plex_stream) :=
  match ps with
  | [] => Ok None
  | p :: rest =>
      ss <- (x <- dot (streams p) ;; need x) ;;
      a <- first_audio_in ss ;;
      match a with
      | Some _ => Ok a
      | None => first_audio rest
      end
  end.

(** The quality label of a music track. *)
Definition track_quality (media : option plex_media) : res string :=
  audio_stream <-
    match media with
    | Some m => ps <- (x <- dot (parts m) ;; need x) ;; first_audio ps
    | None => Ok None
    end ;;
  let depth :=
    match audio_stream with
    | Some a => getattr (bitDepth a) None
    | None => None
    end in
  let rate :=
    match audio_stream with
    | Some a => getattr (samplingRate a) None
    | None => None
    end in
  let quality :=
    if truthy_opt truthy_int depth
    then show_opt str_of_int depth ++ "bit" else "" in
  quality <-
    (if truthy_opt truthy_int rate then
       r <- need rate ;;
       k <- (q <- int_truediv r 1000 ;; int_of_float q) ;;
       Ok (if truthy_str quality
           then quality ++ " " ++ str_of_int k ++ "kHz"
           else str_of_int k ++ "kHz")
     else Ok quality) ;;
  Ok (if truthy_str quality then quality else "Audio").

(** The quality label of video content. *)
Definition video_quality (media : option plex_media) : string :=
  let quality :=
    match media with
    | Some m => show_opt id (getattr (videoResolution m) (Some "1080")) ++ "p"
    | None => "1080p"
    end in
  if endswith "pp" quality then drop_last quality
  else if String.eqb quality "4kp" || String.eqb quality "4Kp" then "4K"
  else quality.

(** The bitrate text: the transcoder's bitrate first, the media's second. *)
Definition bitrate_text (transcode_session : option plex_transcode)
  (media : option plex_media) : res string :=
  let tb := match transcode_session with
            | Some t => getattr (t_bitrate t) None
            | None => None
            end in
  let mb := match media with
            | Some m => getattr (m_bitrate m) None
            | None => None
            end in
  if truthy_opt truthy_int tb then
    b <- need tb ;; q <- int_truediv b 1000 ;; Ok (fmt_f 1 q ++ " Mbps")
  else if truthy_opt truthy_int mb then
    b <- need mb ;; q <- int_truediv b 1000 ;; Ok (fmt_f 1 q ++ " Mbps")
  else Ok "".

(** The three lines of a stream block. *)
Definition stream_block (line1 line2 line3 : string) : string :=
  BLOCK_OPEN ++ line1 ++ NL ++ LINE2_LEAD ++ line2 ++ NL ++ LINE3_LEAD ++ line3
  ++ BLOCK_CLOSE.

(** The body of the [try] in [format_stream_info] after the call of
    [get_library_stats], whose result is [stats]. *)
Definition render_stream (mapping : list (string * string)) (stats : stats)
  (user : string) (session : plex_session) : res string :=
  let displayed_user :=
    match dict_get user mapping with Some d => d | None => user end in
  let section_title := getattr (librarySectionTitle session) (Some "Unknown") in
  let ty := getattr (type_ session) (Some "") in
  let stats_emoji :=
    match section_title with
    | Some t => match dict_get t stats with
                | Some e => Some (emoji e)
                | None => None
                end
    | None => None
    end in
  let content_emoji :=
    if truthy_opt truthy_str stats_emoji then show_opt id stats_emoji
    else if opt_str_eqb ty "track" then GLYPH_TRACK
    else if opt_str_eqb ty "movie" || match ty with None => true | _ => false end
         then GLYPH_MOVIE
    else GLYPH_SHOW in
  title <- _get_formatted_title session ;;
  percent <- progress_percent session ;;
  player <- first_player session ;;
  let is_paused :=
    match player with
    | Some p => opt_str_eqb (getattr (state p) (Some "")) "paused"
    | None => false
    end in
  progress <- progress_display is_paused percent ;;
  current_time <-
    (vo <- dot (viewOffset session) ;;
     t <- plex_time_str (if truthy_opt truthy_int vo
                         then match vo with Some v => v | None => 0 end else 0) ;;
     du <- dot (duration session) ;;
     _format_time t (match du with Some d => d | None => 0 end)) ;;
  total_time <-
    (du <- dot (duration session) ;;
     let d := match du with Some d => d | None => 0 end in
     t <- plex_time_str d ;;
     _format_time t d) ;;
  let media :=
    if hasattr (media session)
       && truthy_opt truthy_list (getattr (media session) None)
    then match getattr (media session) None with
         | Some (m :: _) => Some m
         | _ => None
         end
    else None in
  quality <- (if opt_str_eqb ty "track" then track_quality media
              else Ok (video_quality media)) ;;
  let transcode_session := getattr (transcodeSession session) None in
  let transcode_emoji :=
    match transcode_session with Some _ => GLYPH_TRANSCODE | None => GLYPH_DIRECT end in
  bitrate <- bitrate_text transcode_session media ;;
  product_name <-
    match player with
    | Some p =>
        pr <- (x <- dot (product p) ;; need_obj x) ;;
        Ok (replace "Infuse-Library" "Infuse" (replace "Plex for " "" pr))
    | None => Ok "Unknown"
    end ;;
  Ok (stream_block
        (content_emoji ++ " " ++ title ++ " | " ++ displayed_user)
        (progress ++ " | " ++ current_time ++ "/" ++ total_time)
        (transcode_emoji ++ " " ++ quality ++ " " ++ bitrate ++ " | " ++ product_name)).

(** The text of the [except] branch. *)
Definition stream_placeholder (idx : Z) : string :=
  PLACEHOLDER_LEAD ++ str_of_int idx ++ PLACEHOLDER_TAIL.

(** [PlexCore.format_stream_info]: the cog changes through the call of
    [get_library_stats] only, and keeps that change when a later statement
    raises. *)
Definition format_stream_info (w : world) (c : cog) (session : plex_session)
  (idx : Z) : string * cog :=
  match stream_user session with
  | Raise _ => (stream_placeholder idx, c)
  | Ok user =>
      let '(st, c1) := get_library_stats w c in
      (catch (stats <- st ;; render_stream (user_mapping c) stats user session)
             (fun _ => stream_placeholder idx),
       c1)
  end.

(** The list comprehension of [get_active_streams]: sessions numbered from
    [idx], empty texts dropped. *)
Fixpoint format_streams (w : world) (c : cog) (sessions : list plex_session)
  (idx : Z) : list string * cog :=
  match sessions with
  | [] => ([], c)
  | session :: rest =>
      let '(stream_info, c1) := format_stream_info w c session idx in
      let '(more, c2) := format_streams w c1 rest (idx + 1) in
      (if truthy_str stream_info then stream_info :: more else more, c2)
  end.

(** [PlexCore.get_active_streams] *)
Definition get_active_streams (w : world) (c : cog) : res (list string) * cog :=
  match plex c with
  | None => (Ok [], c)
  | Some _ =>
      match w_sessions w with
      | Raise e => (Raise e, c)
      | Ok sessions =>
          let '(l, c1) := format_streams w c sessions 1 in (Ok l, c1)
      end
  end.

(** * Session formatter: Jellyfin *)

(** [PlexCore._get_jellyfin_formatted_title]; the result is [None] when the
    item has a null name and no year. *)
Definition _get_jellyfin_formatted_title (now_playing : jf_now_playing)
  : res (option string) :=
  let media_type := getattr (np_Type now_playing) (Some "Video") in
  if opt_str_eqb media_type "Episode" then
    n <- need_obj (getattr (np_SeriesName now_playing) (Some "Unknown Show")) ;;
    a <- index (split_on ":" n) 0 ;;
    b <- index (split_on "-" a) 0 ;;
    let series_title := strip b in
    let season_num := getattr (np_ParentIndexNumber now_playing) (Some 0) in
    let episode_num := getattr (np_IndexNumber now_playing) (Some 0) in
    sn <- need season_num ;;
    en <- need episode_num ;;
    Ok (Some (series_title ++ " - S" ++ fmt_0d 2 sn ++ "E" ++ fmt_0d 2 en))
  else
    let title := getattr (np_Name now_playing) (Some "Unknown") in
    let year := getattr (np_ProductionYear now_playing) None in
    if truthy_opt truthy_int year
    then Ok (Some (show_opt id title ++ " (" ++ show_opt str_of_int year ++ ")"))
    else Ok title.

(** [next((s for s in media_streams if s.get("Type") == "Video"), None)] *)
Definition first_video (l : list jf_media_stream) : option jf_media_stream :=
  find (fun st => opt_str_eqb (getattr (ms_Type st) None) "Video") l.

(** The body of the [try] in [format_jellyfin_stream_info]. *)
Definition render_jellyfin_stream (mapping : list (string * string))
  (session : jf_session) : res string :=
  let now_playing := getattr (NowPlayingItem session) (Some empty_now_playing) in
  let play_state := getattr (PlayState session) (Some empty_play_state) in
  let user := getattr (UserName session) (Some "Unknown") in
  let displayed_user :=
    match user with
    | Some u => match dict_get u mapping with Some d => Some d | None => user end
    | None => None
    end in
  np <- need_obj now_playing ;;
  let media_type := getattr (np_Type np) (Some "Video") in
  let content_emoji :=
    if opt_str_eqb media_type "Episode" then GLYPH_SHOW else GLYPH_MOVIE in
  title <- _get_jellyfin_formatted_title np ;;
  ps <- need_obj play_state ;;
  let position_ticks := getattr (PositionTicks ps) (Some 0) in
  let runtime_ticks := getattr (np_RunTimeTicks np) (Some 0) in
  percent <-
    (rt <- need runtime_ticks ;;
     if 0 <? rt then
       pt <- need position_ticks ;;
       q <- int_truediv pt rt ;;
       num_mul (F q) (I 100)
     else Ok (I 0)) ;;
  let is_paused := truthy_opt id (getattr (IsPaused ps) (Some false)) in
  progress <- progress_display is_paused percent ;;
  pt <- need position_ticks ;;
  let current_seconds := pt / 10000000 in
  rt <- need runtime_ticks ;;
  let total_seconds := rt / 10000000 in
  let current_time := _format_jellyfin_time current_seconds total_seconds in
  let total_time := _format_jellyfin_time total_seconds total_seconds in
  media_streams <- need (getattr (np_MediaStreams np) (Some [])) ;;
  let video_stream := first_video media_streams in
  let quality :=
    match video_stream with
    | Some vs =>
        let height := getattr (ms_Height vs) None in
        if truthy_opt truthy_int height
           && match height with Some h => 2160 <=? h | None => false end
        then "4K"
        else if truthy_opt truthy_int height
             then show_opt str_of_int height ++ "p"
             else "Video"
    | None => "Video"
    end in
  let transcode_info := getattr (TranscodingInfo session) None in
  let transcoding := truthy_opt truthy_transcoding_info transcode_info in
  let transcode_emoji := if transcoding then GLYPH_TRANSCODE else GLYPH_DIRECT in
  bitrate <-
    (tb <- (if transcoding
            then match transcode_info with
                 | Some t => b <- need (getattr (ti_Bitrate t) (Some 0)) ;; Ok (Some b)
                 | None => Ok None
                 end
            else Ok None) ;;
     if match tb with Some b => 0 <? b | None => false end then
       b <- need tb ;; q <- int_truediv b 1000000 ;; Ok (" " ++ fmt_f 1 q ++ " Mbps")
     else
       nb <- need (getattr (np_Bitrate np) (Some 0)) ;;
       if 0 <? nb then
         q <- int_truediv nb 1000000 ;; Ok (" " ++ fmt_f 1 q ++ " Mbps")
       else Ok "") ;;
  let client := getattr (Client session) (Some "Unknown") in
  let device_name := getattr (DeviceName session) (Some "") in
  let product_name := if opt_str_eqb client "Unknown" then device_name else client in
  Ok (stream_block
        (content_emoji ++ " " ++ show_opt id title ++ " | " ++ show_opt id displayed_user)
        (progress ++ " | " ++ current_time ++ "/" ++ total_time)
        (transcode_emoji ++ " " ++ quality ++ bitrate ++ " | "
         ++ show_opt id product_name ++ " (JF)")).

Definition jellyfin_placeholder (idx : Z) : string :=
  JF_PLACEHOLDER_LEAD ++ str_of_int idx ++ PLACEHOLDER_TAIL.

(** [PlexCore.format_jellyfin_stream_info] *)
Definition format_jellyfin_stream_info (c : cog) (session : jf_session)
  (idx : Z) : string :=
  catch (render_jellyfin_stream (user_mapping c) session)
        (fun _ => jellyfin_placeholder idx).

(** [PlexCore.get_jellyfin_sessions] *)
Definition get_jellyfin_sessions (w : world) (c : cog) : list jf_session :=
  if negb (jellyfin_enabled c) then []
  else match w_jellyfin w with
       | JfClientError => []
       | JfOtherError => []
       | JfReply status_code body =>
           if negb (status_code =? 200) then []
           else match body with
                | Raise _ => []
                | Ok sessions =>
                    filter (fun s => truthy_opt truthy_now_playing
                                       (getattr (NowPlayingItem s) None))
                           sessions
                end
       end.

(** The loop of [get_jellyfin_streams], sessions numbered from [idx]. *)
Fixpoint jellyfin_streams_from (c : cog) (sessions : list jf_session) (idx : Z)
  : list string :=
  match sessions with
  | [] => []
  | session :: rest =>
      let stream_info := format_jellyfin_stream_info c session idx in
      if truthy_str stream_info
      then stream_info :: jellyfin_streams_from c rest (idx + 1)
      else jellyfin_streams_from c rest (idx + 1)
  end.

(** [PlexCore.get_jellyfin_streams] *)
Definition get_jellyfin_streams (w : world) (c : cog) : list string :=
  jellyfin_streams_from c (get_jellyfin_sessions w c) 1.

(** * Status snapshot *)

(** A download record of the downloads provider; the cog reads its size. *)
Record download : Type := { size : string }.

(** The object the downloads provider returns. *)
Record downloads_info : Type := {
  downloads : attr (list download);
  diskspace1 : attr string;
  diskspacetotal1 : attr string
}.

(** The dict built by [get_server_info] and [get_offline_info]: the online
    snapshot has an [uptime], the offline one an [offline_since];
    [update_dashboard] adds the last two keys. *)
Record server_info : Type := {
  status : string;
  uptime : attr string;
  info_offline_since : attr datetime;
  library_stats : stats;
  active_users : list string;
  current_streams : list plex_session;
  jellyfin_stream_count : attr Z;
  info_downloads : attr downloads_info
}.

(** The loop of [get_offline_info] over the configured sections. *)
Definition offline_stats (configured_sections : list (string * section_config))
  : res stats :=
  rfold (fun (st : stats) (kv : string * section_config) =>
           let title := fst kv in
           config <- match dict_get title configured_sections with
                     | Some cf => Ok cf
                     | None => Raise KeyError
                     end ;;
           wanted <- lookup (sc_show_episodes config) ;;
           name <- lookup (sc_display_name config) ;;
           glyph <- lookup (sc_emoji config) ;;
           flag <- lookup (sc_show_episodes config) ;;
           Ok (dict_set title
                 {| count := 0;
                    episodes := if wanted then 0 else 0;
                    display_name := name;
                    emoji := glyph;
                    show_episodes := flag |} st))
        configured_sections [].

(** [PlexCore.get_offline_info] *)
Definition get_offline_info (w : world) (c : cog) : res server_info * cog :=
  let current_time := w_utcnow w in
  let c1 :=
    match offline_since c with
    | None => set_offline_since c (Some current_time)
    | Some _ => c
    end in
  (configured_sections <- lookup (sections_of (plex_sections (cfg c1))) ;;
   st <- offline_stats configured_sections ;;
   Ok {| status := STATUS_OFFLINE;
         uptime := Absent;
         info_offline_since :=
           match offline_since c1 with Some t => Val t | None => PyNone end;
         library_stats := st;
         active_users := [];
         current_streams := [];
         jellyfin_stream_count := Absent;
         info_downloads := Absent |},
   c1).

(** [PlexCore.get_server_info] *)
Definition get_server_info (w : world) (c : cog) : res server_info * cog :=
  let '(p, c0) := connect_to_plex w c in
  let c1 := set_plex c0 p in
  match plex c1 with
  | None => get_offline_info w c1
  | Some _ =>
      let c2 := set_offline_since c1 None in
      match calculate_uptime w c2 with
      | Raise _ => get_offline_info w c2
      | Ok up =>
          let '(ls, c3) := get_library_stats w c2 in
          match ls with
          | Raise _ => get_offline_info w c3
          | Ok st =>
              let '(au, c4) := get_active_streams w c3 in
              match au with
              | Raise _ => get_offline_info w c4
              | Ok users =>
                  match w_sessions w with
                  | Raise _ => get_offline_info w c4
                  | Ok sessions =>
                      (Ok {| status := STATUS_ONLINE;
                             uptime := Val up;
                             info_offline_since := Absent;
                             library_stats := st;
                             active_users := users;
                             current_streams := sessions;
                             jellyfin_stream_count := Absent;
                             info_downloads := Absent |},
                       c4)
                  end
              end
          end
      end
  end.

(** * Presence updater *)

Inductive discord_status : Type := StatusOnline | StatusDnd.

(** The value of a replacement field of [stream_text.format(count=.., s=..)].
    A name made of digits, and the empty name, number a positional
    argument, of which there is none; any other name is looked up among
    the keywords.  The embedding covers plain names of ASCII characters: a
    field with a conversion, a format specification, an attribute or an
    index is not followed further and is reported as a [ValueError],
    whatever [str.format] makes of it. *)
Definition field_value (count s name : string) : res string :=
  if String.eqb name "count" then Ok count
  else if String.eqb name "s" then Ok s
  else if existsb (fun x => existsb (Ascii.eqb x) ["!"; ":"; "."; "["]%char)
                  (list_ascii_of_string name)
       then Raise ValueError
       else if forallb is_digit (list_ascii_of_string name) then Raise IndexError
            else Raise KeyError.

(** [template.format(count=.., s=..)]: doubled braces are literal braces,
    [{name}] is replaced. [field] holds the name being read. *)
Fixpoint format_aux (count s : string) (field : option string) (t : string)
  : res string :=
  match t with
  | EmptyString =>
      match field with None => Ok EmptyString | Some _ => Raise ValueError end
  | String ch rest =>
      match field with
      | Some name =>
          if Ascii.eqb ch "}" then
            v <- field_value count s name ;;
            r <- format_aux count s None rest ;;
            Ok (v ++ r)
          else if Ascii.eqb ch "{" then Raise ValueError
          else format_aux count s (Some (name ++ String ch EmptyString)) rest
      | None =>
          if Ascii.eqb ch "{" then
            match rest with
            | String "{" rest' =>
                r <- format_aux count s None rest' ;; Ok (String "{" r)
            | _ => format_aux count s (Some EmptyString) rest
            end
          else if Ascii.eqb ch "}" then
            match rest with
            | String "}" rest' =>
                r <- format_aux count s None rest' ;; Ok (String "}" r)
            | _ => Raise ValueError
            end
          else r <- format_aux count s None rest ;; Ok (String ch r)
      end
  end.

Definition format_stream_text (template : string) (count : Z) (s : string)
  : res string :=
  format_aux (str_of_int count) s None template.

(** ['{:,.0f}'.format(n).replace(',', '.')] *)
Definition fmt_count (n : Z) : res string :=
  t <- fmt_num true 0 (I n) ;; Ok (replace "," "." t).

(** The text of one presence section:
    [f"{count with dots} {section['display_name']} {section['emoji']}"]. *)
Definition presence_part (stats : stats) (section : presence_section)
  : res string :=
  title <- lookup (section_title section) ;;
  match dict_get title stats with
  | Some e =>
      n <- fmt_count (count e) ;;
      name <- lookup (ps_display_name section) ;;
      glyph <- lookup (ps_emoji section) ;;
      Ok (n ++ " " ++ name ++ " " ++ glyph)
  | None => Raise KeyError
  end.

(** [presence_parts]: the list comprehension over the configured presence
    sections whose title is a key of the stats; the condition and the text
    of a section are evaluated before the next section is looked at. *)
Fixpoint presence_parts (stats : stats) (l : list presence_section)
  : res (list string) :=
  match l with
  | [] => Ok []
  | section :: rest =>
      title <- lookup (section_title section) ;;
      if dict_has title stats then
        p <- presence_part stats section ;;
        more <- presence_parts stats rest ;;
        Ok (p :: more)
      else presence_parts stats rest
  end.

Definition NO_PRESENCE : string := "No streams or sections configured".

(** The selection of [activity_text] and [status] in [update_status]. *)
Definition select_presence (presence_config : presence_config)
  (info : server_info) (jellyfin_count : Z) : res (string * discord_status) :=
  let active_streams := Z.of_nat (List.length (active_users info)) + jellyfin_count in
  let stats := library_stats info in
  if negb (String.eqb (status info) STATUS_ONLINE) then
    t <- lookup (offline_text presence_config) ;;
    Ok (t, StatusDnd)
  else if 0 <? active_streams then
    template <- lookup (stream_text presence_config) ;;
    t <- format_stream_text template active_streams
           (if negb (active_streams =? 1) then "s" else "") ;;
    Ok (t, StatusOnline)
  else
    sections <- lookup (presence_sections presence_config) ;;
    parts <- presence_parts stats sections ;;
    Ok (if truthy_list parts then join " | " parts else NO_PRESENCE, StatusOnline).

(** [PlexCore.update_status] up to the call of [change_presence]: the
    presence to apply, or [None] when the tick ends in the [except] branch. *)
Definition update_status (w : world) (c : cog)
  : option (string * discord_status) * cog :=
  let '(ri, c1) := get_server_info w c in
  (match ri with
   | Raise _ => None
   | Ok info =>
       let jellyfin_count :=
         if jellyfin_enabled c1
         then Z.of_nat (List.length (get_jellyfin_streams w c1))
         else 0 in
       match select_presence (presence (cfg c1)) info jellyfin_count with
       | Ok r => Some r
       | Raise _ => None
       end
   end, c1).

(** * Dashboard updater *)

(** [PlexCore._calculate_total_size]: the megabytes of one size text ... *)
Definition size_in_mb (sz : string) : res num :=
  match split_ws sz with
  | [value; unit] =>
      value <- float_of_str value ;;
      if String.eqb unit "KB" then q <- num_truediv (F value) (I 1024) ;; Ok (F q)
      else if String.eqb unit "MB" then Ok (F value)
      else if String.eqb unit "GB" then num_mul (F value) (I 1024)
      else Ok (I 0)
  | _ => Raise ValueError
  end.

(** ... the loop that adds them up ... *)
Definition total_size_mb (downloads : list download) : res num :=
  rfold (fun total d =>
           if String.eqb (size d) "Unknown" then Ok total
           else x <- size_in_mb (size d) ;; num_add total x)
        downloads (I 0).

(** ... and the rendering of the total. *)
Definition _calculate_total_size (downloads : list download) : res string :=
  total <- total_size_mb downloads ;;
  if num_ge_int total 1024
  then q <- num_truediv total (I 1024) ;; Ok (fmt_f 2 q ++ " GB")
  else t <- fmt_num false 2 total ;; Ok (t ++ " MB").

(** A field of a [discord.Embed]; the embed is the list of its fields. *)
Record embed_field : Type := {
  name : string;
  value : string;
  inline : bool
}.

Definition embed : Type := list embed_field.

Definition code_block (s : string) : string := "```" ++ s ++ "```".

Definition plural (n : Z) : string := if negb (n =? 1) then "s" else "".

(** The library counters of [_add_embed_fields], one title at a time. *)
Definition section_fields (stats : stats) (title : string) : res (list embed_field) :=
  match dict_get title stats with
  | None => Ok []
  | Some section_data =>
      n <- fmt_count (count section_data) ;;
      let f1 := {| name := display_name section_data ++ " " ++ emoji section_data;
                   value := code_block n; inline := true |} in
      if show_episodes section_data then
        e <- fmt_count (episodes section_data) ;;
        Ok [f1; {| name := display_name section_data ++ EPISODES_SUFFIX;
                   value := code_block e; inline := true |}]
      else Ok [f1]
  end.

(** [enumerate] from [i] mapped through the provider's formatter. *)
Fixpoint format_downloads (fmt : download -> Z -> res string)
  (l : list download) (i : Z) : res (list string) :=
  match l with
  | [] => Ok []
  | d :: rest =>
      t <- fmt d i ;;
      more <- format_downloads fmt rest (i + 1) ;;
      Ok (t :: more)
  end.

(** The download fields of [_add_embed_fields]. [sabnzbd_cog] is the
    downloads provider found in the registry, given by its
    [format_download_info]. *)
Definition download_fields (sabnzbd_cog : option (download -> Z -> res string))
  (info : server_info) : res (list embed_field) :=
  listed <-
    match info_downloads info with
    | Absent => Ok None
    | PyNone => Raise AttributeError
    | Val di => Ok (getattr (downloads di) None)
    end ;;
  if truthy_opt truthy_list listed then
    di <- (x <- key (info_downloads info) ;; need x) ;;
    all <- (x <- key (downloads di) ;; need x) ;;
    let downloads := firstn 4 all in
    let download_count := Z.of_nat (List.length all) in
    fmt <- need_obj sabnzbd_cog ;;
    lines <- format_downloads fmt downloads 0 ;;
    let downloads_text := join NL lines in
    total <- _calculate_total_size downloads ;;
    free <- key (diskspace1 di) ;;
    space <- key (diskspacetotal1 di) ;;
    Ok [ {| name := str_of_int download_count ++ " current Download"
                    ++ plural download_count ++ ":";
            value := downloads_text; inline := false |};
         {| name := FIELD_DOWNLOADS; value := code_block total; inline := true |};
         {| name := FIELD_FREE; value := code_block (show_opt id free); inline := true |};
         {| name := FIELD_TOTAL; value := code_block (show_opt id space); inline := true |} ]
  else
    Ok [ {| name := "Current Downloads:"; value := NO_DOWNLOADS; inline := false |} ].

(** The stream field of [_add_embed_fields]. *)
Definition stream_fields (info : server_info) : list embed_field :=
  if truthy_list (active_users info) then
    let stream_count := Z.of_nat (List.length (active_users info)) in
    let streams_limited := firstn 8 (active_users info) in
    [ {| name := str_of_int stream_count ++ " current Stream" ++ plural stream_count
                 ++ ":" ++ (if 8 <? stream_count
                            then " (showing 8 of " ++ str_of_int stream_count ++ ")"
                            else "");
         value := join " " streams_limited; inline := false |} ]
  else [ {| name := "Current Streams:"; value := NO_STREAMS; inline := false |} ].

Fixpoint rconcat_map {A B : Type} (f : A -> res (list B)) (l : list A) : res (list B) :=
  match l with
  | [] => Ok []
  | a :: rest => x <- f a ;; more <- rconcat_map f rest ;; Ok (x ++ more)%list
  end.

(** [PlexCore._add_embed_fields]: the fields appended to the embed. *)
Definition _add_embed_fields (c : cog)
  (sabnzbd_cog : option (download -> Z -> res string))
  (e : embed) (info : server_info) : res embed :=
  up <- key (uptime info) ;;
  let head :=
    [ {| name := FIELD_UPTIME; value := code_block (show_opt id up); inline := true |};
      {| name := ""; value := ""; inline := true |};
      {| name := ""; value := ""; inline := true |} ] in
  let stats := library_stats info in
  let plex_config := plex_sections (cfg c) in
  configured_sections <- lookup (sections_of plex_config) ;;
  all_wanted <- lookup (show_all plex_config) ;;
  let sections_to_display :=
    if negb all_wanted then map fst configured_sections
    else (map fst configured_sections
          ++ filter (fun k => negb (dict_has k configured_sections)) (map fst stats))%list in
  libs <- rconcat_map (section_fields stats) sections_to_display ;;
  dl <- download_fields sabnzbd_cog info ;;
  Ok (e ++ head ++ libs ++ stream_fields info ++ dl)%list.

(** ** The dashboard message and the file that remembers its id *)

(** The channel and the id file.  Message ids are Discord snowflakes,
    positive integers; the platform picks the id of a new message. *)
Record discord : Type := {
  messages : list (positive * embed);
  next_message_id : positive;
  id_file : option Z;
  id_file_writes : nat
}.

(** What goes wrong outside the process during one update. *)
Record faults : Type := {
  fetch_fault : bool;          (* [fetch_message] fails other than by NotFound *)
  edit_fault : option exn;     (* [message.edit] raises this *)
  send_fault : bool;           (* [channel.send] fails *)
  write_fault : bool           (* opening the id file raises [OSError] *)
}.

Definition has_message (d : discord) (p : positive) : bool :=
  existsb (fun m => Pos.eqb (fst m) p) (messages d).

(** [channel.fetch_message(id)] *)
Definition fetch_message (f : faults) (d : discord) (id : Z) : res positive :=
  if fetch_fault f then Raise ExternalError
  else match id with
       | Zpos p => if has_message d p then Ok p else Raise NotFound
       | _ => Raise NotFound
       end.

(** [message.edit(embed=e)] *)
Definition edit_message (f : faults) (d : discord) (p : positive) (e : embed)
  : res discord :=
  match edit_fault f with
  | Some x => Raise x
  | None =>
      Ok {| messages := map (fun m => if Pos.eqb (fst m) p then (p, e) else m)
                            (messages d);
            next_message_id := next_message_id d;
            id_file := id_file d;
            id_file_writes := id_file_writes d |}
  end.

(** [channel.send(embed=e)]: the new message and its id. *)
Definition send_message (f : faults) (d : discord) (e : embed)
  : res (positive * discord) :=
  if send_fault f then Raise ExternalError
  else Ok (next_message_id d,
           {| messages := (messages d ++ [(next_message_id d, e)])%list;
              next_message_id := Pos.succ (next_message_id d);
              id_file := id_file d;
              id_file_writes := id_file_writes d |}).

(** [PlexCore._save_message_id]: an [OSError] is logged and swallowed. *)
Definition _save_message_id (f : faults) (d : discord) (message_id : Z) : discord :=
  if write_fault f then d
  else {| messages := messages d;
          next_message_id := next_message_id d;
          id_file := Some message_id;
          id_file_writes := S (id_file_writes d) |}.

(** The second [if] of [_update_dashboard_message]. *)
Definition create_if_unknown (f : faults) (c : cog) (d : discord) (e : embed)
  : res unit * cog * discord :=
  if negb (truthy_opt truthy_int (dashboard_message_id c)) then
    match send_message f d e with
    | Raise x => (Raise x, c, d)
    | Ok (id, d1) =>
        let c1 := set_dashboard_message_id c (Some (Zpos id)) in
        (Ok tt, c1, _save_message_id f d1 (Zpos id))
    end
  else (Ok tt, c, d).

(** [PlexCore._update_dashboard_message] *)
Definition _update_dashboard_message (f : faults) (c : cog) (d : discord)
  (e : embed) : res unit * cog * discord :=
  if truthy_opt truthy_int (dashboard_message_id c) then
    match (id <- need (dashboard_message_id c) ;;
           p <- fetch_message f d id ;;
           edit_message f d p e) with
    | Ok d1 => create_if_unknown f c d1 e
    | Raise NotFound =>
        create_if_unknown f (set_dashboard_message_id c None) d e
    | Raise x => (Raise x, c, d)
    end
  else create_if_unknown f c d e.

(** * Definitions used to state the properties *)

(** Checking a decidable property on an initial segment of the integers. *)
Definition all_below (n : nat) (p : Z -> bool) : bool :=
  forallb p (map Z.of_nat (seq 0 n)).

(** A number below one hundred written with exactly two digits. *)
Definition two_digits (n : Z) : string :=
  String (digit_char (n / 10)) (String (digit_char (n mod 10)) EmptyString).

(** The float nearest to an integer. *)
Definition float_of_Z (n : Z) : float := binary_normalize prec emax n 0 false.

(** ** Total download size, as the specification words it

    Each size is normalised to megabytes, the values are added up from the
    left, and the sum is shown in GB from 1024 MB on. *)

Inductive size_unit : Type := KB | MB | GB.

Definition unit_text (u : size_unit) : string :=
  match u with KB => "KB" | MB => "MB" | GB => "GB" end.

Definition spec_megabytes (x : float) (u : size_unit) : float :=
  match u with
  | KB => SFdiv prec emax x (float_of_Z 1024)
  | MB => x
  | GB => fmul x (float_of_Z 1024)
  end.

Definition spec_sum_mb (l : list (float * size_unit)) : float :=
  fold_left (fun acc xu => fadd acc (spec_megabytes (fst xu) (snd xu)))
            l (S754_zero false).

Definition spec_render_total (mb : float) : string :=
  if float_ge_int mb 1024
  then fmt_f 2 (SFdiv prec emax mb (float_of_Z 1024)) ++ " GB"
  else fmt_f 2 mb ++ " MB".

(** The size text of [d] is the number [fst xu] followed by the unit
    [snd xu]. *)
Definition labelled (d : download) (xu : float * size_unit) : Prop :=
  exists v, split_ws (size d) = [v; unit_text (snd xu)]
            /\ float_of_str v = Ok (fst xu).

(** The size text of [d] is ["Unknown"], or an ASCII text made of a
    number followed by one more word, whatever that word is. *)
Definition sized (d : download) : Prop :=
  size d = "Unknown"
  \/ (ascii_text (size d) = true
      /\ exists v u x, split_ws (size d) = [v; u] /\ float_of_str v = Ok x).

(** How a size text is read: ["Unknown"] is left out, a number with KB, MB
    or GB counts with its megabytes, a number with any other unit word
    counts as zero. *)
Inductive size_reading : Type :=
  | Skipped
  | Counted (x : float) (u : size_unit)
  | Unrecognised.

Definition reads_as (d : download) (r : size_reading) : Prop :=
  match r with
  | Skipped => size d = "Unknown"
  | Counted x u => labelled d (x, u)
  | Unrecognised =>
      ascii_text (size d) = true
      /\ exists v u x,
           split_ws (size d) = [v; u] /\ float_of_str v = Ok x
           /\ u <> "KB" /\ u <> "MB" /\ u <> "GB"
  end.

(** The megabytes a reading adds to the total, if it adds any. *)
Definition reading_megabytes (r : size_reading) : option float :=
  match r with
  | Skipped => None
  | Counted x u => Some (spec_megabytes x u)
  | Unrecognised => Some (float_of_Z 0)
  end.

Definition spec_total_mb (l : list size_reading) : float :=
  fold_left (fun acc r =>
               match reading_megabytes r with
               | Some y => fadd acc y
               | None => acc
               end)
            l (S754_zero false).

(** ** Sample inputs *)

Definition sample_config : config :=
  {| dashboard := {| dash_name := Some "Plex Dashboard"; icon_url := Some "";
                     footer_icon_url := Some "" |};
     plex_sections :=
       {| show_all := Some true;
          sections_of :=
            Some [("Movies", {| sc_display_name := Some "Films";
                                sc_emoji := Some "M";
                                sc_show_episodes := Some false |});
                  ("TV", {| sc_display_name := Some "Series";
                            sc_emoji := Some "T";
                            sc_show_episodes := Some true |})] |};
     presence :=
       {| presence_sections := Some [];
          offline_text := Some DEFAULT_OFFLINE_TEXT;
          stream_text := Some DEFAULT_STREAM_TEXT |} |}.

(** The cog right after [__init__]. *)
Definition sample_cog : cog :=
  {| cfg := sample_config; plex := None; plex_start_time := None;
     dashboard_message_id := None; offline_since := None;
     library_cache := []; last_library_update := None;
     library_update_interval := I 900; user_mapping := [];
     jellyfin_enabled := true |}.

Definition sample_items (n : nat) : list plex_item :=
  repeat {| leafCount := Val 10 |} n.

(** A reachable server with three libraries and no session, at [now]
    seconds on every clock. *)
Definition sample_world (now : Z) : world :=
  {| w_connect := true;
     w_sections := Ok [ {| sec_title := "TV"; sec_all := Ok (sample_items 3) |};
                        {| sec_title := "Movies"; sec_all := Ok (sample_items 12) |};
                        {| sec_title := "Music"; sec_all := Ok (sample_items 2) |} ];
     w_sessions := Ok [];
     w_time := float_of_Z now;
     w_now := now * 1000000;
     w_utcnow := now * 1000000;
     w_jellyfin := JfReply 200 (Ok []) |}.

(** ** Clock texts *)

(** [s] does not hold the character [c]. *)
Fixpoint lacks (c : ascii) (s : string) : bool :=
  match s with
  | EmptyString => true
  | String x rest => negb (Ascii.eqb x c) && lacks c rest
  end.

Definition res_Z_eqb (a : res Z) (b : Z) : bool :=
  match a with Ok x => x =? b | Raise _ => false end.

(** The clock text of [secs] seconds into a day, as [str(timedelta)] writes
    it. *)
Definition clock_text (secs : Z) : string :=
  str_of_int (secs / 60 / 60) ++ ":" ++ fmt_0d 2 (secs / 60 mod 60) ++ ":"
  ++ fmt_0d 2 (secs mod 60).

(** A film of exactly one day, not yet started, played by one user. *)
Definition day_long_session : plex_session :=
  {| usernames := Val ["kim"]; librarySectionTitle := Val "Movies";
     type_ := Val "movie"; title := Val "Around the Clock";
     grandparentTitle := Absent; parentIndex := Absent; index_ := Absent;
     year := Val 1999; viewOffset := Val 0; duration := Val 86400000;
     players := Val [ {| state := Val "playing"; product := Val "Plex Web" |} ];
     media := Val []; transcodeSession := PyNone |}.

(** The running total is the int 0 the loop starts with, or a float. *)
Definition running (a : num) (x : float) : Prop :=
  (a = I 0 /\ x = S754_zero false) \/ a = F x.


(** ** Staleness of the library cache

    [fresh_at w c]: a refresh time is known and the seconds elapsed since,
    as [total_seconds] gives them, do not exceed the interval.
    [stale_at w c]: no refresh time is known, or the elapsed seconds exceed
    the interval. *)
Definition fresh_at (w : world) (c : cog) : Prop :=
  exists t d x,
    last_library_update c = Some t /\ datetime_sub (w_now w) t = Ok d
    /\ total_seconds d = Ok x
    /\ float_le_num x (library_update_interval c) = true.

Definition stale_at (w : world) (c : cog) : Prop :=
  last_library_update c = None
  \/ exists t d x,
       last_library_update c = Some t /\ datetime_sub (w_now w) t = Ok d
       /\ total_seconds d = Ok x
       /\ float_le_num x (library_update_interval c) = false.

(** A cache filled at second [at_]: five films. *)
Definition sample_cached_cog (at_ : Z) : cog :=
  set_library_cache sample_cog
    [("Movies", {| count := 5; episodes := 0; display_name := "Films";
                   emoji := "M"; show_episodes := false |})]
    (Some (at_ * 1000000)).

(** ** Presence: sample snapshots *)

Definition online_info (users : list string) (st : stats) : server_info :=
  {| status := STATUS_ONLINE; uptime := Val "00:10"; info_offline_since := Absent;
     library_stats := st; active_users := users; current_streams := [];
     jellyfin_stream_count := Absent; info_downloads := Absent |}.

Definition films (n : Z) : stats :=
  [("Movies", {| count := n; episodes := 0; display_name := "Films";
                 emoji := "M"; show_episodes := false |})].

Definition sample_presence (l : list presence_section) : presence_config :=
  {| presence_sections := Some l; offline_text := Some DEFAULT_OFFLINE_TEXT;
     stream_text := Some DEFAULT_STREAM_TEXT |}.

(** The library summary as the specification words it: the texts joined by
    " | ". *)
Definition spec_summary (parts : list string) : string := join " | " parts.

(** The glyph that ends the default stream text. *)
Definition GLYPH_ONLINE : string := "ðŸŸ¢".

(** ** Presence sections *)

(** A presence section with its three keys. *)
Definition complete_presence_section (section : presence_section) : Prop :=
  exists t name glyph,
    section_title section = Some t /\ ps_display_name section = Some name
    /\ ps_emoji section = Some glyph.

(** The presence sections whose title is a key of the stats. *)
Definition found_sections (stats : stats) (l : list presence_section)
  : list presence_section :=
  filter (fun section =>
            match section_title section with
            | Some t => dict_has t stats
            | None => false
            end) l.

(** [part] is the text of [section]: the dotted count of its library, its
    display name and its emoji. *)
Definition presence_text (stats : stats) (section : presence_section)
  (part : string) : Prop :=
  exists t e cnt name glyph,
    section_title section = Some t /\ dict_get t stats = Some e
    /\ fmt_count (count e) = Ok cnt
    /\ ps_display_name section = Some name /\ ps_emoji section = Some glyph
    /\ part = cnt ++ " " ++ name ++ " " ++ glyph.

(** ** Dashboard message: sample channel *)

Definition no_faults : faults :=
  {| fetch_fault := false; edit_fault := None; send_fault := false;
     write_fault := false |}.

Definition old_embed : embed :=
  [ {| name := "Server Uptime"; value := "00:01"; inline := true |} ].

Definition new_embed : embed :=
  [ {| name := "Server Uptime"; value := "00:02"; inline := true |} ].

(** A channel that holds message 42 (the dashboard) and message 57. *)
Definition sample_discord (stored : Z) : discord :=
  {| messages := [(42%positive, old_embed); (57%positive, [])];
     next_message_id := 90%positive;
     id_file := Some stored;
     id_file_writes := 0 |}.

(** ** Offline snapshots *)

(** The entry of a configured library in the offline snapshot, when the
    library has its three settings. *)
Definition zero_stats (config : section_config) : option section_stats :=
  match sc_display_name config, sc_emoji config, sc_show_episodes config with
  | Some name, Some glyph, Some flag =>
      Some {| count := 0; episodes := 0; display_name := name;
              emoji := glyph; show_episodes := flag |}
  | _, _, _ => None
  end.

(** The [plex_sections] group has its [sections], and every library in it
    has its three settings. *)
Definition complete_sections (c : cog) : Prop :=
  exists configured,
    sections_of (plex_sections (cfg c)) = Some configured
    /\ forall k config, dict_get k configured = Some config ->
                        zero_stats config <> None.

Definition status_of (r : res server_info) : option string :=
  match r with Ok i => Some (status i) | Raise _ => None end.

Definition offline_since_of (r : res server_info) : option datetime :=
  match r with
  | Ok i => match info_offline_since i with Val t => Some t | _ => None end
  | Raise _ => None
  end.

(** The server accepts the connection but listing the sessions fails. *)
Definition flaky_world (now : Z) : world :=
  {| w_connect := true;
     w_sections := Ok [ {| sec_title := "Movies"; sec_all := Ok (sample_items 12) |} ];
     w_sessions := Raise ExternalError;
     w_time := float_of_Z now;
     w_now := now * 1000000;
     w_utcnow := now * 1000000;
     w_jellyfin := JfReply 200 (Ok []) |}.

(** The server refuses the connection. *)
Definition down_world (now : Z) : world :=
  {| w_connect := false;
     w_sections := Raise ExternalError;
     w_sessions := Raise ExternalError;
     w_time := float_of_Z now;
     w_now := now * 1000000;
     w_utcnow := now * 1000000;
     w_jellyfin := JfReply 200 (Ok []) |}.

(** ** Stream blocks and placeholders *)

(** [s] has the shape of a stream block: the opening fence, three lines,
    the closing fence. *)
Definition is_stream_block (s : string) : Prop :=
  exists line1 line2 line3, s = stream_block line1 line2 line3.

(** The placeholder as the specification quotes it. *)
Definition spec_placeholder (idx : Z) : string :=
  "Stream could not be loaded (#" ++ str_of_int idx ++ ")".

(** A live-TV session of Jellyfin: the item has no running time. *)
Definition live_tv_session : jf_session :=
  {| NowPlayingItem :=
       Val {| np_Type := Val "TvChannel"; np_SeriesName := Absent;
              np_ParentIndexNumber := Absent; np_IndexNumber := Absent;
              np_Name := Val "News"; np_ProductionYear := Absent;
              np_RunTimeTicks := PyNone; np_MediaStreams := Val [];
              np_Bitrate := Absent; np_more := true |};
     PlayState := Val {| PositionTicks := Val 0; IsPaused := Val false |};
     UserName := Val "kim"; TranscodingInfo := PyNone;
     Client := Val "Jellyfin Web"; DeviceName := Val "Firefox" |}.

(** A film on Jellyfin, ten minutes into forty. *)
Definition film_session : jf_session :=
  {| NowPlayingItem :=
       Val {| np_Type := Val "Movie"; np_SeriesName := Absent;
              np_ParentIndexNumber := Absent; np_IndexNumber := Absent;
              np_Name := Val "Heat"; np_ProductionYear := Val 1995;
              np_RunTimeTicks := Val 24000000000; np_MediaStreams := Val [];
              np_Bitrate := Absent; np_more := true |};
     PlayState := Val {| PositionTicks := Val 6000000000; IsPaused := Val false |};
     UserName := Val "kim"; TranscodingInfo := PyNone;
     Client := Val "Jellyfin Web"; DeviceName := Val "Firefox" |}.

(** A Plex session without a title. *)
Definition untitled_session : plex_session :=
  {| usernames := Val ["kim"]; librarySectionTitle := Val "Movies";
     type_ := Val "movie"; title := Absent;
     grandparentTitle := Absent; parentIndex := Absent; index_ := Absent;
     year := Absent; viewOffset := Val 0; duration := Val 600000;
     players := Val []; media := Val []; transcodeSession := PyNone |}.

(** ** Relations between two states of the cog *)

(** [c'] differs from [c] in the library cache and its clock at most. *)
Definition same_but_cache (c c' : cog) : Prop :=
  cfg c' = cfg c /\ plex c' = plex c
  /\ plex_start_time c' = plex_start_time c
  /\ dashboard_message_id c' = dashboard_message_id c
  /\ offline_since c' = offline_since c
  /\ library_update_interval c' = library_update_interval c
  /\ user_mapping c' = user_mapping c
  /\ jellyfin_enabled c' = jellyfin_enabled c.

(** A handle is stored exactly when a start time is stored. *)
Definition linked (c : cog) : Prop :=
  plex c = None <-> plex_start_time c = None.

(** ** The template of the stream count *)

(** A replacement field that [str.format] looks up by name among the
    keywords: made of ASCII characters, without conversion, format
    specification, attribute or index, and not a number (which the empty
    name counts as). *)
Definition plain_field (name : string) : bool :=
  ascii_text name
  && negb (existsb (fun x => existsb (Ascii.eqb x) ["!"; ":"; "."; "["]%char)
                   (list_ascii_of_string name))
  && negb (forallb is_digit (list_ascii_of_string name)).

(** ** Library statistics: what a refresh stores *)

(** The dict [{section.title: section for section in ...}]. *)
Definition sections_by_title (secs : list plex_library_section)
  : list (string * plex_library_section) :=
  fold_left (fun d s => dict_set (sec_title s) s d) secs [].

(** The section the server lists last under [title]. *)
Definition section_named (title : string) (secs : list plex_library_section)
  : option plex_library_section :=
  find (fun s => String.eqb title (sec_title s)) (rev secs).

(** The entry of a library that is not configured. *)
Definition default_stats (title : string) (n : Z) : section_stats :=
  {| count := n; episodes := 0; display_name := title; emoji := DEFAULT_EMOJI;
     show_episodes := false |}.

(** The titles of [secs], each once, in the order of first appearance. *)
Fixpoint first_titles (seen : list string) (secs : list plex_library_section)
  : list string :=
  match secs with
  | [] => []
  | s :: rest =>
      if existsb (String.eqb (sec_title s)) seen then first_titles seen rest
      else sec_title s :: first_titles (sec_title s :: seen) rest
  end.

Definition listed (title : string) (secs : list plex_library_section) : bool :=
  existsb (fun s => String.eqb title (sec_title s)) secs.

(** * Dashboard tick *)

(** ** Calendar dates

    From here on the time line of [datetime] starts at 0001-01-01 00:00:00:
    day [n] of the line is the date of proleptic Gregorian ordinal [n + 1].
    The largest datetime is the last microsecond of 9999-12-31. *)

Definition DAY_US : Z := 86400000000.
Definition HOUR_US : Z := 3600000000.
Definition MAX_DAYS : Z := 3652059.

(** [t + timedelta(microseconds=us)] on a datetime *)
Definition datetime_add_us (t : datetime) (us : Z) : res datetime :=
  let r := t + us in
  if (r <? 0) || (MAX_DAYS * DAY_US <=? r) then Raise OverflowError else Ok r.

Definition DAYS_IN_MONTH : list Z :=
  [31; 28; 31; 30; 31; 30; 31; 31; 30; 31; 30; 31].

(** The days of the year before the first of [month], leap day aside. *)
Definition DAYS_BEFORE_MONTH (month : Z) : Z :=
  fold_left Z.add (firstn (Z.to_nat (month - 1)) DAYS_IN_MONTH) 0.

(** Year, month and day of the [n]-th day of the time line, counted from 0
    (the [_ord2ymd] of the [datetime] module, on [ordinal - 1]). *)
Definition ord2ymd (n : Z) : Z * Z * Z :=
  let n400 := n / 146097 in
  let n := n mod 146097 in
  let n100 := n / 36524 in
  let n := n mod 36524 in
  let n4 := n / 1461 in
  let n := n mod 1461 in
  let n1 := n / 365 in
  let n := n mod 365 in
  let year := n400 * 400 + 1 + n100 * 100 + n4 * 4 + n1 in
  if (n1 =? 4) || (n100 =? 4) then (year - 1, 12, 31)
  else
    let leapyear := (n1 =? 3) && (negb (n4 =? 24) || (n100 =? 3)) in
    let month := Z.shiftr (n + 50) 5 in
    let preceding :=
      DAYS_BEFORE_MONTH month + (if (2 <? month) && leapyear then 1 else 0) in
    if n <? preceding then
      let month := month - 1 in
      let preceding :=
        preceding
        - (nth (Z.to_nat (month - 1)) DAYS_IN_MONTH 0
           + (if (month =? 2) && leapyear then 1 else 0)) in
      (year, month, n - preceding + 1)
    else (year, month, n - preceding + 1).

(** [t.strftime("%d.%m.%Y %H:%M")]; the year is written with four digits,
    which is what every platform does from the year 1000 on. *)
Definition strftime_dmy_hm (t : datetime) : string :=
  let '(y, m, d) := ord2ymd (t / DAY_US) in
  let secs := (t mod DAY_US) / 1000000 in
  fmt_0d 2 d ++ "." ++ fmt_0d 2 m ++ "." ++ fmt_0d 4 y ++ " "
  ++ fmt_0d 2 (secs / 3600) ++ ":" ++ fmt_0d 2 (secs mod 3600 / 60).

(** ** The embed *)

(** The [time_diff_str] of [create_dashboard_embed]. *)
Definition time_diff_str (now offline_since_dt : datetime) : res string :=
  time_diff <- datetime_sub now offline_since_dt ;;
  let days := td_days time_diff in
  let hours := td_seconds time_diff / 3600 in
  let minutes := td_seconds time_diff mod 3600 / 60 in
  Ok (if 0 <? days then
        str_of_int days ++ " day" ++ plural days ++ ", "
        ++ str_of_int hours ++ " hour" ++ plural hours ++ ", "
        ++ str_of_int minutes ++ " minute" ++ plural minutes ++ " ago"
      else if 0 <? hours then
        str_of_int hours ++ " hour" ++ plural hours ++ ", "
        ++ str_of_int minutes ++ " minute" ++ plural minutes ++ " ago"
      else if 0 <? minutes then
        str_of_int minutes ++ " minute" ++ plural minutes ++ " ago"
      else "Just now").

(** The keys [update_dashboard] copies from the uptime provider into the
    snapshot; they are set together. *)
Record uptime_texts : Type := {
  uptime_24h : string;
  uptime_7d : string;
  uptime_30d : string;
  last_offline : string
}.

Definition TITLE_OFFLINE : string := "Server is currently Offline! :warning:".
Definition TITLE_ONLINE : string := "Server is currently Online! :white_check_mark:".

(** The title of the embed in [create_dashboard_embed]. *)
Definition dashboard_title (info : server_info) : string :=
  if negb (String.eqb (status info) STATUS_ONLINE) then TITLE_OFFLINE
  else TITLE_ONLINE.

(** [PlexCore.create_dashboard_embed]: the fields of the embed.
    [sabnzbd_cog] and [uptime_cog] are what the registry answers, [uptimes]
    the uptime keys of the snapshot, [now] the clock at the time of the
    call.  The title, the author, the thumbnail and the footer are not part
    of [embed]; the configuration keys they are taken from are read all the
    same, since reading them can raise. *)
Definition create_dashboard_embed (c : cog)
  (sabnzbd_cog : option (download -> Z -> res string)) (uptime_cog : bool)
  (uptimes : option uptime_texts) (now : datetime) (info : server_info)
  : res embed :=
  let dashboard_config := dashboard (cfg c) in
  fields <-
    (if negb (String.eqb (status info) STATUS_ONLINE) then
       since <- key (info_offline_since info) ;;
       texts <-
         match since with
         | Some offline_since_dt =>
             shifted <- datetime_add_us offline_since_dt HOUR_US ;;
             diff <- time_diff_str now offline_since_dt ;;
             Ok (strftime_dmy_hm shifted, diff)
         | None => Ok ("Unknown", "Unknown duration")
         end ;;
       let first :=
         {| name := "Offline since:";
            value := code_block (fst texts ++ NL ++ snd texts);
            inline := false |} in
       Ok (first ::
           match uptimes with
           | Some u =>
               if uptime_cog && negb (String.eqb (uptime_24h u) "No data") then
                 [ {| name := "Uptime (24h)"; value := code_block (uptime_24h u);
                      inline := true |};
                   {| name := "Uptime (7 days)"; value := code_block (uptime_7d u);
                      inline := true |};
                   {| name := "Uptime (30 days)"; value := code_block (uptime_30d u);
                      inline := true |} ]
               else []
           | None => []
           end)
     else _add_embed_fields c sabnzbd_cog [] info) ;;
  author_name <- lookup (dash_name dashboard_config) ;;
  author_icon <- lookup (icon_url dashboard_config) ;;
  thumbnail <- lookup (icon_url dashboard_config) ;;
  footer_icon <- lookup (footer_icon_url dashboard_config) ;;
  Ok fields.

(** ** The other cogs and the channel *)

(** The downloads provider: the outcome of [get_sabnzbd_info] and its
    [format_download_info]. *)
Record sabnzbd : Type := {
  get_sabnzbd_info : res (option downloads_info);
  format_download_info : download -> Z -> res string
}.

(** The tuple of [get_uptime_data]; in place of the three durations, the
    outcome of [format_online_time] on them. *)
Record uptime_data : Type := {
  pct_24h : option num;
  online_24h : res string;
  pct_7d : option num;
  online_7d : res string;
  pct_30d : option num;
  online_30d : res string;
  ud_last_offline : option string
}.

(** What the bot answers during one tick of the dashboard. *)
Record bot : Type := {
  bot_channel : bool;                        (* [get_channel] finds the channel *)
  bot_sabnzbd : option sabnzbd;              (* [get_cog("SABnzbd")] *)
  bot_uptime : option (res uptime_data);     (* [get_cog("Uptime")] and its data *)
  bot_utcnow : datetime                      (* the clock when the embed is built *)
}.

(** [f"{pct:.1f}% ({format_online_time(t)})" if pct is not None else "No data"] *)
Definition uptime_text (pct : option num) (online : res string) : res string :=
  match pct with
  | Some x =>
      p <- fmt_num false 1 x ;;
      t <- online ;;
      Ok (p ++ "% (" ++ t ++ ")")
  | None => Ok "No data"
  end.

Definition uptime_keys (data : uptime_data) : res uptime_texts :=
  a <- uptime_text (pct_24h data) (online_24h data) ;;
  b <- uptime_text (pct_7d data) (online_7d data) ;;
  c <- uptime_text (pct_30d data) (online_30d data) ;;
  Ok {| uptime_24h := a; uptime_7d := b; uptime_30d := c;
        last_offline :=
          if truthy_opt truthy_str (ud_last_offline data)
          then show_opt id (ud_last_offline data) else "Not available" |}.

(** The snapshot with the Jellyfin streams put after the Plex streams. *)
Definition with_jellyfin (info : server_info) (jellyfin_streams : list string)
  : server_info :=
  {| status := status info; uptime := uptime info;
     info_offline_since := info_offline_since info;
     library_stats := library_stats info;
     active_users := (active_users info ++ jellyfin_streams)%list;
     current_streams := current_streams info;
     jellyfin_stream_count := Val (Z.of_nat (List.length jellyfin_streams));
     info_downloads := info_downloads info |}.

Definition with_jellyfin_count (info : server_info) (n : Z) : server_info :=
  {| status := status info; uptime := uptime info;
     info_offline_since := info_offline_since info;
     library_stats := library_stats info;
     active_users := active_users info;
     current_streams := current_streams info;
     jellyfin_stream_count := Val n;
     info_downloads := info_downloads info |}.

Definition with_downloads (info : server_info) (d : option downloads_info)
  : server_info :=
  {| status := status info; uptime := uptime info;
     info_offline_since := info_offline_since info;
     library_stats := library_stats info;
     active_users := active_users info;
     current_streams := current_streams info;
     jellyfin_stream_count := jellyfin_stream_count info;
     info_downloads := match d with Some x => Val x | None => PyNone end |}.

(** The body of the [try] in [update_dashboard] up to the embed. *)
Definition dashboard_embed (b : bot) (w : world) (c : cog) : res embed * cog :=
  let '(ri, c1) := get_server_info w c in
  (info <- ri ;;
   let info :=
     if jellyfin_enabled c1
     then with_jellyfin info (get_jellyfin_streams w c1)
     else with_jellyfin_count info 0 in
   info <- match bot_sabnzbd b with
           | Some s => d <- get_sabnzbd_info s ;; Ok (with_downloads info d)
           | None => Ok info
           end ;;
   uptimes <- match bot_uptime b with
              | Some u => data <- u ;; t <- uptime_keys data ;; Ok (Some t)
              | None => Ok None
              end ;;
   create_dashboard_embed c1
     (match bot_sabnzbd b with
      | Some s => Some (format_download_info s)
      | None => None
      end)
     (match bot_uptime b with Some _ => true | None => false end)
     uptimes (bot_utcnow b) info,
   c1).

(** [PlexCore.update_dashboard]: one tick. *)
Definition update_dashboard (f : faults) (b : bot) (w : world) (c : cog)
  (d : discord) : cog * discord :=
  if negb (bot_channel b) then (c, d)
  else
    let '(re, c1) := dashboard_embed b w c in
    match re with
    | Raise _ => (c1, d)
    | Ok e =>
        let '(_, c2, d2) := _update_dashboard_message f c1 d e in (c2, d2)
    end.

(** ** Definitions used to state the properties of the tick *)

(** The duration text for [m] whole minutes, as a reader would put it. *)
Definition spec_duration (m : Z) : string :=
  let d := m / 1440 in
  let h := m / 60 mod 24 in
  let mi := m mod 60 in
  if m =? 0 then "Just now"
  else if m <? 60 then
    str_of_int mi ++ " minute" ++ plural mi ++ " ago"
  else if m <? 1440 then
    str_of_int h ++ " hour" ++ plural h ++ ", "
    ++ str_of_int mi ++ " minute" ++ plural mi ++ " ago"
  else
    str_of_int d ++ " day" ++ plural d ++ ", "
    ++ str_of_int h ++ " hour" ++ plural h ++ ", "
    ++ str_of_int mi ++ " minute" ++ plural mi ++ " ago".

(** The embed that message [p] of the channel holds. *)
Definition message_embed (d : discord) (p : positive) : option embed :=
  option_map snd (find (fun m => Pos.eqb (fst m) p) (messages d)).

(** A tick of the dashboard with every cog present and nothing failing. *)
Definition sample_bot (now : Z) : bot :=
  {| bot_channel := true;
     bot_sabnzbd := None;
     bot_uptime := None;
     bot_utcnow := now * 1000000 |}.

(** 2024-02-29 23:30:00 in seconds of the time line. *)
Definition LEAP_DAY_EVENING : Z := (738944 * 86400) + 23 * 3600 + 30 * 60.

(** * Files read at start-up *)

(** A JSON value as [json.load] returns it. *)
#[warnings="-register-all"]
Inductive json : Type :=
| JNull
| JBool (b : bool)
| JInt (n : Z)
| JFloat (x : float)
| JStr (s : string)
| JArr (l : list json)
| JObj (o : list (string * json)).

(** What opening and decoding a file comes to. *)
Inductive file_state : Type :=
| FileMissing          (* no such file *)
| FileUnreadable       (* [open] raises another [OSError] *)
| FileNotText          (* the bytes are not UTF-8: [UnicodeDecodeError] *)
| FileNotJson          (* [json.JSONDecodeError] *)
| FileJson (j : json).

(** [int(v)] for a decoded value; a [bool] is an [int]. *)
Definition int_of_json (v : json) : res Z :=
  match v with
  | JNull => Raise TypeError
  | JBool b => Ok (if b then 1 else 0)
  | JInt n => Ok n
  | JFloat x => int_of_float x
  | JStr s => int_of_str s
  | JArr _ => Raise TypeError
  | JObj _ => Raise TypeError
  end.

(** [PlexCore._load_message_id].  The [except] clause names
    [JSONDecodeError] and [ValueError]; [UnicodeDecodeError] is a
    [ValueError].  An [OSError] is reported as [ExternalError]. *)
Definition _load_message_id (file : file_state) : res (option Z) :=
  match file with
  | FileMissing => Ok None
  | FileUnreadable => Raise ExternalError
  | FileNotText => Ok None
  | FileNotJson => Ok None
  | FileJson data =>
      match data with
      | JObj o =>
          let v := match dict_get "message_id" o with
                   | Some v => v
                   | None => JNull
                   end in
          match int_of_json v with
          | Ok n => Ok (Some n)
          | Raise ValueError => Ok None
          | Raise x => Raise x
          end
      | _ => Raise AttributeError
      end
  end.

(** The id file as [_save_message_id] leaves it:
    [json.dump({"message_id": id}, f)]. *)
Definition id_file_state (d : discord) : file_state :=
  match id_file d with
  | Some id => FileJson (JObj [("message_id", JInt id)])
  | None => FileMissing
  end.

Definition default_config : list (string * json) :=
  [ ("dashboard", JObj [ ("name", JStr "Plex Dashboard"); ("icon_url", JStr EmptyString);
                         ("footer_icon_url", JStr EmptyString) ]);
    ("plex_sections", JObj [ ("show_all", JBool true); ("sections", JObj []) ]);
    ("presence", JObj [ ("sections", JArr []);
                        ("offline_text", JStr DEFAULT_OFFLINE_TEXT);
                        ("stream_text", JStr DEFAULT_STREAM_TEXT) ]);
    ("cache", JObj [ ("library_update_interval", JInt 900) ]) ].

(** [{**a, **b}] *)
Definition dict_merge {V : Type} (a b : list (string * V)) : list (string * V) :=
  fold_left (fun d kv => dict_set (fst kv) (snd kv) d) b a.

(** [PlexCore._load_config].  The [except] clause names
    [FileNotFoundError] and [JSONDecodeError] only. *)
Definition _load_config (file : file_state) : res (list (string * json)) :=
  match file with
  | FileMissing => Ok default_config
  | FileUnreadable => Raise ExternalError
  | FileNotText => Raise ValueError
  | FileNotJson => Ok default_config
  | FileJson (JObj o) => Ok (dict_merge default_config o)
  | FileJson _ => Raise TypeError
  end.

(** [self.config.get("cache", {}).get("library_update_interval", 900)] *)
Definition load_interval (config : list (string * json)) : res json :=
  match dict_get "cache" config with
  | None => Ok (JInt 900)
  | Some (JObj o) =>
      Ok (match dict_get "library_update_interval" o with
          | Some v => v
          | None => JInt 900
          end)
  | Some _ => Raise AttributeError
  end.

(** ** Titles *)

(** The part of a series name before its first colon or hyphen. *)
Fixpoint series_prefix (g : string) : string :=
  match g with
  | EmptyString => EmptyString
  | String ch rest =>
      if Ascii.eqb ch ":" || Ascii.eqb ch "-" then EmptyString
      else String ch (series_prefix rest)
  end.

(** The text before the first [sep]. *)
Fixpoint before (sep : ascii) (s : string) : string :=
  match s with
  | EmptyString => EmptyString
  | String ch rest =>
      if Ascii.eqb ch sep then EmptyString else String ch (before sep rest)
  end.

(** An episode of a series with a hyphen in its name, on Plex and on
    Jellyfin. *)
Definition spider_plex : plex_session :=
  {| usernames := Val ["kim"]; librarySectionTitle := Val "TV";
     type_ := Val "episode"; title := Val "Pilot";
     grandparentTitle := Val "Spider-Man: The Series"; parentIndex := Val 1;
     index_ := Val 3; year := Val 1994; viewOffset := Val 0;
     duration := Val 1200000; players := Val []; media := Val [];
     transcodeSession := PyNone |}.

Definition spider_jellyfin : jf_now_playing :=
  {| np_Type := Val "Episode"; np_SeriesName := Val "Spider-Man: The Series";
     np_ParentIndexNumber := Val 1; np_IndexNumber := Val 3;
     np_Name := Val "Pilot"; np_ProductionYear := Val 1994;
     np_RunTimeTicks := Val 12000000000; np_MediaStreams := Val [];
     np_Bitrate := Absent; np_more := true |}.

Definition heat_plex : plex_session :=
  {| usernames := Val ["kim"]; librarySectionTitle := Val "Movies";
     type_ := Val "movie"; title := Val "Heat";
     grandparentTitle := Absent; parentIndex := Absent; index_ := Absent;
     year := Val 1995; viewOffset := Val 0; duration := Val 600000;
     players := Val []; media := Val []; transcodeSession := PyNone |}.

Definition heat_jellyfin : jf_now_playing :=
  {| np_Type := Val "Movie"; np_SeriesName := Absent;
     np_ParentIndexNumber := Absent; np_IndexNumber := Absent;
     np_Name := Val "Heat"; np_ProductionYear := Val 1995;
     np_RunTimeTicks := Val 24000000000; np_MediaStreams := Val [];
     np_Bitrate := Absent; np_more := true |}.

(** ** Download sizes that cannot be read *)

(** The size text of [d] is an ASCII text other than ["Unknown"] that is
    not a number followed by one more word: it does not split into two
    words, or the first of its two words is not a number. *)
Definition malformed (d : download) : Prop :=
  ascii_text (size d) = true
  /\ size d <> "Unknown"
  /\ (List.length (split_ws (size d)) <> 2%nat
      \/ exists v u, split_ws (size d) = [v; u]
                     /\ float_of_str v = Raise ValueError).

(** ** Elapsed time

    The seconds between two readings of [time.time()] are the float
    [fsub now start], the IEEE difference of the two readings. *)

(** The whole seconds of a float: its value rounded down. *)
Definition whole_seconds (d : float) : Z :=
  match d with
  | S754_finite s m e =>
      let v := if s then Zneg m else Zpos m in
      if 0 <=? e then v * 2 ^ e else v / 2 ^ (- e)
  | _ => 0
  end.

(** [d] is zero, or a positive float in normal form from [2 ^ -1016] up to,
    but not including, [2 ^ 53]: a mantissa of 53 digits and an exponent
    from -1068 to 0. *)
Definition elapsed_in_range (d : float) : bool :=
  match d with
  | S754_zero _ => true
  | S754_finite false m e =>
      Pos.eqb (digits2_pos m) 53 && (-1068 <=? e) && (e <=? 0)
  | _ => false
  end.

(** The uptime text for [tm] whole minutes, as the specification words it. *)
Definition spec_uptime (tm : Z) : string :=
  if 99 <? tm / 60 then "99+ Hours"
  else two_digits (tm / 60) ++ ":" ++ two_digits (tm mod 60).

(** The mantissa of the float 60.0, whose exponent is -47. *)
Definition SIXTY_M : positive := 8444249301319680.

(** * Properties *)

(** ** Helper lemmas *)

Lemma all_below_spec (n : nat) (p : Z -> bool) :
  all_below n p = true -> forall z, 0 <= z < Z.of_nat n -> p z = true.
Proof.
  unfold all_below. intros H z Hz.
  rewrite forallb_forall in H. apply H.
  apply in_map_iff. exists (Z.to_nat z). split.
  - apply Z2Nat.id. lia.
  - apply in_seq. lia.
Qed.

Lemma fmt_0d_two_digits (n : Z) : 0 <= n < 100 -> fmt_0d 2 n = two_digits n.
Proof.
  intros Hn.
  assert (H : all_below 100 (fun k => String.eqb (fmt_0d 2 k) (two_digits k)) = true)
    by (vm_compute; reflexivity).
  apply String.eqb_eq. apply (all_below_spec 100 _ H). exact Hn.
Qed.

(** ** Uptime *)

(** ** Division of a float by sixty *)

Lemma digits2_pos_size (p : positive) : digits2_pos p = Pos.size p.
Proof. induction p as [p IH|p IH|]; cbn; congruence. Qed.

Lemma digits2_pos_range (p : positive) :
  2 ^ (Zpos (digits2_pos p) - 1) <= Zpos p < 2 ^ Zpos (digits2_pos p).
Proof.
  rewrite digits2_pos_size.
  pose proof (Pos.size_gt p) as Hg. pose proof (Pos.size_le p) as Hl.
  apply Pos2Z.pos_lt_pos in Hg. apply Pos2Z.pos_le_pos in Hl.
  rewrite Pos2Z.inj_pow in Hg, Hl.
  change (Zpos p~0) with (2 * Zpos p) in Hl.
  assert (E : 2 ^ Zpos (Pos.size p) = 2 * 2 ^ (Zpos (Pos.size p) - 1)).
  { rewrite <- Z.pow_succ_r by lia. f_equal. lia. }
  lia.
Qed.

Lemma digits2_pos_unique (p : positive) (n : Z) :
  2 ^ (n - 1) <= Zpos p < 2 ^ n -> Zpos (digits2_pos p) = n.
Proof.
  intros [Hl Hu]. pose proof (digits2_pos_range p) as [Hl' Hu'].
  assert (Hn : 0 < n).
  { destruct (Z.ltb_spec 0 n) as [|Hn]; [assumption|].
    rewrite Z.pow_neg_r in Hl by lia.
    destruct (Z.eqb_spec n 0) as [->|]; [cbn in Hu; lia|].
    rewrite Z.pow_neg_r in Hu by lia. lia. }
  assert (H1 : n - 1 < Zpos (digits2_pos p)).
  { apply (Z.pow_lt_mono_r_iff 2); lia. }
  assert (H2 : Zpos (digits2_pos p) - 1 < n).
  { apply (Z.pow_lt_mono_r_iff 2); lia. }
  lia.
Qed.

Lemma sixty_float : float_of_int 60 = Ok (S754_finite false SIXTY_M (-47)).
Proof. vm_compute. reflexivity. Qed.

(** The second shift of [binary_round_aux], on a mantissa that round-up may
    have brought to [2 ^ 53]. *)
Lemma shr_fexp_exact (v e : Z) :
  2 ^ 52 <= v <= 2 ^ 53 -> -1074 <= e ->
  exists R k,
    shr_fexp prec emax v e loc_Exact
    = ({| shr_m := Zpos R; shr_r := false; shr_s := false |}, e + k)
    /\ 0 <= k <= 1 /\ Zpos R * 2 ^ k = v.
Proof.
  intros Hv He. destruct v as [|p|p]; try (exfalso; lia).
  unfold shr_fexp. cbn [Zdigits2 shr_record_of_loc].
  destruct (Z.eqb_spec (Zpos p) (2 ^ 53)) as [E|E].
  - injection E as ->. exists (4503599627370496)%positive, 1.
    split; [|split; [lia | reflexivity]].
    replace (fexp prec emax (Zpos (digits2_pos 9007199254740992) + e) - e) with 1.
    + reflexivity.
    + change (Zpos (digits2_pos 9007199254740992)) with 54.
      unfold fexp, SpecFloat.emin, prec, emax. lia.
  - rewrite (digits2_pos_unique p 53) by lia.
    replace (fexp prec emax (53 + e) - e) with 0
      by (unfold fexp, SpecFloat.emin, prec, emax; lia).
    exists p, 0. split; [|split; [lia|lia]].
    cbn [shr]. f_equal. lia.
Qed.

(** [binary_round_aux] on a quotient of 53 or 54 digits: the float it
    returns is the quotient itself, or next to it; it is below the quotient
    only when the quotient is odd. *)
Lemma binary_round_aux_near (q e : Z) (l : location) :
  2 ^ 52 <= q < 2 ^ 54 -> -1074 <= e <= 900 ->
  exists R k,
    binary_round_aux prec emax false q e l = S754_finite false R (e + k)
    /\ 0 <= k <= 2
    /\ (Zpos R * 2 ^ k = q \/ Zpos R * 2 ^ k = q + 1
        \/ (Zpos R * 2 ^ k = q - 1 /\ Z.odd q = true)).
Proof.
  intros Hq He. destruct q as [|p|p]; try (exfalso; lia).
  unfold binary_round_aux.
  destruct (Z.ltb_spec (Zpos p) (2 ^ 53)) as [Hlt|Hge].
  - (* 53 digits: no first shift *)
    assert (E1 : shr_fexp prec emax (Zpos p) e l = (shr_record_of_loc (Zpos p) l, e)).
    { unfold shr_fexp. cbn [Zdigits2].
      rewrite (digits2_pos_unique p 53) by lia.
      replace (fexp prec emax (53 + e) - e) with 0
        by (unfold fexp, SpecFloat.emin, prec, emax; lia).
      reflexivity. }
    rewrite E1.
    set (v := round_nearest_even (shr_m (shr_record_of_loc (Zpos p) l))
                (loc_of_shr_record (shr_record_of_loc (Zpos p) l))).
    assert (Hv : v = Zpos p \/ v = Zpos p + 1).
    { unfold v. destruct l as [|[| |]]; cbn [shr_record_of_loc shr_m loc_of_shr_record
                                              round_nearest_even]; auto.
      destruct (Z.even (Zpos p)); auto. }
    destruct (shr_fexp_exact v e) as (R & k & -> & Hk & HR); [lia | lia |].
    cbn [shr_m]. exists R, k.
    assert (Hle : (e + k <=? emax - prec) = true)
      by (apply Z.leb_le; unfold emax, prec; lia).
    rewrite Hle. split; [reflexivity|]. split; [lia|].
    rewrite HR. destruct Hv as [-> | ->]; auto.
  - (* 54 digits: the first shift drops the last bit *)
    assert (E1 : shr_fexp prec emax (Zpos p) e l
                 = (shr_1 (shr_record_of_loc (Zpos p) l), e + 1)).
    { unfold shr_fexp. cbn [Zdigits2].
      rewrite (digits2_pos_unique p 54) by lia.
      replace (fexp prec emax (54 + e) - e) with 1
        by (unfold fexp, SpecFloat.emin, prec, emax; lia).
      reflexivity. }
    rewrite E1.
    set (v := round_nearest_even (shr_m (shr_1 (shr_record_of_loc (Zpos p) l)))
                (loc_of_shr_record (shr_1 (shr_record_of_loc (Zpos p) l)))).
    assert (Hv : (2 * v = Zpos p \/ 2 * v = Zpos p + 1
                  \/ (2 * v = Zpos p - 1 /\ Z.odd (Zpos p) = true))
                 /\ 2 ^ 52 <= v <= 2 ^ 53).
    { unfold v. destruct p as [p'|p'|]; [| |exfalso; cbn in Hge; lia].
      - assert (Hp : 2 ^ 52 <= Zpos p' < 2 ^ 53) by lia.
        destruct l as [|[| |]];
          cbn [shr_record_of_loc shr_1 orb shr_m loc_of_shr_record round_nearest_even];
          try destruct (Z.even (Zpos p')); split; try lia.
        all: try (right; left; lia).
        all: right; right; split; [lia | reflexivity].
      - assert (Hp : 2 ^ 52 <= Zpos p' < 2 ^ 53) by lia.
        destruct l as [|[| |]];
          cbn [shr_record_of_loc shr_1 orb shr_m loc_of_shr_record round_nearest_even];
          split; try lia; left; lia. }
    destruct Hv as [Hv Hr].
    destruct (shr_fexp_exact v (e + 1)) as (R & k & -> & Hk & HR); [lia | lia |].
    cbn [shr_m]. exists R, (1 + k).
    assert (Hle : (e + 1 + k <=? emax - prec) = true)
      by (apply Z.leb_le; unfold emax, prec; lia).
    rewrite Hle. split; [f_equal; lia|]. split; [lia|].
    assert (E2 : Zpos R * 2 ^ (1 + k) = 2 * v).
    { rewrite Z.pow_add_r by lia. rewrite <- HR. change (2 ^ 1) with 2. ring. }
    rewrite E2. exact Hv.
Qed.

(** The quotient, the exponent and the remainder that [SFdiv] hands to the
    rounding, for a normal float over sixty. *)
Lemma SFdiv_core_sixty (m : positive) (e : Z) :
  digits2_pos m = 53%positive -> -1068 <= e ->
  SFdiv_core_binary prec emax (Zpos m) e (Zpos SIXTY_M) (-47)
  = (Zpos m * 2 ^ 53 / Zpos SIXTY_M, e - 6,
     new_location (Zpos SIXTY_M) (Zpos m * 2 ^ 53 mod Zpos SIXTY_M)).
Proof.
  intros Hd He. unfold SFdiv_core_binary. cbn [Zdigits2]. rewrite Hd.
  change (Zpos (digits2_pos SIXTY_M)) with 53.
  replace (Z.min (fexp prec emax (53 + e - (53 + -47))) (e - -47)) with (e - 6)
    by (unfold fexp, SpecFloat.emin, prec, emax; lia).
  replace (e - -47 - (e - 6)) with 53 by lia.
  rewrite Z.shiftl_mul_pow2 by lia.
  unfold Z.div, Z.modulo.
  destruct (Z.div_eucl (Zpos m * 2 ^ 53) (Zpos SIXTY_M)) as [q r]. reflexivity.
Qed.

(** [int(d / 60)] for a normal float [d] of at most [2 ^ 53]: the whole
    seconds of [d], divided by sixty.  The rounding of the quotient never
    reaches the next whole minute. *)
Lemma whole_minutes (m : positive) (e : Z) :
  digits2_pos m = 53%positive -> -1068 <= e <= 0 ->
  (q <- num_truediv (F (S754_finite false m e)) (I 60) ;; int_of_float q)
  = Ok (Zpos m / 2 ^ (- e) / 60).
Proof.
  intros Hd He. unfold num_truediv. cbn [to_float rbind]. rewrite sixty_float.
  cbn [rbind]. unfold fdiv. cbn [is_zero rbind SFdiv xorb].
  rewrite (SFdiv_core_sixty m e Hd) by lia.
  pose proof (digits2_pos_range m) as Hm. rewrite Hd in Hm.
  change (53 - 1) with 52 in Hm.
  set (q := Zpos m * 2 ^ 53 / Zpos SIXTY_M).
  assert (Hq : 60 * q <= 64 * Zpos m < 60 * q + 60).
  { unfold q, SIXTY_M. change (2 ^ 53) with 9007199254740992.
    Z.to_euclidean_division_equations. lia. }
  destruct (binary_round_aux_near q (e - 6)
              (new_location (Zpos SIXTY_M) (Zpos m * 2 ^ 53 mod Zpos SIXTY_M)))
    as (R & k & -> & Hk & HV).
  { change (2 ^ 52) with 4503599627370496 in *.
    change (2 ^ 53) with 9007199254740992 in Hm.
    change (2 ^ 54) with 18014398509481984. lia. }
  { lia. }
  cbn [int_of_float]. f_equal.
  rewrite Z.shiftl_div_pow2 by lia.
  set (D := 2 ^ (- e)).
  assert (HD : 0 < D) by (apply Z.pow_pos_nonneg; lia).
  assert (HP : 2 ^ (- (e - 6 + k)) * 2 ^ k = 64 * D).
  { rewrite <- Z.pow_add_r by lia. unfold D.
    replace (- (e - 6 + k) + k) with (6 + - e) by lia.
    rewrite Z.pow_add_r by lia. reflexivity. }
  assert (Hk2 : 0 < 2 ^ k) by (apply Z.pow_pos_nonneg; lia).
  rewrite <- (Z.div_mul_cancel_r (Zpos R) (2 ^ (- (e - 6 + k))) (2 ^ k)) by lia.
  rewrite HP.
  rewrite Z.div_div by lia.
  set (K := Zpos m / (D * 60)).
  pose proof (Z.div_mod (Zpos m) (D * 60) ltac:(lia)) as Hdm.
  pose proof (Z.mod_pos_bound (Zpos m) (D * 60) ltac:(lia)) as Hr.
  fold K in Hdm.
  replace (D * 60 * K) with (60 * (D * K)) in Hdm by ring.
  symmetry.
  apply (Z.div_unique _ _ _ (Zpos R * 2 ^ k - 64 * (D * K))); [|ring].
  left.
  set (X := D * K) in *. set (r := Zpos m mod (D * 60)) in *.
  destruct HV as [-> | [-> | [-> Ho]]]; try lia.
  apply Z.odd_spec in Ho. destruct Ho as [j Hj]. lia.
Qed.

(** ** Whole seconds as floats, and their difference *)

Lemma iter_pos_nat {A : Type} (f : A -> A) (p : positive) (x : A) :
  iter_pos f p x = Nat.iter (Pos.to_nat p) f x.
Proof.
  revert x. induction p as [p IH|p IH|]; intros x; cbn [iter_pos].
  - rewrite !IH. rewrite Pos2Nat.inj_xI.
    replace (S (2 * Pos.to_nat p)) with (Pos.to_nat p + (Pos.to_nat p + 1))%nat by lia.
    rewrite !Nat.iter_add. reflexivity.
  - rewrite !IH. rewrite Pos2Nat.inj_xO.
    replace (2 * Pos.to_nat p)%nat with (Pos.to_nat p + Pos.to_nat p)%nat by lia.
    rewrite Nat.iter_add. reflexivity.
  - reflexivity.
Qed.

Lemma shr_1_even (v : Z) :
  0 < v ->
  shr_1 {| shr_m := 2 * v; shr_r := false; shr_s := false |}
  = {| shr_m := v; shr_r := false; shr_s := false |}.
Proof. destruct v as [|q|q]; try lia. reflexivity. Qed.

(** Shifting out zero bits loses nothing. *)
Lemma shr_1_zeros (n : nat) :
  forall (v : Z) (k : nat),
  0 < v ->
  Nat.iter n shr_1
    {| shr_m := v * 2 ^ Z.of_nat (n + k); shr_r := false; shr_s := false |}
  = {| shr_m := v * 2 ^ Z.of_nat k; shr_r := false; shr_s := false |}.
Proof.
  induction n as [|n IH]; intros v k Hv; [reflexivity|].
  rewrite Nat.iter_succ. replace (S n + k)%nat with (n + S k)%nat by lia.
  rewrite IH by exact Hv.
  replace (v * 2 ^ Z.of_nat (S k)) with (2 * (v * 2 ^ Z.of_nat k)).
  - apply shr_1_even. apply Z.mul_pos_pos; [exact Hv|]. apply Z.pow_pos_nonneg; lia.
  - rewrite Nat2Z.inj_succ, Z.pow_succ_r by lia. ring.
Qed.

Lemma shr_zeros (v e n : Z) :
  0 < v -> 0 <= n ->
  shr {| shr_m := v * 2 ^ n; shr_r := false; shr_s := false |} e n
  = ({| shr_m := v; shr_r := false; shr_s := false |}, e + n).
Proof.
  intros Hv Hn. destruct n as [|p|p]; try lia.
  - cbn [shr]. change (2 ^ 0) with 1. rewrite Z.mul_1_r, Z.add_0_r. reflexivity.
  - cbn [shr]. rewrite iter_pos_nat. f_equal.
    pose proof (shr_1_zeros (Pos.to_nat p) v 0 Hv) as H.
    rewrite Nat.add_0_r, positive_nat_Z in H. rewrite H.
    change (2 ^ Z.of_nat 0) with 1. rewrite Z.mul_1_r. reflexivity.
Qed.

(** A mantissa of 53 digits with nothing to round is kept as it is. *)
Lemma shr_fexp_canonical (m : positive) (e : Z) :
  Zpos (digits2_pos m) = 53 -> -1074 <= e ->
  shr_fexp prec emax (Zpos m) e loc_Exact
  = ({| shr_m := Zpos m; shr_r := false; shr_s := false |}, e).
Proof.
  intros Hd He. unfold shr_fexp. cbn [Zdigits2]. rewrite Hd.
  replace (fexp prec emax (53 + e) - e) with 0
    by (unfold fexp, SpecFloat.emin, prec, emax; lia).
  reflexivity.
Qed.

Lemma binary_round_aux_canonical (m : positive) (e : Z) :
  Zpos (digits2_pos m) = 53 -> -1074 <= e <= 971 ->
  binary_round_aux prec emax false (Zpos m) e loc_Exact = S754_finite false m e.
Proof.
  intros Hd He. unfold binary_round_aux.
  rewrite (shr_fexp_canonical m e Hd) by lia.
  cbn [shr_m loc_of_shr_record round_nearest_even].
  rewrite (shr_fexp_canonical m e Hd) by lia. cbn [shr_m].
  assert (Hle : (e <=? emax - prec) = true)
    by (apply Z.leb_le; unfold emax, prec; lia).
  rewrite Hle. reflexivity.
Qed.

Lemma digits_shift (m : positive) (n j : Z) :
  0 <= j -> 2 ^ (n - 1) <= Zpos m < 2 ^ n ->
  2 ^ (n + j - 1) <= Zpos m * 2 ^ j < 2 ^ (n + j).
Proof.
  intros Hj [Hl Hu].
  assert (Hn : 0 < n).
  { destruct (Z.ltb_spec 0 n) as [|Hn]; [assumption|].
    destruct (Z.eqb_spec n 0) as [->|]; [cbn in Hu; lia|].
    rewrite Z.pow_neg_r in Hu by lia. lia. }
  assert (Hp : 0 < 2 ^ j) by (apply Z.pow_pos_nonneg; lia).
  replace (n + j - 1) with (n - 1 + j) by lia.
  rewrite !Z.pow_add_r by lia. nia.
Qed.

(** [binary_normalize] of a positive integer [N] below [2 ^ 53] that is
    written with [j] more zero bits at the exponent [- j]: the float of
    [N] in normal form. *)
Lemma binary_normalize_scaled (N : positive) (j : Z) :
  Zpos N < 2 ^ 53 -> 0 <= j <= 1074 ->
  let d := Zpos (digits2_pos N) in
  exists m : positive,
    Zpos m = Zpos N * 2 ^ (53 - d)
    /\ binary_normalize prec emax (Zpos N * 2 ^ j) (- j) false
       = S754_finite false m (d - 53).
Proof.
  intros HN Hj d.
  pose proof (digits2_pos_range N) as Hr. fold d in Hr.
  assert (Hd : 1 <= d <= 53).
  { split; [unfold d; lia|].
    destruct (Z.leb_spec d 53) as [|Hgt]; [assumption|].
    assert (2 ^ 53 <= 2 ^ (d - 1)) by (apply Z.pow_le_mono_r; lia). lia. }
  assert (Hpos : 0 < Zpos N * 2 ^ (53 - d))
    by (apply Z.mul_pos_pos; [lia | apply Z.pow_pos_nonneg; lia]).
  destruct (Zpos N * 2 ^ (53 - d)) as [|m|m] eqn:Em; try lia.
  exists m. split; [reflexivity|].
  assert (Hdm : Zpos (digits2_pos m) = 53).
  { apply digits2_pos_unique. rewrite <- Em.
    pose proof (digits_shift N d (53 - d) ltac:(lia) Hr) as H.
    replace (d + (53 - d)) with 53 in H by lia. exact H. }
  assert (HM : 0 < Zpos N * 2 ^ j)
    by (apply Z.mul_pos_pos; [lia | apply Z.pow_pos_nonneg; lia]).
  destruct (Zpos N * 2 ^ j) as [|M|M] eqn:EM; try lia.
  cbn [binary_normalize]. unfold binary_round.
  assert (HdM : Zpos (digits2_pos M) = d + j).
  { apply digits2_pos_unique. rewrite <- EM. apply digits_shift; [lia | exact Hr]. }
  rewrite HdM.
  replace (fexp prec emax (d + j + - j)) with (d - 53)
    by (unfold fexp, SpecFloat.emin, prec, emax; lia).
  unfold shl_align.
  destruct (d - 53 - - j) as [|t|t] eqn:Et.
  - (* already 53 digits *)
    assert (j = 53 - d) by lia. subst j.
    rewrite EM in Em. injection Em as ->.
    replace (- (53 - d)) with (d - 53) by lia.
    apply binary_round_aux_canonical; [exact Hdm | lia].
  - (* more than 53 digits: the zero bits are shifted out *)
    unfold binary_round_aux.
    assert (E : shr_fexp prec emax (Zpos M) (- j) loc_Exact
                = ({| shr_m := Zpos m; shr_r := false; shr_s := false |}, d - 53)).
    { unfold shr_fexp. cbn [Zdigits2 shr_record_of_loc]. rewrite HdM.
      replace (fexp prec emax (d + j + - j) - - j) with (Zpos t)
        by (unfold fexp, SpecFloat.emin, prec, emax; lia).
      replace (Zpos M) with (Zpos m * 2 ^ Zpos t).
      - rewrite shr_zeros by lia. f_equal. lia.
      - rewrite <- Em, <- EM, <- Z.mul_assoc, <- Z.pow_add_r by lia.
        f_equal. f_equal. lia. }
    rewrite E. cbn [shr_m loc_of_shr_record round_nearest_even].
    rewrite (shr_fexp_canonical m (d - 53) Hdm) by lia. cbn [shr_m].
    assert (Hle : (d - 53 <=? emax - prec) = true)
      by (apply Z.leb_le; unfold emax, prec; lia).
    rewrite Hle. reflexivity.
  - (* fewer than 53 digits: the mantissa is shifted up *)
    assert (Hsh : Zpos (Pos.iter xO M t) = Zpos m).
    { rewrite <- Em. 
      rewrite (Pos.iter_swap_gen _ _ Zpos xO (Z.mul 2)) by reflexivity.
      change (Pos.iter (Z.mul 2) (Zpos M) t) with (Z.shiftl (Zpos M) (Zpos t)).
      rewrite Z.shiftl_mul_pow2 by lia. rewrite <- EM.
      rewrite <- Z.mul_assoc, <- Z.pow_add_r by lia.
      f_equal. f_equal. lia. }
    injection Hsh as ->.
    apply binary_round_aux_canonical; [exact Hdm | lia].
Qed.

Lemma shl_align_value (m : positive) (e e' : Z) :
  e' <= e -> Zpos (fst (shl_align m e e')) = Zpos m * 2 ^ (e - e').
Proof.
  intros H. unfold shl_align. destruct (e' - e) as [|t|t] eqn:Et; try lia.
  - replace (e - e') with 0 by lia. cbn [fst]. change (2 ^ 0) with 1. lia.
  - cbn [fst]. rewrite (Pos.iter_swap_gen _ _ Zpos xO (Z.mul 2)) by reflexivity.
    change (Pos.iter (Z.mul 2) (Zpos m) t) with (Z.shiftl (Zpos m) (Zpos t)).
    rewrite Z.shiftl_mul_pow2 by lia. f_equal. f_equal. lia.
Qed.

(** The float of a positive number of whole seconds below [2 ^ 53]. *)
Lemma float_of_Z_normal (N : positive) :
  Zpos N < 2 ^ 53 ->
  let d := Zpos (digits2_pos N) in
  exists m : positive,
    Zpos m = Zpos N * 2 ^ (53 - d)
    /\ float_of_Z (Zpos N) = S754_finite false m (d - 53).
Proof.
  intros HN d.
  destruct (binary_normalize_scaled N 0 HN ltac:(lia)) as (m & Hm & E).
  exists m. split; [exact Hm|].
  change (2 ^ 0) with 1 in E. rewrite Z.mul_1_r in E. exact E.
Qed.

(** The difference of two whole-second readings is the float of the
    difference of the seconds: nothing is rounded. *)
Lemma fsub_whole_seconds (a b : Z) :
  0 < b -> b <= a -> a < 2 ^ 53 ->
  fsub (float_of_Z a) (float_of_Z b) = float_of_Z (a - b).
Proof.
  intros Hb Hab Ha.
  destruct a as [|A|A]; try lia. destruct b as [|B|B]; try lia.
  destruct (float_of_Z_normal A Ha) as (ma & Hma & Ea).
  destruct (float_of_Z_normal B ltac:(lia)) as (mb & Hmb & Eb).
  rewrite Ea, Eb.
  pose proof (digits2_pos_range A) as HrA. pose proof (digits2_pos_range B) as HrB.
  set (da := Zpos (digits2_pos A)) in *. set (db := Zpos (digits2_pos B)) in *.
  assert (Hda : da <= 53).
  { destruct (Z.leb_spec da 53) as [|Hgt]; [assumption|].
    assert (2 ^ 53 <= 2 ^ (da - 1)) by (apply Z.pow_le_mono_r; lia). lia. }
  assert (Hdb : 1 <= db <= da).
  { split; [unfold db; lia|].
    destruct (Z.leb_spec db da) as [|Hgt]; [assumption|].
    assert (2 ^ da <= 2 ^ (db - 1)) by (apply Z.pow_le_mono_r; unfold da; lia). lia. }
  unfold fsub. cbn [SFsub cond_Zopp].
  replace (Z.min (da - 53) (db - 53)) with (db - 53) by lia.
  rewrite !shl_align_value by lia.
  rewrite Hma, Hmb.
  replace (da - 53 - (db - 53)) with (da - db) by lia.
  replace (db - 53 - (db - 53)) with 0 by lia.
  change (2 ^ 0) with 1. rewrite Z.mul_1_r.
  rewrite <- Z.mul_assoc, <- Z.pow_add_r by lia.
  replace (53 - da + (da - db)) with (53 - db) by lia.
  rewrite <- Z.mul_sub_distr_r.
  destruct (Z.eqb_spec (Zpos A) (Zpos B)) as [E|E].
  - rewrite E, Z.sub_diag. reflexivity.
  - assert (HN : 0 < Zpos A - Zpos B) by lia.
    destruct (Zpos A - Zpos B) as [|N|N] eqn:EN; try lia.
    destruct (binary_normalize_scaled N (53 - db) ltac:(lia) ltac:(lia))
      as (m1 & Hm1 & E1).
    destruct (float_of_Z_normal N ltac:(lia)) as (m2 & Hm2 & E2).
    replace (db - 53) with (- (53 - db)) by lia.
    rewrite E1, E2. f_equal. rewrite <- Hm2 in Hm1. injection Hm1 as ->. reflexivity.
Qed.

(** Whole-second readings: the elapsed time is in range, and its whole
    seconds are the difference of the readings. *)
Lemma whole_second_readings (a b : Z) :
  0 < b -> b <= a -> a < 2 ^ 53 ->
  is_zero (float_of_Z b) = false
  /\ elapsed_in_range (fsub (float_of_Z a) (float_of_Z b)) = true
  /\ whole_seconds (fsub (float_of_Z a) (float_of_Z b)) = a - b.
Proof.
  intros Hb Hab Ha. split.
  - destruct b as [|B|B]; try lia.
    destruct (float_of_Z_normal B ltac:(lia)) as (m & _ & ->). reflexivity.
  - rewrite (fsub_whole_seconds a b Hb Hab Ha).
    destruct (Z.eqb_spec a b) as [->|Hne].
    + rewrite Z.sub_diag. split; reflexivity.
    + assert (HN : 0 < a - b) by lia.
      destruct (a - b) as [|N|N] eqn:EN; try lia.
      destruct (float_of_Z_normal N ltac:(lia)) as (m & Hm & ->).
      pose proof (digits2_pos_range N) as Hr.
      set (d := Zpos (digits2_pos N)) in *.
      assert (Hd : 1 <= d <= 53).
      { split; [unfold d; lia|].
        destruct (Z.leb_spec d 53) as [|Hgt]; [assumption|].
        assert (2 ^ 53 <= 2 ^ (d - 1)) by (apply Z.pow_le_mono_r; lia). lia. }
      assert (Hdm : Zpos (digits2_pos m) = 53).
      { apply digits2_pos_unique. rewrite Hm.
        pose proof (digits_shift N d (53 - d) ltac:(lia) Hr) as H.
        replace (d + (53 - d)) with 53 in H by lia. exact H. }
      split.
      * cbn [elapsed_in_range]. injection Hdm as ->. rewrite Pos.eqb_refl.
        cbn [andb]. apply andb_true_iff. split; apply Z.leb_le; lia.
      * cbn [whole_seconds]. rewrite Hm.
        destruct (Z.leb_spec 0 (d - 53)) as [H0|H0].
        -- replace (d - 53) with 0 by lia. replace (53 - d) with 0 by lia.
           change (2 ^ 0) with 1. lia.
        -- replace (- (d - 53)) with (53 - d) by lia.
           apply Z.div_mul. apply Z.pow_nonzero; lia.
Qed.

Lemma elapsed_minutes_in_range (now start : float) :
  elapsed_in_range (fsub now start) = true ->
  elapsed_minutes now start = Ok (whole_seconds (fsub now start) / 60)
  /\ 0 <= whole_seconds (fsub now start) / 60.
Proof.
  unfold elapsed_minutes. destruct (fsub now start) as [s|s| |s m e];
    cbn [elapsed_in_range]; try discriminate.
  - intros _. split; [|cbn; lia].
    unfold num_truediv. cbn [to_float rbind]. rewrite sixty_float.
    destruct s; reflexivity.
  - destruct s; [discriminate|]. intros H.
    apply andb_true_iff in H. destruct H as [H H3].
    apply andb_true_iff in H. destruct H as [H1 H2].
    apply Pos.eqb_eq in H1. apply Z.leb_le in H2, H3.
    rewrite (whole_minutes m e H1) by lia.
    cbn [whole_seconds].
    destruct (Z.leb_spec 0 e) as [He|He].
    + assert (e = 0) by lia. subst e. cbn [Z.opp].
      change (2 ^ 0) with 1. rewrite Z.div_1_r, Z.mul_1_r.
      split; [reflexivity|]. apply Z.div_pos; lia.
    + split; [reflexivity|].
      apply Z.div_pos; [|lia]. apply Z.div_pos; [lia|].
      apply Z.pow_pos_nonneg; lia.
Qed.




(** ** Playback time *)

Lemma lacks_app (c : ascii) (a b : string) :
  lacks c (a ++ b) = lacks c a && lacks c b.
Proof.
  induction a as [|x a IH]; cbn [lacks append]; [reflexivity|].
  rewrite IH. apply andb_assoc.
Qed.

Lemma split_on_lacks (c : ascii) (a : string) :
  lacks c a = true ->
  split_on c a = [a]
  /\ forall b, split_on c (a ++ String c b) = a :: split_on c b.
Proof.
  induction a as [|x a IH]; cbn [lacks split_on append].
  - intros _. split; [reflexivity|]. intros b. rewrite Ascii.eqb_refl. reflexivity.
  - intros H. apply andb_true_iff in H. destruct H as [Hx Ha].
    apply negb_true_iff in Hx. rewrite Hx.
    destruct (IH Ha) as [IH1 IH2]. split.
    + rewrite IH1. reflexivity.
    + intros b. rewrite IH2. reflexivity.
Qed.

Lemma split_on_three (c : ascii) (x y z : string) :
  lacks c x = true -> lacks c y = true -> lacks c z = true ->
  split_on c (x ++ String c (y ++ String c z)) = [x; y; z].
Proof.
  intros Hx Hy Hz.
  rewrite (proj2 (split_on_lacks c x Hx)).
  rewrite (proj2 (split_on_lacks c y Hy)).
  rewrite (proj1 (split_on_lacks c z Hz)). reflexivity.
Qed.

Lemma index_three (x y z : string) :
  index [x; y; z] 0 = Ok x /\ index [x; y; z] 1 = Ok y
  /\ index [x; y; z] 2 = Ok z /\ index [x; y; z] (-2) = Ok y
  /\ index [x; y; z] (-1) = Ok z.
Proof. repeat split. Qed.

Lemma minute_field_table :
  all_below 60 (fun n =>
    lacks ":" (fmt_0d 2 n) && lacks "." (fmt_0d 2 n)
    && res_Z_eqb (int_of_str (fmt_0d 2 n)) n) = true.
Proof. vm_compute. reflexivity. Qed.

Lemma hour_field_table :
  all_below 24 (fun n =>
    lacks ":" (str_of_int n) && lacks "." (str_of_int n)
    && res_Z_eqb (int_of_str (str_of_int n)) n
    && String.eqb (fmt_0d 1 n) (str_of_int n)) = true.
Proof. vm_compute. reflexivity. Qed.

Lemma res_Z_eqb_eq (a : res Z) (b : Z) : res_Z_eqb a b = true -> a = Ok b.
Proof.
  destruct a as [x|e]; cbn; [|discriminate].
  intros H. apply Z.eqb_eq in H. now subst.
Qed.

Lemma minute_field (n : Z) :
  0 <= n < 60 ->
  lacks ":" (fmt_0d 2 n) = true /\ lacks "." (fmt_0d 2 n) = true
  /\ int_of_str (fmt_0d 2 n) = Ok n.
Proof.
  intros Hn.
  pose proof (all_below_spec 60 _ minute_field_table n Hn) as H. cbv beta in H.
  apply andb_true_iff in H. destruct H as [H H3].
  apply andb_true_iff in H. destruct H as [H1 H2].
  auto using res_Z_eqb_eq.
Qed.

Lemma hour_field (n : Z) :
  0 <= n < 24 ->
  lacks ":" (str_of_int n) = true /\ lacks "." (str_of_int n) = true
  /\ int_of_str (str_of_int n) = Ok n /\ fmt_0d 1 n = str_of_int n.
Proof.
  intros Hn.
  pose proof (all_below_spec 24 _ hour_field_table n Hn) as H. cbv beta in H.
  apply andb_true_iff in H. destruct H as [H H4].
  apply andb_true_iff in H. destruct H as [H H3].
  apply andb_true_iff in H. destruct H as [H1 H2].
  repeat split; auto using res_Z_eqb_eq. now apply String.eqb_eq.
Qed.

Lemma clock_fields (secs : Z) :
  0 <= secs < 86400 ->
  0 <= secs / 60 / 60 < 24 /\ 0 <= secs / 60 mod 60 < 60 /\ 0 <= secs mod 60 < 60.
Proof.
  intros H. repeat split; try (apply Z.mod_pos_bound; lia).
  - apply Z.div_pos; [apply Z.div_pos|]; lia.
  - apply Z.div_lt_upper_bound; [lia|]. apply Z.div_lt_upper_bound; lia.
Qed.

Lemma clock_text_lacks_dot (secs : Z) :
  0 <= secs < 86400 -> lacks "." (clock_text secs) = true.
Proof.
  intros H. destruct (clock_fields secs H) as (Hh & Hm & Hs).
  unfold clock_text. rewrite !lacks_app.
  destruct (hour_field _ Hh) as (_ & -> & _).
  destruct (minute_field _ Hm) as (_ & -> & _).
  destruct (minute_field _ Hs) as (_ & -> & _). reflexivity.
Qed.

Lemma format_time_clock_text (secs duration : Z) :
  0 <= secs < 86400 ->
  _format_time (clock_text secs) duration
  = Ok (_format_jellyfin_time secs (duration / 1000)).
Proof.
  intros H. destruct (clock_fields secs H) as (Hh & Hm & Hs).
  destruct (hour_field _ Hh) as (Lh & _ & Ih & Fh).
  destruct (minute_field _ Hm) as (Lm & _ & Im).
  destruct (minute_field _ Hs) as (Ls & _ & Is).
  unfold _format_time, _format_jellyfin_time, clock_text.
  change (?a ++ ":" ++ ?b ++ ":" ++ ?c) with (a ++ String ":" (b ++ String ":" c)).
  rewrite (split_on_three ":" _ _ _ Lh Lm Ls).
  destruct (index_three (str_of_int (secs / 60 / 60)) (fmt_0d 2 (secs / 60 mod 60))
                        (fmt_0d 2 (secs mod 60))) as (I0 & I1 & I2 & I3 & I4).
  rewrite I0, I1, I2, I3, I4. cbn [rbind].
  rewrite Ih, Im, Is. cbn [rbind].
  assert (E1 : secs mod 3600 / 60 = secs / 60 mod 60).
  { rewrite (Z.mod_eq secs 3600) by lia.
    replace (secs - 3600 * (secs / 3600)) with (secs + (- (secs / 3600)) * 60 * 60) by lia.
    rewrite <- Z.mul_assoc.
    replace (secs + - (secs / 3600) * (60 * 60)) with (secs + (- (secs / 3600) * 60) * 60) by lia.
    rewrite Z.div_add by lia.
    replace 3600 with (60 * 60) by lia. rewrite <- Z.div_div by lia.
    rewrite (Z.mod_eq (secs / 60) 60) by lia. lia. }
  assert (E2 : secs / 3600 = secs / 60 / 60).
  { rewrite Z.div_div by lia. reflexivity. }
  rewrite E1, E2, Fh.
  destruct (duration / 1000 <? 3600); reflexivity.
Qed.

(** Below one day the Plex rendering of a time is the Jellyfin rendering of
    the same number of seconds. *)
Lemma plex_time_below_a_day (ms duration : Z) :
  0 <= ms < 86400000 ->
  plex_time ms duration
  = Ok (_format_jellyfin_time (ms / 1000) (duration / 1000)).
Proof.
  intros H.
  assert (Hs : 0 <= ms / 1000 < 86400).
  { split; [apply Z.div_pos; lia | apply Z.div_lt_upper_bound; lia]. }
  unfold plex_time, plex_time_str, timedelta_ms, timedelta_of_us.
  assert (D : ms * 1000 / 86400000000 = 0) by (apply Z.div_small; lia).
  assert (M : (ms * 1000) mod 86400000000 = ms * 1000) by (apply Z.mod_small; lia).
  rewrite D, M. cbn [orb Z.ltb Z.compare rbind].
  assert (S1 : ms * 1000 / 1000000 = ms / 1000).
  { replace 1000000 with (1000 * 1000) by lia.
    rewrite Z.div_mul_cancel_r by lia. reflexivity. }
  rewrite S1.
  unfold str_of_timedelta. cbn [td_days td_seconds td_microseconds Z.eqb].
  fold (clock_text (ms / 1000)).
  pose proof (clock_text_lacks_dot _ Hs) as L.
  destruct ((ms * 1000) mod 1000000 =? 0).
  - rewrite (proj1 (split_on_lacks "." _ L)).
    change (index [clock_text (ms / 1000)] 0) with (Ok (clock_text (ms / 1000))).
    cbn [rbind]. apply format_time_clock_text. exact Hs.
  - change (clock_text (ms / 1000) ++ "." ++ ?f)
      with (clock_text (ms / 1000) ++ String "." f).
    rewrite (proj2 (split_on_lacks "." _ L)).
    cbn [rbind index Z.ltb Z.compare Z.to_nat nth_error].
    apply format_time_clock_text. exact Hs.
Qed.

Lemma jellyfin_time_shape (seconds total_seconds : Z) :
  _format_jellyfin_time seconds total_seconds
  = if total_seconds <? 3600
    then two_digits (seconds mod 3600 / 60) ++ ":" ++ two_digits (seconds mod 60)
    else str_of_int (seconds / 3600) ++ ":"
         ++ two_digits (seconds mod 3600 / 60) ++ ":" ++ two_digits (seconds mod 60).
Proof.
  unfold _format_jellyfin_time.
  assert (0 <= seconds mod 3600 / 60 < 60).
  { pose proof (Z.mod_pos_bound seconds 3600 ltac:(lia)).
    split; [apply Z.div_pos; lia | apply Z.div_lt_upper_bound; lia]. }
  assert (0 <= seconds mod 60 < 60) by (apply Z.mod_pos_bound; lia).
  rewrite !fmt_0d_two_digits by lia. reflexivity.
Qed.

(** C6. Position 0 of duration 0 reads "00:00" on both paths and the
    Jellyfin path renders a full day as "24:00:00", but the Plex path raises
    on the total time of an item of one day: [str(timedelta)] then starts
    with "1 day, " and [int] rejects the first field.  The stream is shown
    as the placeholder. *)
Theorem C6_plex_time_of_a_day_raises :
  plex_time 0 0 = Ok "00:00"
  /\ _format_jellyfin_time 0 0 = "00:00"
  /\ _format_jellyfin_time 86400 86400 = "24:00:00"
  /\ plex_time_str 86400000 = Ok "1 day, 0:00:00"
  /\ plex_time 86400000 86400000 = Raise ValueError
  /\ fst (format_stream_info (sample_world 1700000000) sample_cog day_long_session 1)
     = stream_placeholder 1.
Proof. repeat split; vm_compute; reflexivity. Qed.

(** ** Total download size *)

Lemma to_float_1024 : to_float (I 1024) = Ok (float_of_Z 1024).
Proof. reflexivity. Qed.

Lemma to_float_0 : to_float (I 0) = Ok (S754_zero false).
Proof. reflexivity. Qed.

Lemma truediv_1024 (x : float) :
  num_truediv (F x) (I 1024) = Ok (SFdiv prec emax x (float_of_Z 1024)).
Proof. reflexivity. Qed.

Lemma mul_1024 (x : float) :
  num_mul (F x) (I 1024) = Ok (F (fmul x (float_of_Z 1024))).
Proof. reflexivity. Qed.

Lemma running_add (a : num) (x y : float) :
  running a x -> num_add a (F y) = Ok (F (fadd x y)).
Proof. intros [[-> ->]| ->]; reflexivity. Qed.

Lemma labelled_not_unknown (d : download) (xu : float * size_unit) :
  labelled d xu -> String.eqb (size d) "Unknown" = false.
Proof.
  intros [v [Hs _]]. destruct (String.eqb (size d) "Unknown") eqn:E; [|reflexivity].
  apply String.eqb_eq in E. rewrite E in Hs. vm_compute in Hs. discriminate.
Qed.

Lemma size_in_mb_labelled (d : download) (xu : float * size_unit) :
  labelled d xu ->
  size_in_mb (size d) = Ok (F (spec_megabytes (fst xu) (snd xu))).
Proof.
  intros [v [Hs Hv]]. unfold size_in_mb. rewrite Hs, Hv. cbn [rbind].
  destruct (snd xu); cbn [unit_text spec_megabytes];
    repeat match goal with
           | |- context [String.eqb ?a ?b] =>
               let r := eval vm_compute in (String.eqb a b) in
               change (String.eqb a b) with r; cbv iota
           end.
  - rewrite truediv_1024. reflexivity.
  - reflexivity.
  - rewrite mul_1024. reflexivity.
Qed.

Lemma total_size_labelled (ds : list download) (xs : list (float * size_unit)) :
  Forall2 labelled ds xs ->
  forall a x, running a x ->
  exists a',
    rfold (fun total d =>
             if String.eqb (size d) "Unknown" then Ok total
             else y <- size_in_mb (size d) ;; num_add total y) ds a = Ok a'
    /\ running a'
         (fold_left (fun acc xu => fadd acc (spec_megabytes (fst xu) (snd xu))) xs x).
Proof.
  induction 1 as [|d xu ds xs Hd _ IH]; intros a x Ha; cbn [rfold fold_left].
  - exists a. split; [reflexivity | exact Ha].
  - rewrite (labelled_not_unknown d xu Hd), (size_in_mb_labelled d xu Hd).
    cbn [rbind]. rewrite (running_add a x _ Ha). cbn [rbind].
    apply IH. right. reflexivity.
Qed.

(** C8. For sizes labelled KB, MB or GB the code computes what the
    specification describes: each size in megabytes (KB divided by 1024, GB
    multiplied by 1024), the sum of these, and the sum shown with two
    decimals in GB from 1024 MB on and in MB below. *)
Theorem C8_total_size_aggregation
  (ds : list download) (xs : list (float * size_unit)) :
  Forall2 labelled ds xs ->
  _calculate_total_size ds = Ok (spec_render_total (spec_sum_mb xs)).
Proof.
  intros H.
  destruct (total_size_labelled ds xs H (I 0) (S754_zero false)) as [a [Hr Ha]];
    [left; split; reflexivity|].
  unfold _calculate_total_size, total_size_mb. rewrite Hr. cbn [rbind].
  fold (spec_sum_mb xs) in Ha. unfold spec_render_total.
  destruct Ha as [[-> E]| ->].
  - rewrite E. reflexivity.
  - cbn [num_ge_int]. destruct (float_ge_int (spec_sum_mb xs) 1024).
    + rewrite truediv_1024. reflexivity.
    + reflexivity.
Qed.

(** The sizes "512 KB", "1 MB" and "2 GB" add up to 2049.5 MB and are shown
    as "2.00 GB". *)
Lemma C8_total_size_witness :
  let ds := [ {| size := "512 KB" |}; {| size := "1 MB" |}; {| size := "2 GB" |} ] in
  let xs := [ (float_of_Z 512, KB); (float_of_Z 1, MB); (float_of_Z 2, GB) ] in
  Forall2 labelled ds xs
  /\ float_of_str "2049.5" = Ok (spec_sum_mb xs)
  /\ _calculate_total_size ds = Ok "2.00 GB".
Proof.
  intros ds xs.
  assert (H : Forall2 labelled ds xs).
  { unfold ds, xs.
    apply Forall2_cons; [exists "512"; split; vm_compute; reflexivity|].
    apply Forall2_cons; [exists "1"; split; vm_compute; reflexivity|].
    apply Forall2_cons; [exists "2"; split; vm_compute; reflexivity|].
    apply Forall2_nil. }
  split; [exact H|]. split; [vm_compute; reflexivity|].
  exact (eq_trans (C8_total_size_aggregation ds xs H) eq_refl).
Defined.

(** ** The download fields of the dashboard *)

Lemma size_in_mb_sized (d : download) :
  sized d -> String.eqb (size d) "Unknown" = false ->
  exists y, size_in_mb (size d) = Ok y /\ (y = I 0 \/ exists x, y = F x).
Proof.
  intros [E | (_ & v & u & x & Hs & Hv)] Hn.
  - rewrite E in Hn. discriminate.
  - unfold size_in_mb. rewrite Hs, Hv. cbn [rbind].
    destruct (String.eqb u "KB").
    + rewrite truediv_1024. cbn [rbind]. eauto.
    + destruct (String.eqb u "MB"); [eauto|].
      destruct (String.eqb u "GB"); [rewrite mul_1024|]; eauto.
Qed.

Lemma total_size_sized (ds : list download) :
  Forall sized ds ->
  forall a, (a = I 0 \/ exists x, a = F x) ->
  exists a',
    rfold (fun total d =>
             if String.eqb (size d) "Unknown" then Ok total
             else y <- size_in_mb (size d) ;; num_add total y) ds a = Ok a'
    /\ (a' = I 0 \/ exists x, a' = F x).
Proof.
  induction 1 as [|d ds Hd _ IH]; intros a Ha; cbn [rfold].
  - eauto.
  - destruct (String.eqb (size d) "Unknown") eqn:E; cbn [rbind].
    + apply IH. exact Ha.
    + destruct (size_in_mb_sized d Hd E) as (y & -> & Hy). cbn [rbind].
      destruct Ha as [-> | [x ->]]; destruct Hy as [-> | [z ->]];
        cbn [num_add to_float rbind]; apply IH; eauto.
Qed.

Lemma rfold_app {A B : Type} (f : B -> A -> res B) (l1 l2 : list A) (b : B) :
  rfold f (l1 ++ l2)%list b = (b' <- rfold f l1 b ;; rfold f l2 b').
Proof.
  revert b. induction l1 as [|a l1 IH]; intros b; cbn [rfold app rbind]; [reflexivity|].
  destruct (f b a); cbn [rbind]; [apply IH | reflexivity].
Qed.

(** One step of the loop of [_calculate_total_size] on a record that is
    read as [r]. *)
Lemma total_size_step (d : download) (r : size_reading) (a : num) (x : float) :
  reads_as d r -> running a x ->
  exists a',
    (if String.eqb (size d) "Unknown" then Ok a
     else y <- size_in_mb (size d) ;; num_add a y) = Ok a'
    /\ running a' (match reading_megabytes r with
                   | Some y => fadd x y
                   | None => x
                   end).
Proof.
  intros Hr Ha. destruct r as [|y u|]; cbn [reads_as reading_megabytes] in *.
  - rewrite Hr. exists a. split; [reflexivity | exact Ha].
  - rewrite (labelled_not_unknown d (y, u) Hr), (size_in_mb_labelled d (y, u) Hr).
    cbn [rbind fst snd]. rewrite (running_add a x _ Ha).
    eexists. split; [reflexivity|]. right. reflexivity.
  - destruct Hr as (_ & v & u & z & Hs & Hv & H1 & H2 & H3).
    assert (Hn : String.eqb (size d) "Unknown" = false).
    { destruct (String.eqb_spec (size d) "Unknown") as [E|]; [|reflexivity].
      rewrite E in Hs. vm_compute in Hs. discriminate. }
    rewrite Hn. unfold size_in_mb. rewrite Hs, Hv. cbn [rbind].
    apply String.eqb_neq in H1, H2, H3. rewrite H1, H2, H3. cbn [rbind].
    destruct Ha as [[-> ->]| ->].
    + exists (I 0). split; [reflexivity|]. left. split; reflexivity.
    + eexists. split; [reflexivity|]. right. reflexivity.
Qed.

Lemma total_size_read (ds : list download) (rs : list size_reading) :
  Forall2 reads_as ds rs ->
  forall a x, running a x ->
  exists a',
    rfold (fun total d =>
             if String.eqb (size d) "Unknown" then Ok total
             else y <- size_in_mb (size d) ;; num_add total y) ds a = Ok a'
    /\ running a'
         (fold_left (fun acc r =>
                       match reading_megabytes r with
                       | Some y => fadd acc y
                       | None => acc
                       end) rs x).
Proof.
  induction 1 as [|d r ds rs Hd _ IH]; intros a x Ha; cbn [rfold fold_left].
  - exists a. split; [reflexivity | exact Ha].
  - destruct (total_size_step d r a x Hd Ha) as (a1 & -> & Ha1). cbn [rbind].
    apply IH. exact Ha1.
Qed.

Lemma calculate_total_size_read (ds : list download) (rs : list size_reading) :
  Forall2 reads_as ds rs ->
  _calculate_total_size ds = Ok (spec_render_total (spec_total_mb rs)).
Proof.
  intros H.
  destruct (total_size_read ds rs H (I 0) (S754_zero false)) as [a [Hr Ha]];
    [left; split; reflexivity|].
  unfold _calculate_total_size, total_size_mb. rewrite Hr. cbn [rbind].
  fold (spec_total_mb rs) in Ha. unfold spec_render_total.
  destruct Ha as [[-> E]| ->].
  - rewrite E. reflexivity.
  - cbn [num_ge_int]. destruct (float_ge_int (spec_total_mb rs) 1024).
    + rewrite truediv_1024. reflexivity.
    + reflexivity.
Qed.

(** C10. The "Downloads" field of the dashboard shows the total of the
    first four download records, whatever the records after them hold.
    Each of the four is read on its own: a size "Unknown" is left out, a
    number with KB, MB or GB counts with its megabytes, and a number
    followed by any other unit word counts as zero.  On four records that
    can be read in this way the total does not raise: it is the sum of these
    megabytes, shown in GB from 1024 MB on and in MB below, and the download
    fields are the list of the shown records, this total, and the two disk
    space texts, whenever the downloads provider formats the shown records
    and the snapshot has the two disk space keys. *)
Theorem C10_downloads_total_of_first_four
  (sabnzbd_cog : option (download -> Z -> res string)) (info : server_info)
  (di : downloads_info) (all : list download) (rs : list size_reading) :
  info_downloads info = Val di ->
  downloads di = Val all ->
  all <> [] ->
  Forall2 reads_as (firstn 4 all) rs ->
  _calculate_total_size (firstn 4 all)
  = Ok (spec_render_total (spec_total_mb rs))
  /\ download_fields sabnzbd_cog info
     = (fmt <- need_obj sabnzbd_cog ;;
        lines <- format_downloads fmt (firstn 4 all) 0 ;;
        free <- key (diskspace1 di) ;;
        space <- key (diskspacetotal1 di) ;;
        let download_count := Z.of_nat (List.length all) in
        Ok [ {| name := str_of_int download_count ++ " current Download"
                        ++ plural download_count ++ ":";
                value := join NL lines; inline := false |};
             {| name := FIELD_DOWNLOADS;
                value := code_block (spec_render_total (spec_total_mb rs));
                inline := true |};
             {| name := FIELD_FREE; value := code_block (show_opt id free);
                inline := true |};
             {| name := FIELD_TOTAL; value := code_block (show_opt id space);
                inline := true |} ]).
Proof.
  intros Hi Hd Hne Hr.
  pose proof (calculate_total_size_read _ _ Hr) as Ht.
  split; [exact Ht|].
  unfold download_fields. rewrite Hi, Hd.
  cbn [getattr rbind key need truthy_opt]. rewrite Hd.
  destruct all as [|d0 rest]; [congruence|]. cbn [truthy_list key rbind need].
  destruct sabnzbd_cog as [fmt|]; cbn [need_obj rbind]; [|reflexivity].
  destruct (format_downloads fmt (firstn 4 (d0 :: rest)) 0); cbn [rbind];
    [|reflexivity].
  rewrite Ht. cbn [rbind]. reflexivity.
Qed.

(** Five records, the last one not readable at all: the field shows the
    total of the first four, "1.00 MB", while the total of all five would
    raise. *)
Lemma C10_downloads_witness :
  let all := [ {| size := "Unknown" |}; {| size := "512 KB" |};
               {| size := "7 TB" |}; {| size := "0.5 MB" |};
               {| size := "3GB" |} ] in
  let di := {| downloads := Val all; diskspace1 := Val "10 GB";
               diskspacetotal1 := Val "20 GB" |} in
  let info := {| status := STATUS_ONLINE; uptime := Val "00:10";
                 info_offline_since := Absent; library_stats := [];
                 active_users := []; current_streams := [];
                 jellyfin_stream_count := Val 0; info_downloads := Val di |} in
  _calculate_total_size all = Raise ValueError
  /\ _calculate_total_size (firstn 4 all) = Ok "1.00 MB"
  /\ download_fields (Some (fun d _ => Ok (size d))) info
     = Ok [ {| name := "5 current Downloads:";
               value := join NL ["Unknown"; "512 KB"; "7 TB"; "0.5 MB"];
               inline := false |};
            {| name := FIELD_DOWNLOADS; value := code_block "1.00 MB";
               inline := true |};
            {| name := FIELD_FREE; value := code_block "10 GB"; inline := true |};
            {| name := FIELD_TOTAL; value := code_block "20 GB"; inline := true |} ].
Proof.
  intros all di info.
  split; [vm_compute; reflexivity|].
  assert (Hhalf : exists x, float_of_str "0.5" = Ok x).
  { vm_compute. eexists. reflexivity. }
  destruct Hhalf as [half Hhalf].
  assert (H : Forall2 reads_as (firstn 4 all)
                [Skipped; Counted (float_of_Z 512) KB; Unrecognised;
                 Counted half MB]).
  { unfold all. cbn [firstn].
    apply Forall2_cons; [reflexivity|].
    apply Forall2_cons; [exists "512"; split; vm_compute; reflexivity|].
    apply Forall2_cons.
    { split; [reflexivity|]. exists "7", "TB", (float_of_Z 7).
      repeat split; try discriminate; vm_compute; reflexivity. }
    apply Forall2_cons; [exists "0.5"; split; [vm_compute; reflexivity | exact Hhalf]|].
    apply Forall2_nil. }
  destruct (C10_downloads_total_of_first_four
              (Some (fun d _ => Ok (size d))) info di all _ eq_refl eq_refl
              ltac:(discriminate) H) as [Ht Hf].
  split.
  - rewrite Ht. vm_compute in Hhalf. injection Hhalf as <-.
    vm_compute. reflexivity.
  - rewrite Hf. vm_compute in Hhalf. injection Hhalf as <-.
    vm_compute. reflexivity.
Defined.

(** ** Library statistics cache *)

Lemma fresh_at_guard (w : world) (c : cog) :
  fresh_at w c -> cache_is_fresh w c = Ok true.
Proof.
  intros (t & d & x & Ht & Hd & Hx & Hle).
  unfold cache_is_fresh. rewrite Ht, Hd. cbn [rbind]. rewrite Hx. cbn [rbind].
  rewrite Hle. reflexivity.
Qed.

Lemma stale_at_guard (w : world) (c : cog) :
  stale_at w c -> cache_is_fresh w c = Ok false.
Proof.
  intros [Hn | (t & d & x & Ht & Hd & Hx & Hle)]; unfold cache_is_fresh.
  - rewrite Hn. reflexivity.
  - rewrite Ht, Hd. cbn [rbind]. rewrite Hx. cbn [rbind]. rewrite Hle. reflexivity.
Qed.

Lemma query_library_stats_cfg (w : world) (c1 c2 : cog) :
  cfg c1 = cfg c2 -> query_library_stats w c1 = query_library_stats w c2.
Proof. intros H. unfold query_library_stats. rewrite H. reflexivity. Qed.

(** What [ensure_connected] leaves alone, and the handle it yields. *)
Lemma ensure_connected_keeps (w : world) (c : cog) :
  cfg (ensure_connected w c) = cfg c
  /\ library_cache (ensure_connected w c) = library_cache c
  /\ last_library_update (ensure_connected w c) = last_library_update c
  /\ library_update_interval (ensure_connected w c) = library_update_interval c
  /\ user_mapping (ensure_connected w c) = user_mapping c.
Proof.
  unfold ensure_connected, connect_to_plex.
  destruct (plex c); [|destruct (w_connect w); [destruct (plex_start_time c)|]];
    repeat split.
Qed.

Lemma ensure_connected_plex (w : world) (c : cog) :
  plex (ensure_connected w c)
  = match plex c with
    | Some p => Some p
    | None => if w_connect w then Some PlexHandle else None
    end.
Proof.
  unfold ensure_connected, connect_to_plex.
  destruct (plex c) eqn:E; [exact E|].
  destruct (w_connect w); [destruct (plex_start_time c)|]; reflexivity.
Qed.

(** C2, as the code has it.  A stale cache (no refresh time known, or more
    than the interval elapsed) with a reachable server and a successful
    query is replaced by the queried statistics and its clock is set to the
    present; a fresh cache (not more than the interval elapsed, the interval
    itself included) is returned and the cog is left as it was, whatever
    the server does. *)
Theorem C2_cache_refresh_rule (w : world) (c : cog) :
  (forall st,
      stale_at w c ->
      (plex c <> None \/ w_connect w = true) ->
      query_library_stats w c = Ok st ->
      exists c',
        get_library_stats w c = (Ok st, c')
        /\ library_cache c' = st
        /\ last_library_update c' = Some (w_now w))
  /\ (fresh_at w c -> get_library_stats w c = (Ok (library_cache c), c)).
Proof.
  split.
  - intros st Hs Hr Hq. unfold get_library_stats.
    rewrite (stale_at_guard w c Hs).
    cbv zeta. rewrite ensure_connected_plex.
    rewrite (query_library_stats_cfg w _ c (proj1 (ensure_connected_keeps w c))), Hq.
    destruct (plex c) as [p|] eqn:Hp.
    + eexists. split; [reflexivity|]. split; reflexivity.
    + destruct Hr as [Hr | Hr]; [congruence|]. rewrite Hr.
      eexists. split; [reflexivity|]. split; reflexivity.
  - intros Hf. unfold get_library_stats. rewrite (fresh_at_guard w c Hf). reflexivity.
Qed.

(** A cache refreshed 901 seconds ago is replaced; one refreshed 899
    seconds ago is returned even though the server answers. *)
Lemma C2_cache_refresh_witness :
  let w := sample_world 1700000901 in
  let old := sample_cached_cog 1700000000 in
  let recent := sample_cached_cog 1700000002 in
  stale_at w old
  /\ (exists st c',
        query_library_stats w old = Ok st
        /\ get_library_stats w old = (Ok st, c')
        /\ library_cache c' = st
        /\ dict_get "Movies" st
           = Some {| count := 12; episodes := 0; display_name := "Films";
                     emoji := "M"; show_episodes := false |}
        /\ last_library_update c' = Some (w_now w))
  /\ fresh_at w recent
  /\ get_library_stats w recent = (Ok (library_cache recent), recent).
Proof.
  intros w old recent.
  assert (Hs : stale_at w old).
  { right. eexists _, _, _. repeat split; vm_compute; reflexivity. }
  assert (Hf : fresh_at w recent).
  { eexists _, _, _. repeat split; vm_compute; reflexivity. }
  split; [exact Hs|]. split.
  - pose (st := [("Movies", {| count := 12; episodes := 0; display_name := "Films";
                                emoji := "M"; show_episodes := false |});
                 ("TV", {| count := 3; episodes := 30; display_name := "Series";
                            emoji := "T"; show_episodes := true |});
                 ("Music", {| count := 2; episodes := 0; display_name := "Music";
                               emoji := DEFAULT_EMOJI; show_episodes := false |})]).
    assert (Hq : query_library_stats w old = Ok st) by (vm_compute; reflexivity).
    destruct (proj1 (C2_cache_refresh_rule w old) st Hs (or_intror eq_refl) Hq)
      as (c' & H1 & H2 & H3).
    exists st, c'. repeat split; assumption || reflexivity.
  - split; [exact Hf|]. exact (proj2 (C2_cache_refresh_rule w recent) Hf).
Defined.

(** C2 as stated fails at the boundary: exactly the interval (900 s) after
    the last refresh, with the server reachable and the query successful,
    the old cache is returned and nothing is replaced. *)
Lemma C2_boundary_counterexample :
  let w := sample_world 1700000900 in
  let c := sample_cached_cog 1700000000 in
  (exists d, datetime_sub (w_now w) (1700000000 * 1000000) = Ok d
             /\ total_seconds d = Ok (float_of_Z 900))
  /\ library_update_interval c = I 900
  /\ w_connect w = true
  /\ (exists st, query_library_stats w c = Ok st /\ st <> library_cache c)
  /\ get_library_stats w c = (Ok (library_cache c), c).
Proof.
  intros w c. split; [exists (mk_timedelta 0 900 0); split; vm_compute; reflexivity|].
  split; [reflexivity|]. split; [reflexivity|]. split.
  - eexists. split; [vm_compute; reflexivity|]. vm_compute. discriminate.
  - vm_compute. reflexivity.
Qed.

(** C3. When the cache is stale and the refresh fails, because no
    connection can be made or because the query raises, the call returns
    the cache it found and leaves both the cache and its clock as they
    were. *)
Theorem C3_failed_refresh_keeps_cache (w : world) (c : cog) :
  stale_at w c ->
  ((plex c = None /\ w_connect w = false)
   \/ exists e, query_library_stats w c = Raise e) ->
  fst (get_library_stats w c) = Ok (library_cache c)
  /\ library_cache (snd (get_library_stats w c)) = library_cache c
  /\ last_library_update (snd (get_library_stats w c)) = last_library_update c.
Proof.
  intros Hs Hfail. unfold get_library_stats.
  rewrite (stale_at_guard w c Hs). cbv zeta.
  destruct (ensure_connected_keeps w c) as (Hcfg & Hc & Hl & _).
  rewrite (query_library_stats_cfg w _ c Hcfg).
  pose proof (ensure_connected_plex w c) as Hp.
  destruct (plex (ensure_connected w c)).
  - destruct Hfail as [[Hn Hw] | [e He]].
    + rewrite Hn, Hw in Hp. discriminate.
    + rewrite He. cbn [fst snd]. rewrite Hc, Hl. auto.
  - cbn [fst snd]. rewrite Hc, Hl. auto.
Qed.

(** The first run with the server down, and a run where listing the
    libraries raises: the cache (empty, resp. five films) stays. *)
Lemma C3_failed_refresh_witness :
  let down :=
    {| w_connect := false; w_sections := Raise ExternalError;
       w_sessions := Raise ExternalError; w_time := float_of_Z 1700000000;
       w_now := 1700000000 * 1000000; w_utcnow := 1700000000 * 1000000;
       w_jellyfin := JfClientError |} in
  let broken :=
    {| w_connect := true; w_sections := Raise ExternalError;
       w_sessions := Ok []; w_time := float_of_Z 1700005000;
       w_now := 1700005000 * 1000000; w_utcnow := 1700005000 * 1000000;
       w_jellyfin := JfClientError |} in
  let c := sample_cached_cog 1700000000 in
  (stale_at down sample_cog
   /\ fst (get_library_stats down sample_cog) = Ok []
   /\ library_cache (snd (get_library_stats down sample_cog)) = []
   /\ last_library_update (snd (get_library_stats down sample_cog)) = None)
  /\ (stale_at broken c
      /\ query_library_stats broken c = Raise ExternalError
      /\ fst (get_library_stats broken c) = Ok (library_cache c)
      /\ library_cache (snd (get_library_stats broken c)) = library_cache c
      /\ last_library_update (snd (get_library_stats broken c))
         = Some (1700000000 * 1000000)).
Proof.
  intros down broken c. split.
  - assert (Hs : stale_at down sample_cog) by (left; reflexivity).
    split; [exact Hs|].
    exact (C3_failed_refresh_keeps_cache down sample_cog Hs
             (or_introl (conj eq_refl eq_refl))).
  - assert (Hs : stale_at broken c).
    { right. eexists _, _, _. repeat split; vm_compute; reflexivity. }
    split; [exact Hs|]. split; [reflexivity|].
    exact (C3_failed_refresh_keeps_cache broken c Hs
             (or_intror (ex_intro _ ExternalError eq_refl))).
Defined.

(** ** Presence text *)

Lemma format_aux_plain (count s a rest : string) :
  lacks "{" a = true -> lacks "}" a = true ->
  format_aux count s None (a ++ rest)
  = (r <- format_aux count s None rest ;; Ok (a ++ r)).
Proof.
  induction a as [|ch a IH]; cbn [lacks append]; intros H1 H2.
  - destruct (format_aux count s None rest); reflexivity.
  - apply andb_true_iff in H1. destruct H1 as [H1 H1'].
    apply andb_true_iff in H2. destruct H2 as [H2 H2'].
    apply negb_true_iff in H1, H2.
    cbn [format_aux]. rewrite H1, H2. rewrite (IH H1' H2').
    destruct (format_aux count s None rest); reflexivity.
Qed.

Lemma format_aux_end (count s a : string) :
  lacks "{" a = true -> lacks "}" a = true ->
  format_aux count s None a = Ok a.
Proof.
  intros H1 H2.
  pose proof (format_aux_plain count s a EmptyString H1 H2) as H.
  cbn [format_aux rbind] in H.
  assert (E : forall x : string, x ++ "" = x).
  { induction x as [|ch x IH]; cbn [append]; [reflexivity | rewrite IH; reflexivity]. }
  rewrite !E in H. exact H.
Qed.

Lemma format_aux_count (count s rest : string) :
  format_aux count s None ("{count}" ++ rest)
  = (r <- format_aux count s None rest ;; Ok (count ++ r)).
Proof. reflexivity. Qed.

Lemma format_aux_s (count s rest : string) :
  format_aux count s None ("{s}" ++ rest)
  = (r <- format_aux count s None rest ;; Ok (s ++ r)).
Proof. reflexivity. Qed.

(** A template made of plain text around [{count}] and [{s}]. *)
Lemma format_stream_text_filled (pre mid post : string) (n : Z) (s : string) :
  lacks "{" pre = true -> lacks "}" pre = true ->
  lacks "{" mid = true -> lacks "}" mid = true ->
  lacks "{" post = true -> lacks "}" post = true ->
  format_stream_text (pre ++ "{count}" ++ mid ++ "{s}" ++ post) n s
  = Ok (pre ++ str_of_int n ++ mid ++ s ++ post).
Proof.
  intros P1 P2 M1 M2 Q1 Q2. unfold format_stream_text.
  rewrite (format_aux_plain _ _ pre _ P1 P2), format_aux_count.
  rewrite (format_aux_plain _ _ mid _ M1 M2), format_aux_s.
  rewrite (format_aux_end _ _ post Q1 Q2). reflexivity.
Qed.

(** The comprehension over complete presence sections whose counts can be
    written: one text for each section found in the stats, in order. *)
Lemma presence_parts_found (stats : stats) (l : list presence_section) :
  Forall complete_presence_section l ->
  (forall section t e,
      In section l -> section_title section = Some t ->
      dict_get t stats = Some e -> is_ok (fmt_count (count e)) = true) ->
  exists parts,
    presence_parts stats l = Ok parts
    /\ Forall2 (presence_text stats) (found_sections stats l) parts.
Proof.
  induction l as [|section l IH]; intros Hc Hf; cbn [presence_parts found_sections filter].
  - exists []. split; [reflexivity | constructor].
  - inversion Hc as [|x y Hs Hl]; subst.
    destruct Hs as (t & name & glyph & Ht & Hn & Hg).
    destruct (IH Hl (fun s t0 e H => Hf s t0 e (or_intror H))) as (more & Hm & HF).
    rewrite Ht. cbn [lookup rbind]. unfold dict_has.
    destruct (dict_get t stats) as [e|] eqn:Ed.
    + unfold presence_part. rewrite Ht. cbn [lookup rbind]. rewrite Ed.
      pose proof (Hf section t e (or_introl eq_refl) Ht Ed) as Hok.
      destruct (fmt_count (count e)) as [cnt|] eqn:Ec; [|discriminate Hok].
      rewrite Hn, Hg. cbn [rbind lookup]. unfold found_sections in Hm |- *.
      rewrite Hm. cbn [rbind].
      exists ((cnt ++ " " ++ name ++ " " ++ glyph) :: more).
      split; [reflexivity|]. constructor; [|exact HF].
      exists t, e, cnt, name, glyph. repeat split; assumption.
    + exists more. split; [exact Hm | exact HF].
Qed.

(** A count that a library can have is written without raising. *)
Lemma fmt_count_ok (n : Z) : 0 <= n < 2 ^ 53 -> is_ok (fmt_count n) = true.
Proof.
  intros Hn. unfold fmt_count, fmt_num. cbn [to_float]. unfold float_of_int.
  destruct n as [|N|N]; try lia; [reflexivity|].
  fold (float_of_Z (Zpos N)).
  destruct (float_of_Z_normal N ltac:(lia)) as (m & _ & ->). reflexivity.
Qed.




(** ** Dashboard message upsert *)

Lemma edited_ids (p : positive) (e : embed) (l : list (positive * embed)) :
  map fst (map (fun m => if Pos.eqb (fst m) p then (p, e) else m) l) = map fst l.
Proof.
  induction l as [|m l IH]; cbn [map]; [reflexivity|].
  rewrite IH. destruct (Pos.eqb (fst m) p) eqn:E; [|reflexivity].
  apply Pos.eqb_eq in E. rewrite E. reflexivity.
Qed.

Lemma edited_content (p : positive) (e : embed) (l : list (positive * embed)) :
  existsb (fun m => Pos.eqb (fst m) p) l = true ->
  In (p, e) (map (fun m => if Pos.eqb (fst m) p then (p, e) else m) l).
Proof.
  induction l as [|m l IH]; cbn [existsb map In]; [discriminate|].
  destruct (Pos.eqb (fst m) p); cbn [orb]; auto.
Qed.

(** C4. With a message id stored: when the channel still has that message,
    the id is kept, the id file is not written and no message is created
    (and the message holds the new embed when the edit goes through); when
    the fetch reports the message missing, a new message is sent, its id
    replaces the stored one and is written to the id file. *)
Theorem C4_dashboard_upsert (f : faults) (c : cog) (d : discord) (e : embed)
  (mid : Z) :
  dashboard_message_id c = Some mid ->
  let run := _update_dashboard_message f c d e in
  (forall p,
      mid = Zpos p -> has_message d p = true ->
      fetch_fault f = false -> edit_fault f <> Some NotFound ->
      dashboard_message_id (snd (fst run)) = Some mid
      /\ id_file (snd run) = id_file d
      /\ id_file_writes (snd run) = id_file_writes d
      /\ map fst (messages (snd run)) = map fst (messages d)
      /\ (edit_fault f = None ->
          fst (fst run) = Ok tt /\ In (p, e) (messages (snd run))))
  /\ (fetch_message f d mid = Raise NotFound -> send_fault f = false ->
      fst (fst run) = Ok tt
      /\ dashboard_message_id (snd (fst run)) = Some (Zpos (next_message_id d))
      /\ messages (snd run) = (messages d ++ [(next_message_id d, e)])%list
      /\ (write_fault f = false ->
          id_file (snd run) = Some (Zpos (next_message_id d))
          /\ id_file_writes (snd run) = S (id_file_writes d))).
Proof.
  intros Hid run. subst run. split.
  - intros p -> Hp Hf He.
    unfold _update_dashboard_message, create_if_unknown.
    rewrite Hid. cbn [truthy_opt truthy_int Z.eqb negb need rbind].
    unfold fetch_message. rewrite Hf, Hp. cbn [rbind].
    unfold edit_message. destruct (edit_fault f) as [x|].
    + destruct x; try congruence; cbn [fst snd]; repeat split;
        first [exact Hid | reflexivity | discriminate].
    + cbn [truthy_opt truthy_int Z.eqb negb fst snd messages
             id_file id_file_writes].
      repeat split;
        first [ exact Hid | reflexivity | apply edited_ids
              | apply edited_content; exact Hp ].
  - intros Hnf Hs.
    assert (Hcreate :
      forall c0, truthy_opt truthy_int (dashboard_message_id c0) = false ->
        create_if_unknown f c0 d e
        = (Ok tt, set_dashboard_message_id c0 (Some (Zpos (next_message_id d))),
           _save_message_id f
             {| messages := (messages d ++ [(next_message_id d, e)])%list;
                next_message_id := Pos.succ (next_message_id d);
                id_file := id_file d; id_file_writes := id_file_writes d |}
             (Zpos (next_message_id d)))).
    { intros c0 H0. unfold create_if_unknown, send_message. rewrite H0, Hs.
      reflexivity. }
    assert (Hrun :
      _update_dashboard_message f c d e
      = (Ok tt, set_dashboard_message_id
                  (if truthy_opt truthy_int (dashboard_message_id c)
                   then set_dashboard_message_id c None else c)
                  (Some (Zpos (next_message_id d))),
         _save_message_id f
           {| messages := (messages d ++ [(next_message_id d, e)])%list;
              next_message_id := Pos.succ (next_message_id d);
              id_file := id_file d; id_file_writes := id_file_writes d |}
           (Zpos (next_message_id d)))).
    { unfold _update_dashboard_message.
      destruct (truthy_opt truthy_int (dashboard_message_id c)) eqn:Ht.
      - rewrite Hid. cbn [need rbind]. rewrite Hnf. cbn [rbind].
        apply Hcreate. reflexivity.
      - apply Hcreate. exact Ht. }
    rewrite Hrun. cbn [fst snd]. unfold _save_message_id.
    repeat split.
    + destruct (write_fault f); reflexivity.
    + rewrite H. reflexivity.
    + rewrite H. reflexivity.
Qed.

(** Stored id 42 and message 42 in the channel: edited in place, id file
    untouched.  Stored id 41 and no such message: message 90 is created and
    its id is stored and written. *)
Lemma C4_dashboard_upsert_witness :
  let kept := _update_dashboard_message no_faults
                (set_dashboard_message_id sample_cog (Some 42))
                (sample_discord 42) new_embed in
  let lost := _update_dashboard_message no_faults
                (set_dashboard_message_id sample_cog (Some 41))
                (sample_discord 41) new_embed in
  (dashboard_message_id (snd (fst kept)) = Some 42
   /\ id_file (snd kept) = Some 42
   /\ id_file_writes (snd kept) = 0%nat
   /\ map fst (messages (snd kept)) = [42%positive; 57%positive]
   /\ fst (fst kept) = Ok tt
   /\ In (42%positive, new_embed) (messages (snd kept)))
  /\ (fetch_message no_faults (sample_discord 41) 41 = Raise NotFound
      /\ fst (fst lost) = Ok tt
      /\ dashboard_message_id (snd (fst lost)) = Some 90
      /\ messages (snd lost)
         = [(42%positive, old_embed); (57%positive, []); (90%positive, new_embed)]
      /\ id_file (snd lost) = Some 90
      /\ id_file_writes (snd lost) = 1%nat).
Proof.
  intros kept lost. split.
  - destruct (proj1 (C4_dashboard_upsert no_faults
                       (set_dashboard_message_id sample_cog (Some 42))
                       (sample_discord 42) new_embed 42 eq_refl)
                    42%positive eq_refl eq_refl eq_refl)
      as (H1 & H2 & H3 & H4 & H5); [discriminate|].
    destruct (H5 eq_refl) as [H6 H7].
    repeat split; assumption.
  - destruct (proj2 (C4_dashboard_upsert no_faults
                       (set_dashboard_message_id sample_cog (Some 41))
                       (sample_discord 41) new_embed 41 eq_refl)
                    eq_refl eq_refl)
      as (H1 & H2 & H3 & H4).
    destruct (H4 eq_refl) as [H5 H6].
    repeat split; assumption.
Defined.

(** ** Offline snapshot *)

Lemma dict_get_set_same {V : Type} (k : string) (v : V) (d : list (string * V)) :
  dict_get k (dict_set k v d) = Some v.
Proof.
  induction d as [|[k' v'] d IH]; cbn [dict_set dict_get].
  - rewrite String.eqb_refl. reflexivity.
  - destruct (String.eqb k k') eqn:E; cbn [dict_get].
    + rewrite String.eqb_refl. reflexivity.
    + rewrite E. exact IH.
Qed.

Lemma dict_get_set_other {V : Type} (k k' : string) (v : V) (d : list (string * V)) :
  k <> k' -> dict_get k (dict_set k' v d) = dict_get k d.
Proof.
  intros Hne. apply String.eqb_neq in Hne.
  induction d as [|[k0 v0] d IH]; cbn [dict_set dict_get].
  - rewrite Hne. reflexivity.
  - destruct (String.eqb k' k0) eqn:E; cbn [dict_get].
    + apply String.eqb_eq in E. subst k0. rewrite Hne. reflexivity.
    + rewrite IH. reflexivity.
Qed.

Lemma dict_get_in {V : Type} (kv : string * V) (d : list (string * V)) :
  In kv d -> dict_get (fst kv) d <> None.
Proof.
  induction d as [|[k' v'] d IH]; cbn [In dict_get]; [tauto|].
  intros [<- | H]; cbn [fst].
  - rewrite String.eqb_refl. discriminate.
  - destruct (String.eqb (fst kv) k'); [discriminate | auto].
Qed.

Lemma dict_get_keys {V : Type} (k : string) (d : list (string * V)) :
  existsb (String.eqb k) (map fst d)
  = match dict_get k d with Some _ => true | None => false end.
Proof.
  induction d as [|[k' v'] d IH]; cbn [map existsb dict_get fst]; [reflexivity|].
  destruct (String.eqb k k'); [reflexivity | exact IH].
Qed.

(** The loop of [get_offline_info], run on a part [l] of the configured
    sections [full] from the stats [acc]. *)
Lemma offline_stats_loop (full l : list (string * section_config)) :
  (forall kv, In kv l ->
     exists config, dict_get (fst kv) full = Some config
                    /\ zero_stats config <> None) ->
  forall acc : stats,
  exists st,
    rfold (fun (st : stats) (kv : string * section_config) =>
             let title := fst kv in
             config <- match dict_get title full with
                       | Some cf => Ok cf
                       | None => Raise KeyError
                       end ;;
             wanted <- lookup (sc_show_episodes config) ;;
             name <- lookup (sc_display_name config) ;;
             glyph <- lookup (sc_emoji config) ;;
             flag <- lookup (sc_show_episodes config) ;;
             Ok (dict_set title
                   {| count := 0;
                      episodes := if wanted then 0 else 0;
                      display_name := name;
                      emoji := glyph;
                      show_episodes := flag |} st))
          l acc = Ok st
    /\ forall k,
         dict_get k st
         = if existsb (String.eqb k) (map fst l)
           then match dict_get k full with
                | Some config => zero_stats config
                | None => None
                end
           else dict_get k acc.
Proof.
  induction l as [|kv l IH]; intros Hin acc; cbn [rfold].
  - exists acc. split; [reflexivity|]. intros k. reflexivity.
  - destruct (Hin kv (or_introl eq_refl)) as (config & E & Hz).
    cbv zeta. rewrite E. cbn [rbind].
    unfold zero_stats in Hz.
    destruct (sc_display_name config) as [name|] eqn:E1; [|congruence].
    destruct (sc_emoji config) as [glyph|] eqn:E2; [|congruence].
    destruct (sc_show_episodes config) as [flag|] eqn:E3; [|congruence].
    cbn [lookup rbind].
    destruct (IH (fun kv' H => Hin kv' (or_intror H))
                 (dict_set (fst kv)
                    {| count := 0;
                       episodes := if flag then 0 else 0;
                       display_name := name;
                       emoji := glyph;
                       show_episodes := flag |} acc))
      as (st & Hst & Hget).
    exists st. split; [exact Hst|]. intros k. rewrite Hget.
    cbn [map existsb].
    destruct (existsb (String.eqb k) (map fst l)); [rewrite orb_true_r; reflexivity|].
    rewrite orb_false_r.
    destruct (String.eqb k (fst kv)) eqn:Ek.
    + apply String.eqb_eq in Ek. subst k. rewrite dict_get_set_same, E.
      unfold zero_stats. rewrite E1, E2, E3.
      destruct flag; reflexivity.
    + apply String.eqb_neq in Ek. apply dict_get_set_other. exact Ek.
Qed.

(** When every configured library has its three settings, the offline stats
    hold every configured library, and only those, with its display settings
    and zero counts. *)
Lemma offline_stats_zero (configured : list (string * section_config)) :
  (forall k config, dict_get k configured = Some config ->
                    zero_stats config <> None) ->
  exists st,
    offline_stats configured = Ok st
    /\ forall k, dict_get k st
                 = match dict_get k configured with
                   | Some config => zero_stats config
                   | None => None
                   end.
Proof.
  intros Hall.
  destruct (offline_stats_loop configured configured) with (acc := @nil (string * section_stats))
    as (st & Hst & Hget).
  { intros kv Hin. pose proof (dict_get_in kv configured Hin) as Hne.
    destruct (dict_get (fst kv) configured) as [config|] eqn:E; [|congruence].
    exists config. split; [reflexivity | exact (Hall _ _ E)]. }
  exists st. split; [exact Hst|]. intros k. rewrite Hget, dict_get_keys.
  destruct (dict_get k configured); reflexivity.
Qed.

(** A loop whose body raises nothing but [KeyError] raises nothing else. *)
Lemma rfold_raises {A B : Type} (f : B -> A -> res B) (x : exn) (l : list A) :
  (forall b a y, f b a = Raise y -> y = x) ->
  forall b y, rfold f l b = Raise y -> y = x.
Proof.
  intros Hf. induction l as [|a l IH]; intros b y; cbn [rfold]; [discriminate|].
  destruct (f b a) as [b'|z] eqn:E; cbn [rbind].
  - apply IH.
  - intros H. injection H as <-. exact (Hf _ _ _ E).
Qed.

Lemma lookup_raises {A : Type} (o : option A) (y : exn) :
  lookup o = Raise y -> y = KeyError.
Proof. destruct o; cbn [lookup]; [discriminate | congruence]. Qed.

Lemma offline_stats_raises (configured : list (string * section_config)) (y : exn) :
  offline_stats configured = Raise y -> y = KeyError.
Proof.
  unfold offline_stats. apply rfold_raises. intros b a z. cbv zeta.
  destruct (dict_get (fst a) configured) as [config|]; cbn [rbind]; [|congruence].
  destruct (sc_show_episodes config); cbn [lookup rbind]; [|congruence].
  destruct (sc_display_name config); cbn [lookup rbind]; [|congruence].
  destruct (sc_emoji config); cbn [lookup rbind]; [|congruence].
  discriminate.
Qed.

(** What [get_offline_info] returns: with complete sections the offline
    snapshot, and otherwise nothing but a [KeyError]. *)
Lemma get_offline_info_complete (w : world) (c : cog) :
  complete_sections c ->
  exists configured st,
    sections_of (plex_sections (cfg c)) = Some configured
    /\ (forall k, dict_get k st
                  = match dict_get k configured with
                    | Some config => zero_stats config
                    | None => None
                    end)
    /\ get_offline_info w c
       = (Ok {| status := STATUS_OFFLINE;
                uptime := Absent;
                info_offline_since :=
                  Val (match offline_since c with
                       | Some t => t
                       | None => w_utcnow w
                       end);
                library_stats := st;
                active_users := [];
                current_streams := [];
                jellyfin_stream_count := Absent;
                info_downloads := Absent |},
          match offline_since c with
          | Some _ => c
          | None => set_offline_since c (Some (w_utcnow w))
          end).
Proof.
  intros (configured & Hc & Hall).
  destruct (offline_stats_zero configured Hall) as (st & Hst & Hget).
  exists configured, st. split; [exact Hc|]. split; [exact Hget|].
  unfold get_offline_info. cbv zeta.
  destruct (offline_since c) as [t|] eqn:Eo;
    cbn [cfg set_offline_since offline_since]; rewrite ?Eo, Hc; cbn [lookup rbind];
    rewrite Hst; reflexivity.
Qed.

Lemma get_offline_info_raises (w : world) (c : cog) (y : exn) :
  fst (get_offline_info w c) = Raise y ->
  y = KeyError /\ ~ complete_sections c.
Proof.
  intros H. split.
  - unfold get_offline_info in H. cbn [fst] in H.
    destruct (lookup (sections_of (plex_sections (cfg _)))) as [configured|z] eqn:E;
      cbn [rbind] in H.
    + destruct (offline_stats configured) as [st|z] eqn:E2; cbn [rbind] in H;
        [discriminate|].
      injection H as <-. exact (offline_stats_raises _ _ E2).
    + injection H as <-. exact (lookup_raises _ _ E).
  - intros Hc. destruct (get_offline_info_complete w c Hc) as (cs & st & _ & _ & E).
    rewrite E in H. discriminate H.
Qed.

(** A poll whose connection fails, under a configuration whose
    [plex_sections] group is complete: the snapshot is offline, lists no
    stream and no session, holds the zeroed stats, and carries the offline
    time already known, or the present when none is known; the cog
    remembers that time. *)
Lemma offline_snapshot_on_connect_failure (w : world) (c : cog) :
  w_connect w = false ->
  complete_sections c ->
  exists info configured,
    fst (get_server_info w c) = Ok info
    /\ status info = STATUS_OFFLINE
    /\ active_users info = [] /\ current_streams info = []
    /\ sections_of (plex_sections (cfg c)) = Some configured
    /\ (forall k, dict_get k (library_stats info)
                  = match dict_get k configured with
                    | Some config => zero_stats config
                    | None => None
                    end)
    /\ info_offline_since info
       = Val (match offline_since c with Some t => t | None => w_utcnow w end)
    /\ offline_since (snd (get_server_info w c))
       = Some (match offline_since c with Some t => t | None => w_utcnow w end).
Proof.
  intros Hw Hc. unfold get_server_info, connect_to_plex. rewrite Hw.
  cbn [set_plex plex].
  destruct (get_offline_info_complete w (set_plex (set_plex_start_time c None) None))
    as (configured & st & H1 & H2 & H3); [exact Hc|].
  rewrite H3.
  change (offline_since (set_plex (set_plex_start_time c None) None))
    with (offline_since c).
  cbn [fst snd].
  eexists. exists configured. split; [reflexivity|].
  cbn [status active_users current_streams library_stats info_offline_since].
  repeat split; try assumption.
  destruct (offline_since c) as [t|] eqn:Eo; cbn [offline_since set_offline_since];
    [exact Eo | reflexivity].
Qed.

Lemma get_library_stats_offline_since (w : world) (c : cog) :
  offline_since (snd (get_library_stats w c)) = offline_since c.
Proof.
  assert (He : offline_since (ensure_connected w c) = offline_since c).
  { unfold ensure_connected, connect_to_plex.
    destruct (plex c); [|destruct (w_connect w); [destruct (plex_start_time c)|]];
      reflexivity. }
  unfold get_library_stats.
  destruct (cache_is_fresh w c) as [[|]|]; try reflexivity. cbv zeta.
  destruct (plex (ensure_connected w c)); [|exact He].
  destruct (query_library_stats w (ensure_connected w c)); exact He.
Qed.

Lemma format_streams_offline_since (w : world) (l : list plex_session) :
  forall c idx,
    offline_since (snd (format_streams w c l idx)) = offline_since c.
Proof.
  induction l as [|s l IH]; intros c idx; cbn [format_streams]; [reflexivity|].
  destruct (format_stream_info w c s idx) as [info c1] eqn:E1.
  specialize (IH c1 (idx + 1)).
  destruct (format_streams w c1 l (idx + 1)) as [more c2]. cbn [snd] in *.
  rewrite IH.
  unfold format_stream_info in E1.
  destruct (stream_user s).
  - pose proof (get_library_stats_offline_since w c) as H.
    destruct (get_library_stats w c) as [st c']. cbn [snd] in H.
    injection E1 as _ <-. exact H.
  - injection E1 as _ <-. reflexivity.
Qed.

(** A poll that yields an online snapshot clears the offline time. *)
Lemma online_snapshot_clears_offline_since (w : world) (c : cog) (info : server_info) :
  fst (get_server_info w c) = Ok info ->
  status info = STATUS_ONLINE ->
  offline_since (snd (get_server_info w c)) = None.
Proof.
  unfold get_server_info.
  destruct (connect_to_plex w c) as [p c0].
  assert (Hoff : forall c', status_of (fst (get_offline_info w c')) <> Some STATUS_ONLINE).
  { intros c'. unfold get_offline_info. cbn [fst].
    destruct (lookup _) as [configured|]; cbn [rbind status_of]; [|discriminate].
    destruct (offline_stats configured); cbn [rbind status_of status];
      [|discriminate].
    intros H. injection H as H. vm_compute in H. discriminate. }
  assert (Hno : forall c', fst (get_offline_info w c') = Ok info ->
                           status info = STATUS_ONLINE -> False).
  { intros c' H1 H2. apply (Hoff c'). rewrite H1. cbn. rewrite H2. reflexivity. }
  destruct (plex (set_plex c0 p)); [|intros H1 H2; destruct (Hno _ H1 H2)].
  set (c2 := set_offline_since (set_plex c0 p) None).
  destruct (calculate_uptime w c2); [|intros H1 H2; destruct (Hno _ H1 H2)].
  pose proof (get_library_stats_offline_since w c2) as H3.
  destruct (get_library_stats w c2) as [ls c3]. cbn [snd] in H3.
  destruct ls; [|intros H1 H2; destruct (Hno _ H1 H2)].
  assert (H4 : offline_since (snd (get_active_streams w c3)) = offline_since c3).
  { unfold get_active_streams. destruct (plex c3); [|reflexivity].
    destruct (w_sessions w) as [ss|]; [|reflexivity].
    pose proof (format_streams_offline_since w ss c3 1) as H.
    destruct (format_streams w c3 ss 1). exact H. }
  destruct (get_active_streams w c3) as [au c4]. cbn [snd] in H4.
  destruct au; [|intros H1 H2; destruct (Hno _ H1 H2)].
  destruct (w_sessions w); [|intros H1 H2; destruct (Hno _ H1 H2)].
  intros _ _. cbn [snd]. rewrite H4, H3. reflexivity.
Qed.

(** C9. Two polls a minute apart on which the connection succeeds and the
    listing of the sessions fails: both snapshots are offline, and the
    second carries the time of the second poll, not the time first
    observed.  On two polls whose connection fails the first time is kept. *)
Theorem C9_query_failure_restarts_offline_clock :
  let first := get_server_info (flaky_world 1700000000) sample_cog in
  let second := get_server_info (flaky_world 1700000060) (snd first) in
  let down1 := get_server_info (down_world 1700000000) sample_cog in
  let down2 := get_server_info (down_world 1700000060) (snd down1) in
  status_of (fst first) = Some STATUS_OFFLINE
  /\ offline_since_of (fst first) = Some (1700000000 * 1000000)
  /\ status_of (fst second) = Some STATUS_OFFLINE
  /\ offline_since_of (fst second) = Some (1700000060 * 1000000)
  /\ offline_since_of (fst down1) = Some (1700000000 * 1000000)
  /\ offline_since_of (fst down2) = Some (1700000000 * 1000000).
Proof. repeat split; vm_compute; reflexivity. Qed.

(** ** Session formatter *)

(** Reading a successful run of binds backwards. *)
Ltac bind_inv H :=
  repeat (cbv beta zeta in H;
          match type of H with
          | rbind ?m _ = Ok _ =>
              let E := fresh "E" in
              destruct m eqn:E; cbn [rbind] in H; [|discriminate H]
          end).

Lemma render_stream_block (mapping : list (string * string)) (st : stats)
  (user : string) (session : plex_session) (r : string) :
  render_stream mapping st user session = Ok r -> is_stream_block r.
Proof.
  intros H. unfold render_stream in H. bind_inv H.
  injection H as <-. eexists _, _, _. reflexivity.
Qed.

Lemma render_jellyfin_stream_block (mapping : list (string * string))
  (session : jf_session) (r : string) :
  render_jellyfin_stream mapping session = Ok r -> is_stream_block r.
Proof.
  intros H. unfold render_jellyfin_stream in H. bind_inv H.
  injection H as <-. eexists _, _, _. reflexivity.
Qed.

Lemma format_stream_info_cases (w : world) (c : cog) (session : plex_session)
  (idx : Z) :
  is_stream_block (fst (format_stream_info w c session idx))
  \/ fst (format_stream_info w c session idx) = stream_placeholder idx.
Proof.
  unfold format_stream_info.
  destruct (stream_user session) as [user|]; [|right; reflexivity].
  destruct (get_library_stats w c) as [[st|] c1]; cbn [fst rbind catch];
    [|right; reflexivity].
  destruct (render_stream (user_mapping c) st user session) eqn:E; cbn [catch].
  - left. eapply render_stream_block. exact E.
  - right. reflexivity.
Qed.

Lemma format_jellyfin_stream_info_cases (c : cog) (session : jf_session) (idx : Z) :
  is_stream_block (format_jellyfin_stream_info c session idx)
  \/ format_jellyfin_stream_info c session idx = jellyfin_placeholder idx.
Proof.
  unfold format_jellyfin_stream_info.
  destruct (render_jellyfin_stream (user_mapping c) session) eqn:E; cbn [catch].
  - left. eapply render_jellyfin_stream_block. exact E.
  - right. reflexivity.
Qed.

Lemma stream_block_truthy (s : string) : is_stream_block s -> truthy_str s = true.
Proof. intros (l1 & l2 & l3 & ->). reflexivity. Qed.

Lemma format_stream_info_truthy (w : world) (c : cog) (session : plex_session)
  (idx : Z) : truthy_str (fst (format_stream_info w c session idx)) = true.
Proof.
  destruct (format_stream_info_cases w c session idx) as [H | ->].
  - apply stream_block_truthy. exact H.
  - reflexivity.
Qed.

Lemma format_jellyfin_stream_info_truthy (c : cog) (session : jf_session) (idx : Z) :
  truthy_str (format_jellyfin_stream_info c session idx) = true.
Proof.
  destruct (format_jellyfin_stream_info_cases c session idx) as [H | ->].
  - apply stream_block_truthy. exact H.
  - reflexivity.
Qed.

(** *** One record does not affect the others *)

Lemma ensure_connected_again (w : world) (c : cog) :
  ensure_connected w (ensure_connected w c) = ensure_connected w c.
Proof.
  destruct c as [cf [p|] st mi os lc lu iv um je];
    unfold ensure_connected, connect_to_plex; cbn [plex]; [reflexivity|].
  destruct (w_connect w); cbn [plex_start_time].
  - destruct st; reflexivity.
  - reflexivity.
Qed.

Lemma cache_is_fresh_ensure_connected (w : world) (c : cog) :
  cache_is_fresh w (ensure_connected w c) = cache_is_fresh w c.
Proof.
  destruct (ensure_connected_keeps w c) as (_ & _ & Hl & Hi & _).
  unfold cache_is_fresh. rewrite Hl, Hi. reflexivity.
Qed.

Lemma cache_is_fresh_just_refreshed (w : world) (c : cog) (st : stats) :
  exists b, cache_is_fresh w (set_library_cache c st (Some (w_now w))) = Ok b.
Proof.
  unfold cache_is_fresh, datetime_sub. cbn [last_library_update set_library_cache].
  rewrite Z.sub_diag. eexists. reflexivity.
Qed.

(** Within one poll a second call of [get_library_stats] returns what the
    first returned and changes nothing more. *)
Lemma get_library_stats_again (w : world) (c : cog) :
  get_library_stats w (snd (get_library_stats w c))
  = (fst (get_library_stats w c), snd (get_library_stats w c)).
Proof.
  destruct (get_library_stats w c) as [r c'] eqn:E. cbn [fst snd].
  unfold get_library_stats in E.
  destruct (cache_is_fresh w c) as [[|]|] eqn:Hf.
  - injection E as <- <-. unfold get_library_stats. rewrite Hf. reflexivity.
  - cbv zeta in E.
    pose proof (ensure_connected_again w c) as Hagain.
    pose proof (cache_is_fresh_ensure_connected w c) as Hfresh.
    rewrite Hf in Hfresh.
    set (c1 := ensure_connected w c) in *.
    destruct (plex c1) as [p|] eqn:Hp.
    + destruct (query_library_stats w c1) as [st|e] eqn:Hq; injection E as <- <-.
      * unfold get_library_stats.
        destruct (cache_is_fresh_just_refreshed w c1 st) as [b ->].
        destruct b; [reflexivity|]. cbv zeta.
        assert (He : ensure_connected w (set_library_cache c1 st (Some (w_now w)))
                     = set_library_cache c1 st (Some (w_now w))).
        { unfold ensure_connected. cbn [plex set_library_cache]. rewrite Hp.
          reflexivity. }
        rewrite He. cbn [plex set_library_cache]. rewrite Hp.
        rewrite (query_library_stats_cfg w
                   (set_library_cache c1 st (Some (w_now w))) c1 eq_refl), Hq.
        reflexivity.
      * unfold get_library_stats. rewrite Hfresh. cbv zeta.
        rewrite Hagain, Hp, Hq. reflexivity.
    + injection E as <- <-. unfold get_library_stats. rewrite Hfresh. cbv zeta.
      rewrite Hagain, Hp. reflexivity.
  - injection E as <- <-. unfold get_library_stats. rewrite Hf. reflexivity.
Qed.

Lemma get_library_stats_user_mapping (w : world) (c : cog) :
  user_mapping (snd (get_library_stats w c)) = user_mapping c.
Proof.
  destruct (ensure_connected_keeps w c) as (_ & _ & _ & _ & Hu).
  unfold get_library_stats.
  destruct (cache_is_fresh w c) as [[|]|]; try reflexivity. cbv zeta.
  destruct (plex (ensure_connected w c)); [|exact Hu].
  destruct (query_library_stats w (ensure_connected w c)); exact Hu.
Qed.

(** Formatting from the cog as it is and from the cog after a call of
    [get_library_stats] gives the same texts. *)
Lemma format_streams_settled (w : world) (l : list plex_session) :
  forall c idx,
    fst (format_streams w (snd (get_library_stats w c)) l idx)
    = fst (format_streams w c l idx).
Proof.
  induction l as [|s l IH]; intros c idx; cbn [format_streams]; [reflexivity|].
  unfold format_stream_info.
  destruct (stream_user s) as [user|].
  - rewrite get_library_stats_again, get_library_stats_user_mapping.
    destruct (get_library_stats w c) as [st c1]. cbn [fst snd]. reflexivity.
  - specialize (IH c (idx + 1)).
    destruct (format_streams w (snd (get_library_stats w c)) l (idx + 1)).
    destruct (format_streams w c l (idx + 1)).
    cbn [fst] in *. rewrite IH. reflexivity.
Qed.

Lemma format_stream_info_state (w : world) (c : cog) (s : plex_session) (idx : Z) :
  snd (format_stream_info w c s idx) = c
  \/ snd (format_stream_info w c s idx) = snd (get_library_stats w c).
Proof.
  unfold format_stream_info. destruct (stream_user s); [|left; reflexivity].
  destruct (get_library_stats w c). right. reflexivity.
Qed.

Lemma format_streams_cons (w : world) (c : cog) (s : plex_session)
  (l : list plex_session) (idx : Z) :
  fst (format_streams w c (s :: l) idx)
  = fst (format_stream_info w c s idx) :: fst (format_streams w c l (idx + 1)).
Proof.
  cbn [format_streams].
  pose proof (format_stream_info_truthy w c s idx) as Ht.
  pose proof (format_stream_info_state w c s idx) as Hs.
  destruct (format_stream_info w c s idx) as [info c1]. cbn [fst snd] in *.
  assert (E : fst (format_streams w c1 l (idx + 1)) = fst (format_streams w c l (idx + 1))).
  { destruct Hs as [-> | ->]; [reflexivity | apply format_streams_settled]. }
  destruct (format_streams w c1 l (idx + 1)). cbn [fst] in *.
  rewrite Ht, E. reflexivity.
Qed.

(** The texts of [get_active_streams]: one per session, each computed from
    its own session and number. *)
Lemma format_streams_from (w : world) (c : cog) (l : list plex_session) :
  forall idx n,
    fst (format_streams w c l (idx + Z.of_nat n))
    = map (fun ks => fst (format_stream_info w c (snd ks) (idx + Z.of_nat (fst ks))))
          (combine (seq n (List.length l)) l).
Proof.
  induction l as [|s l IH]; intros idx n; [reflexivity|].
  rewrite format_streams_cons. cbn [List.length seq combine map fst snd].
  f_equal. replace (idx + Z.of_nat n + 1) with (idx + Z.of_nat (S n)) by lia.
  apply IH.
Qed.

Lemma format_streams_map (w : world) (c : cog) (l : list plex_session) (idx : Z) :
  fst (format_streams w c l idx)
  = map (fun ks => fst (format_stream_info w c (snd ks) (idx + Z.of_nat (fst ks))))
        (combine (seq 0 (List.length l)) l).
Proof. rewrite <- format_streams_from. rewrite Z.add_0_r. reflexivity. Qed.

Lemma jellyfin_streams_from_map (c : cog) (l : list jf_session) :
  forall idx n,
    jellyfin_streams_from c l (idx + Z.of_nat n)
    = map (fun ks => format_jellyfin_stream_info c (snd ks) (idx + Z.of_nat (fst ks)))
          (combine (seq n (List.length l)) l).
Proof.
  induction l as [|s l IH]; intros idx n; [reflexivity|].
  cbn [jellyfin_streams_from]. rewrite format_jellyfin_stream_info_truthy.
  cbn [List.length seq combine map fst snd].
  f_equal. replace (idx + Z.of_nat n + 1) with (idx + Z.of_nat (S n)) by lia.
  apply IH.
Qed.

Lemma jellyfin_streams_map (c : cog) (l : list jf_session) (idx : Z) :
  jellyfin_streams_from c l idx
  = map (fun ks => format_jellyfin_stream_info c (snd ks) (idx + Z.of_nat (fst ks)))
        (combine (seq 0 (List.length l)) l).
Proof. rewrite <- jellyfin_streams_from_map. rewrite Z.add_0_r. reflexivity. Qed.

(** In a list of texts computed entry by entry, replacing one input changes
    one output. *)
Lemma map_numbered_replace {A B : Type} (f : nat * A -> B) (a b : list A) (x y : A) :
  exists oa ob,
    map f (combine (seq 0 (List.length (a ++ x :: b))) (a ++ x :: b))
    = (oa ++ f (List.length a, x) :: ob)%list
    /\ map f (combine (seq 0 (List.length (a ++ y :: b))) (a ++ y :: b))
       = (oa ++ f (List.length a, y) :: ob)%list
    /\ List.length oa = List.length a /\ List.length ob = List.length b.
Proof.
  assert (H : forall (l : list A) (n : nat) z,
             combine (seq n (List.length (l ++ z :: b))) (l ++ z :: b)
             = (combine (seq n (List.length l)) l
                ++ (n + List.length l, z)%nat
                   :: combine (seq (S (n + List.length l)) (List.length b)) b)%list).
  { induction l as [|h l IH]; intros n z; cbn [app List.length seq combine].
    - rewrite Nat.add_0_r. reflexivity.
    - rewrite IH. rewrite !Nat.add_succ_r. reflexivity. }
  exists (map f (combine (seq 0 (List.length a)) a)),
         (map f (combine (seq (S (List.length a)) (List.length b)) b)).
  rewrite !H, !map_app. cbn [map Nat.add].
  repeat split.
  - rewrite length_map, length_combine, length_seq. apply Nat.min_id.
  - rewrite length_map, length_combine, length_seq. apply Nat.min_id.
Qed.

Lemma nth_error_numbered {A B : Type} (f : nat * A -> B) (l : list A) :
  forall n k,
    nth_error (map f (combine (seq n (List.length l)) l)) k
    = option_map (fun x => f ((n + k)%nat, x)) (nth_error l k).
Proof.
  induction l as [|h l IH]; intros n [|k]; cbn [List.length seq combine map nth_error option_map];
    try reflexivity.
  - rewrite Nat.add_0_r. reflexivity.
  - rewrite IH. rewrite Nat.add_succ_r. reflexivity.
Qed.

(** With a connection and a session list, [get_active_streams] returns one
    text per session, in order: the text at place [k] is the formatting of
    the session at place [k] under the number [k + 1], and depends on no
    other session. *)
Theorem active_streams_one_text_per_session (w : world) (c : cog)
  (sessions : list plex_session) :
  plex c <> None ->
  w_sessions w = Ok sessions ->
  exists texts,
    fst (get_active_streams w c) = Ok texts
    /\ List.length texts = List.length sessions
    /\ forall k session,
         nth_error sessions k = Some session ->
         nth_error texts k
         = Some (fst (format_stream_info w c session (1 + Z.of_nat k))).
Proof.
  intros Hp Hs. unfold get_active_streams.
  destruct (plex c); [|congruence]. rewrite Hs.
  pose proof (format_streams_map w c sessions 1) as Hm.
  destruct (format_streams w c sessions 1) as [l c1]. cbn [fst] in *.
  exists l. split; [reflexivity|]. subst l. split.
  - rewrite length_map, length_combine, length_seq. apply Nat.min_id.
  - intros k session Hk. rewrite nth_error_numbered, Hk. reflexivity.
Qed.

(** Three sessions, the second without title: three texts, the second the
    placeholder numbered 2, the other two the texts they have on their own. *)
Lemma active_streams_witness :
  let w := {| w_connect := true; w_sections := w_sections (sample_world 1700000000);
              w_sessions := Ok [day_long_session; untitled_session; day_long_session];
              w_time := float_of_Z 1700000000; w_now := 1700000000 * 1000000;
              w_utcnow := 1700000000 * 1000000;
              w_jellyfin := JfReply 200 (Ok []) |} in
  let c := set_plex sample_cog (Some PlexHandle) in
  exists texts,
    fst (get_active_streams w c) = Ok texts
    /\ List.length texts = 3%nat
    /\ nth_error texts 1 = Some (stream_placeholder 2).
Proof.
  intros w c.
  destruct (active_streams_one_text_per_session w c
              [day_long_session; untitled_session; day_long_session]
              ltac:(discriminate) eq_refl) as (texts & H1 & H2 & H3).
  exists texts. split; [exact H1|]. split; [exact H2|].
  rewrite (H3 1%nat untitled_session eq_refl). vm_compute. reflexivity.
Defined.

(** With the integration enabled and a decoded reply of status 200,
    [get_jellyfin_streams] returns one text per session that has a
    non-empty [NowPlayingItem], malformed ones included: the stream count
    of the presence and the dashboard is the number of such sessions. *)
Theorem jellyfin_streams_one_text_per_playing_session (w : world) (c : cog)
  (sessions : list jf_session) :
  jellyfin_enabled c = true ->
  w_jellyfin w = JfReply 200 (Ok sessions) ->
  let playing :=
    filter (fun s => truthy_opt truthy_now_playing (getattr (NowPlayingItem s) None))
           sessions in
  List.length (get_jellyfin_streams w c) = List.length playing
  /\ forall k session,
       nth_error playing k = Some session ->
       nth_error (get_jellyfin_streams w c) k
       = Some (format_jellyfin_stream_info c session (1 + Z.of_nat k)).
Proof.
  intros He Hr playing. unfold get_jellyfin_streams, get_jellyfin_sessions.
  rewrite He, Hr. cbn [negb Z.eqb Pos.eqb]. fold playing.
  rewrite jellyfin_streams_map. split.
  - rewrite length_map, length_combine, length_seq. apply Nat.min_id.
  - intros k session Hk. rewrite nth_error_numbered, Hk. reflexivity.
Qed.

(** An idle session, a live-TV session (malformed for the formatter) and a
    film: two texts, the placeholder numbered 1 and a stream block. *)
Lemma jellyfin_streams_witness :
  let idle := {| NowPlayingItem := Absent; PlayState := Absent;
                 UserName := Val "ann"; TranscodingInfo := Absent;
                 Client := Val "Jellyfin Web"; DeviceName := Val "Firefox" |} in
  let w := {| w_connect := true; w_sections := Ok []; w_sessions := Ok [];
              w_time := float_of_Z 1700000000; w_now := 1700000000 * 1000000;
              w_utcnow := 1700000000 * 1000000;
              w_jellyfin := JfReply 200 (Ok [idle; live_tv_session; film_session]) |} in
  List.length (get_jellyfin_streams w sample_cog) = 2%nat
  /\ nth_error (get_jellyfin_streams w sample_cog) 0 = Some (jellyfin_placeholder 1)
  /\ exists text, nth_error (get_jellyfin_streams w sample_cog) 1 = Some text
                  /\ is_stream_block text.
Proof.
  intros idle w.
  destruct (jellyfin_streams_one_text_per_playing_session w sample_cog
              [idle; live_tv_session; film_session] eq_refl eq_refl) as [H1 H2].
  split; [exact H1|]. split.
  - rewrite (H2 0%nat live_tv_session eq_refl). vm_compute. reflexivity.
  - eexists. split; [exact (H2 1%nat film_session eq_refl)|].
    destruct (format_jellyfin_stream_info_cases sample_cog film_session (1 + Z.of_nat 1))
      as [H | H]; [exact H|].
    vm_compute in H. discriminate H.
Defined.

(** C1, as the code has it.  Whatever the session record and its number,
    each formatter returns a three-line stream block or its own numbered
    placeholder, and in the list of texts a record determines its own entry
    only: replacing one record changes that one entry. *)
Theorem C1_formatters_contain_failures (w : world) (c : cog) :
  (forall session idx,
      is_stream_block (fst (format_stream_info w c session idx))
      \/ fst (format_stream_info w c session idx) = stream_placeholder idx)
  /\ (forall session idx,
        is_stream_block (format_jellyfin_stream_info c session idx)
        \/ format_jellyfin_stream_info c session idx = jellyfin_placeholder idx)
  /\ (forall a x y b, exists oa ox oy ob,
        fst (format_streams w c (a ++ x :: b) 1) = (oa ++ ox :: ob)%list
        /\ fst (format_streams w c (a ++ y :: b) 1) = (oa ++ oy :: ob)%list
        /\ List.length oa = List.length a /\ List.length ob = List.length b
        /\ (is_stream_block ox
            \/ ox = stream_placeholder (1 + Z.of_nat (List.length a))))
  /\ (forall a x y b, exists oa ox oy ob,
        jellyfin_streams_from c (a ++ x :: b) 1 = (oa ++ ox :: ob)%list
        /\ jellyfin_streams_from c (a ++ y :: b) 1 = (oa ++ oy :: ob)%list
        /\ List.length oa = List.length a /\ List.length ob = List.length b
        /\ (is_stream_block ox
            \/ ox = jellyfin_placeholder (1 + Z.of_nat (List.length a)))).
Proof.
  split; [exact (format_stream_info_cases w c)|].
  split; [exact (format_jellyfin_stream_info_cases c)|].
  split.
  - intros a x y b. rewrite !format_streams_map.
    destruct (map_numbered_replace
                (fun ks => fst (format_stream_info w c (snd ks) (1 + Z.of_nat (fst ks))))
                a b x y) as (oa & ob & H1 & H2 & H3 & H4).
    eexists oa, _, _, ob. repeat split; try eassumption.
    apply format_stream_info_cases.
  - intros a x y b. rewrite !jellyfin_streams_map.
    destruct (map_numbered_replace
                (fun ks => format_jellyfin_stream_info c (snd ks) (1 + Z.of_nat (fst ks)))
                a b x y) as (oa & ob & H1 & H2 & H3 & H4).
    eexists oa, _, _, ob. repeat split; try eassumption.
    apply format_jellyfin_stream_info_cases.
Qed.

(** C1 as stated fails on the text of the placeholder: a live-TV session of
    Jellyfin (no running time) and a Plex session without title are shown
    as placeholders that are neither a stream block nor the text the
    specification quotes. *)
Lemma C1_placeholder_counterexample :
  let jf := format_jellyfin_stream_info sample_cog live_tv_session 1 in
  let px := fst (format_stream_info (sample_world 1700000000) sample_cog
                   untitled_session 1) in
  jf = jellyfin_placeholder 1
  /\ ~ is_stream_block jf
  /\ jf <> spec_placeholder 1
  /\ px = stream_placeholder 1
  /\ ~ is_stream_block px
  /\ px <> spec_placeholder 1.
Proof.
  intros jf px.
  assert (Hj : jf = jellyfin_placeholder 1) by (vm_compute; reflexivity).
  assert (Hp : px = stream_placeholder 1) by (vm_compute; reflexivity).
  rewrite Hj, Hp. repeat split.
  - intros (l1 & l2 & l3 & H). vm_compute in H. discriminate H.
  - vm_compute. discriminate.
  - intros (l1 & l2 & l3 & H). vm_compute in H. discriminate H.
  - vm_compute. discriminate.
Qed.

(** ** Further properties of the embedded code *)

(** One hour, two minutes and five seconds into a film of two hours. *)
Lemma plex_time_below_a_day_witness :
  0 <= 3725500 < 86400000 /\ plex_time 3725500 7200000 = Ok "1:02:05".
Proof.
  split; [lia|].
  exact (eq_trans (plex_time_below_a_day 3725500 7200000 ltac:(lia)) eq_refl).
Defined.

(** The server down at the first poll of a fresh cog, and still down a
    minute later: both snapshots carry the time of the first poll. *)
Lemma offline_snapshot_witness :
  let w1 := down_world 1700000000 in
  let w2 := down_world 1700000060 in
  let c1 := snd (get_server_info w1 sample_cog) in
  w_connect w1 = false /\ w_connect w2 = false
  /\ complete_sections sample_cog
  /\ offline_since c1 = Some (1700000000 * 1000000)
  /\ exists info,
       fst (get_server_info w2 c1) = Ok info
       /\ status info = STATUS_OFFLINE
       /\ active_users info = [] /\ current_streams info = []
       /\ dict_get "TV" (library_stats info)
          = Some {| count := 0; episodes := 0; display_name := "Series";
                    emoji := "T"; show_episodes := true |}
       /\ info_offline_since info = Val (1700000000 * 1000000).
Proof.
  intros w1 w2 c1. split; [reflexivity|]. split; [reflexivity|].
  assert (Hc : complete_sections sample_cog).
  { eexists. split; [reflexivity|]. intros k config H. cbn [dict_get] in H.
    destruct (String.eqb k "Movies"); [injection H as <-; discriminate|].
    destruct (String.eqb k "TV"); [injection H as <-; discriminate|].
    discriminate H. }
  split; [exact Hc|].
  destruct (offline_snapshot_on_connect_failure w1 sample_cog eq_refl Hc)
    as (i1 & cs1 & _ & _ & _ & _ & _ & _ & _ & H1).
  split; [exact H1|].
  destruct (offline_snapshot_on_connect_failure w2 c1 eq_refl Hc)
    as (i2 & cs2 & H2 & H3 & H4 & H5 & Hs & H6 & H7 & _).
  exists i2. split; [exact H2|]. split; [exact H3|]. split; [exact H4|].
  split; [exact H5|]. split.
  - rewrite H6. injection Hs as <-. reflexivity.
  - rewrite H7. unfold c1. rewrite H1. reflexivity.
Defined.

(** After an offline poll the server answers again: the snapshot is online
    and the offline time is forgotten. *)
Lemma online_snapshot_witness :
  let c1 := snd (get_server_info (down_world 1700000000) sample_cog) in
  let w := sample_world 1700000060 in
  offline_since c1 = Some (1700000000 * 1000000)
  /\ status_of (fst (get_server_info w c1)) = Some STATUS_ONLINE
  /\ offline_since (snd (get_server_info w c1)) = None.
Proof.
  intros c1 w. split; [vm_compute; reflexivity|].
  assert (H : status_of (fst (get_server_info w c1)) = Some STATUS_ONLINE)
    by (vm_compute; reflexivity).
  split; [exact H|].
  destruct (fst (get_server_info w c1)) as [info|] eqn:E; [|discriminate H].
  injection H as H.
  exact (online_snapshot_clears_offline_since w c1 info E H).
Defined.

(** ** What a poll does to the connection state *)

Lemma same_but_cache_refl (c : cog) : same_but_cache c c.
Proof. repeat split. Qed.

Lemma same_but_cache_trans (c1 c2 c3 : cog) :
  same_but_cache c1 c2 -> same_but_cache c2 c3 -> same_but_cache c1 c3.
Proof.
  unfold same_but_cache.
  intros (A1 & A2 & A3 & A4 & A5 & A6 & A7 & A8) (B1 & B2 & B3 & B4 & B5 & B6 & B7 & B8).
  repeat split; congruence.
Qed.

Lemma get_library_stats_connected (w : world) (c : cog) :
  plex c <> None -> same_but_cache c (snd (get_library_stats w c)).
Proof.
  intros Hp.
  assert (He : ensure_connected w c = c).
  { unfold ensure_connected. destruct (plex c); [reflexivity | congruence]. }
  unfold get_library_stats.
  destruct (cache_is_fresh w c) as [[|]|]; try apply same_but_cache_refl.
  cbv zeta. rewrite He.
  destruct (plex c); [|apply same_but_cache_refl].
  destruct (query_library_stats w c); repeat split.
Qed.

Lemma format_stream_info_connected (w : world) (c : cog) (s : plex_session)
  (idx : Z) :
  plex c <> None -> same_but_cache c (snd (format_stream_info w c s idx)).
Proof.
  intros Hp. unfold format_stream_info.
  destruct (stream_user s); [|apply same_but_cache_refl].
  pose proof (get_library_stats_connected w c Hp) as H.
  destruct (get_library_stats w c). exact H.
Qed.

Lemma format_streams_connected (w : world) (l : list plex_session) :
  forall c idx,
    plex c <> None -> same_but_cache c (snd (format_streams w c l idx)).
Proof.
  induction l as [|s l IH]; intros c idx Hp; cbn [format_streams];
    [apply same_but_cache_refl|].
  pose proof (format_stream_info_connected w c s idx Hp) as H1.
  destruct (format_stream_info w c s idx) as [info c1]. cbn [snd] in H1.
  assert (Hp1 : plex c1 <> None).
  { destruct H1 as (_ & E & _). rewrite E. exact Hp. }
  specialize (IH c1 (idx + 1) Hp1).
  destruct (format_streams w c1 l (idx + 1)) as [more c2]. cbn [snd] in *.
  eapply same_but_cache_trans; eassumption.
Qed.

Lemma get_active_streams_connected (w : world) (c : cog) :
  plex c <> None -> same_but_cache c (snd (get_active_streams w c)).
Proof.
  intros Hp. unfold get_active_streams.
  destruct (w_sessions w) as [ss|];
    [|destruct (plex c); apply same_but_cache_refl].
  pose proof (format_streams_connected w ss c 1 Hp) as H.
  destruct (plex c); [|apply same_but_cache_refl].
  destruct (format_streams w c ss 1). exact H.
Qed.

(** What [get_offline_info] leaves in the cog, whether it returns or
    raises: the offline time, and nothing else changed. *)
Lemma get_offline_info_state (w : world) (c : cog) :
  offline_since (snd (get_offline_info w c))
  = Some (match offline_since c with Some t0 => t0 | None => w_utcnow w end)
  /\ cfg (snd (get_offline_info w c)) = cfg c
  /\ plex (snd (get_offline_info w c)) = plex c
  /\ plex_start_time (snd (get_offline_info w c)) = plex_start_time c
  /\ jellyfin_enabled (snd (get_offline_info w c)) = jellyfin_enabled c.
Proof.
  unfold get_offline_info. cbv zeta. cbn [snd].
  destruct (offline_since c) as [t|] eqn:Eo;
    cbn [cfg set_offline_since offline_since plex plex_start_time jellyfin_enabled];
    rewrite ?Eo; repeat split.
Qed.

(** The snapshot [get_offline_info] returns, when it returns one. *)
Lemma get_offline_info_shape (w : world) (c : cog) (info : server_info) :
  fst (get_offline_info w c) = Ok info ->
  status info = STATUS_OFFLINE /\ uptime info = Absent
  /\ info_offline_since info
     = Val (match offline_since c with Some t0 => t0 | None => w_utcnow w end)
  /\ active_users info = [] /\ current_streams info = [].
Proof.
  unfold get_offline_info. cbv zeta. cbn [fst].
  destruct (lookup _) as [configured|]; cbn [rbind]; [|discriminate].
  destruct (offline_stats configured) as [st|]; cbn [rbind]; [|discriminate].
  intros H. injection H as <-.
  cbn [status uptime info_offline_since active_users current_streams].
  destruct (offline_since c) as [t|] eqn:Eo;
    cbn [offline_since set_offline_since]; rewrite ?Eo; repeat split.
Qed.

(** After any poll a handle is stored exactly when a start time is. *)
Theorem poll_links_handle_and_start_time (w : world) (c : cog) :
  linked (snd (get_server_info w c)).
Proof.
  unfold get_server_info, connect_to_plex.
  destruct (w_connect w).
  - set (c1 := set_plex _ (Some PlexHandle)).
    assert (L1 : plex c1 <> None /\ plex_start_time c1 <> None).
    { subst c1. destruct (plex_start_time c) eqn:E;
        cbn [set_plex plex plex_start_time set_plex_start_time]; rewrite ?E;
        split; discriminate. }
    assert (Hlink : forall c', plex c' = plex c1 ->
                               plex_start_time c' = plex_start_time c1 -> linked c').
    { intros c' E1 E2. unfold linked. rewrite E1, E2. tauto. }
    assert (Hoff : forall c', plex c' = plex c1 ->
                              plex_start_time c' = plex_start_time c1 ->
                              linked (snd (get_offline_info w c'))).
    { intros c' E1 E2.
      destruct (get_offline_info_state w c') as (_ & _ & F1 & F2 & _).
      apply Hlink; congruence. }
    change (plex c1) with (Some PlexHandle). cbv iota.
    set (c2 := set_offline_since c1 None).
    assert (P2 : plex c2 <> None) by (apply L1).
    assert (E2p : plex c2 = plex c1) by reflexivity.
    assert (E2s : plex_start_time c2 = plex_start_time c1) by reflexivity.
    destruct (calculate_uptime w c2); [|apply Hoff; reflexivity].
    pose proof (get_library_stats_connected w c2 P2) as (_ & G1 & G2 & _).
    destruct (get_library_stats w c2) as [ls c3]. cbn [snd] in G1, G2.
    destruct ls; [|apply Hoff; congruence].
    assert (P3 : plex c3 <> None) by (rewrite G1; exact P2).
    pose proof (get_active_streams_connected w c3 P3) as (_ & A1 & A2 & _).
    destruct (get_active_streams w c3) as [au c4]. cbn [snd] in A1, A2.
    destruct au; [|apply Hoff; congruence].
    destruct (w_sessions w); [|apply Hoff; congruence].
    cbn [snd]. apply Hlink; congruence.
  - cbn [plex set_plex].
    destruct (get_offline_info_state w (set_plex (set_plex_start_time c None) None))
      as (_ & _ & F1 & F2 & _).
    unfold linked. rewrite F1, F2. cbn. tauto.
Qed.

(** The start of the uptime: a poll that connects keeps a start time
    already known and takes the present when none is known; a poll that
    cannot connect forgets the start time and the handle. *)
Theorem poll_start_time (w : world) (c : cog) :
  (w_connect w = true ->
   plex_start_time (snd (get_server_info w c))
   = Some (match plex_start_time c with Some t => t | None => w_time w end))
  /\ (w_connect w = false ->
      plex_start_time (snd (get_server_info w c)) = None
      /\ plex (snd (get_server_info w c)) = None).
Proof.
  unfold get_server_info, connect_to_plex. split; intros Hw; rewrite Hw.
  - set (c1 := set_plex _ (Some PlexHandle)).
    set (t := match plex_start_time c with Some t => t | None => w_time w end).
    assert (L1 : plex_start_time c1 = Some t).
    { subst c1 t. destruct (plex_start_time c) eqn:E;
        cbn [set_plex plex_start_time set_plex_start_time]; rewrite ?E; reflexivity. }
    assert (Hoff : forall c', plex_start_time c' = Some t ->
                              plex_start_time (snd (get_offline_info w c')) = Some t).
    { intros c' E.
      destruct (get_offline_info_state w c') as (_ & _ & _ & F2 & _).
      congruence. }
    change (plex c1) with (Some PlexHandle). cbv iota.
    set (c2 := set_offline_since c1 None).
    assert (P2 : plex c2 <> None) by discriminate.
    destruct (calculate_uptime w c2); [|apply Hoff; exact L1].
    pose proof (get_library_stats_connected w c2 P2) as (_ & G1 & G2 & _).
    destruct (get_library_stats w c2) as [ls c3]. cbn [snd] in G1, G2.
    assert (S3 : plex_start_time c3 = Some t) by (rewrite G2; exact L1).
    destruct ls; [|apply Hoff; exact S3].
    assert (P3 : plex c3 <> None) by (rewrite G1; exact P2).
    pose proof (get_active_streams_connected w c3 P3) as (_ & A1 & A2 & _).
    destruct (get_active_streams w c3) as [au c4]. cbn [snd] in A1, A2.
    assert (S4 : plex_start_time c4 = Some t) by congruence.
    destruct au; [|apply Hoff; exact S4].
    destruct (w_sessions w); [|apply Hoff; exact S4].
    exact S4.
  - cbn [plex set_plex].
    destruct (get_offline_info_state w (set_plex (set_plex_start_time c None) None))
      as (_ & _ & F1 & F2 & _).
    rewrite F1, F2. split; reflexivity.
Qed.

(** A first connection at second 1700000000, a second poll a minute later,
    then a poll that cannot connect. *)
Lemma poll_start_time_witness :
  let c1 := snd (get_server_info (sample_world 1700000000) sample_cog) in
  let c2 := snd (get_server_info (sample_world 1700000060) c1) in
  let c3 := snd (get_server_info (down_world 1700000120) c2) in
  plex_start_time c1 = Some (float_of_Z 1700000000)
  /\ plex_start_time c2 = Some (float_of_Z 1700000000)
  /\ plex_start_time c3 = None /\ plex c3 = None.
Proof.
  intros c1 c2 c3.
  pose proof (proj1 (poll_start_time (sample_world 1700000000) sample_cog) eq_refl) as H1.
  fold c1 in H1. cbn [plex_start_time sample_cog] in H1.
  split; [exact H1|].
  pose proof (proj1 (poll_start_time (sample_world 1700000060) c1) eq_refl) as H2.
  fold c2 in H2. rewrite H1 in H2.
  split; [exact H2|].
  exact (proj2 (poll_start_time (down_world 1700000120) c2) eq_refl).
Defined.

Lemma get_server_info_cfg (w : world) (c : cog) :
  cfg (snd (get_server_info w c)) = cfg c
  /\ jellyfin_enabled (snd (get_server_info w c)) = jellyfin_enabled c.
Proof.
  assert (Hoff : forall c', cfg (snd (get_offline_info w c')) = cfg c'
                            /\ jellyfin_enabled (snd (get_offline_info w c'))
                               = jellyfin_enabled c').
  { intros c'. destruct (get_offline_info_state w c') as (_ & H1 & _ & _ & H2).
    split; assumption. }
  unfold get_server_info.
  assert (H0 : cfg (set_plex (snd (connect_to_plex w c)) (fst (connect_to_plex w c))) = cfg c
               /\ jellyfin_enabled
                    (set_plex (snd (connect_to_plex w c)) (fst (connect_to_plex w c)))
                  = jellyfin_enabled c).
  { unfold connect_to_plex.
    destruct (w_connect w); [destruct (plex_start_time c)|]; split; reflexivity. }
  destruct (connect_to_plex w c) as [p c0]. cbn [fst snd] in H0.
  destruct H0 as [H0 J0].
  destruct (plex (set_plex c0 p)) eqn:Hp.
  2:{ destruct (Hoff (set_plex c0 p)) as [-> ->]. auto. }
  set (c2 := set_offline_since (set_plex c0 p) None).
  assert (C2 : cfg c2 = cfg c /\ jellyfin_enabled c2 = jellyfin_enabled c) by (split; assumption).
  assert (P2 : plex c2 <> None) by (subst c2; cbn [plex set_offline_since] in *; congruence).
  destruct (calculate_uptime w c2).
  2:{ destruct (Hoff c2) as [-> ->]. exact C2. }
  pose proof (get_library_stats_connected w c2 P2) as (G0 & G1 & _ & _ & _ & _ & _ & G8).
  destruct (get_library_stats w c2) as [ls c3]. cbn [snd] in G0, G1, G8.
  assert (C3 : cfg c3 = cfg c /\ jellyfin_enabled c3 = jellyfin_enabled c)
    by (destruct C2; split; congruence).
  destruct ls.
  2:{ destruct (Hoff c3) as [-> ->]. exact C3. }
  assert (P3 : plex c3 <> None) by (rewrite G1; exact P2).
  pose proof (get_active_streams_connected w c3 P3) as (A0 & _ & _ & _ & _ & _ & _ & A8).
  destruct (get_active_streams w c3) as [au c4]. cbn [snd] in A0, A8.
  assert (C4 : cfg c4 = cfg c /\ jellyfin_enabled c4 = jellyfin_enabled c)
    by (destruct C3; split; congruence).
  destruct au.
  2:{ destruct (Hoff c4) as [-> ->]. exact C4. }
  destruct (w_sessions w).
  2:{ destruct (Hoff c4) as [-> ->]. exact C4. }
  exact C4.
Qed.

Lemma complete_sections_cfg (c c' : cog) :
  cfg c' = cfg c -> complete_sections c -> complete_sections c'.
Proof. unfold complete_sections. intros ->. auto. Qed.

(** The outcome of [get_offline_info], by cases on the configuration. *)
Lemma get_offline_info_outcome (w : world) (c : cog) :
  forall c', cfg c' = cfg c ->
  match fst (get_offline_info w c') with
  | Ok info =>
      status info = STATUS_OFFLINE
      /\ uptime info = Absent
      /\ (exists t, info_offline_since info = Val t
                    /\ offline_since (snd (get_offline_info w c')) = Some t)
      /\ active_users info = [] /\ current_streams info = []
  | Raise x => x = KeyError /\ ~ complete_sections c
  end.
Proof.
  intros c' Hc.
  destruct (fst (get_offline_info w c')) as [info|x] eqn:E.
  - destruct (get_offline_info_shape w c' info E) as (H1 & H2 & H3 & H4 & H5).
    destruct (get_offline_info_state w c') as (H6 & _).
    repeat split; eauto.
  - destruct (get_offline_info_raises w c' x E) as [H1 H2].
    split; [exact H1|]. intros H. apply H2.
    apply (complete_sections_cfg c c'); [exact Hc | exact H].
Qed.



Lemma select_presence_offline (pc : presence_config) (info : server_info) (n : Z) :
  status info <> STATUS_ONLINE ->
  select_presence pc info n
  = match offline_text pc with
    | Some t => Ok (t, StatusDnd)
    | None => Raise KeyError
    end.
Proof.
  intros H. unfold select_presence.
  apply String.eqb_neq in H. rewrite H. cbn [negb].
  destruct (offline_text pc); reflexivity.
Qed.

(** When the poll ends with an offline snapshot, the presence is the offline
    text of the configuration with the do-not-disturb status, whatever
    Jellyfin reports; when the presence group has no offline text, the tick
    sets no presence. *)
Theorem offline_poll_presence (w : world) (c : cog) :
  status_of (fst (get_server_info w c)) = Some STATUS_OFFLINE ->
  fst (update_status w c)
  = match offline_text (presence (cfg c)) with
    | Some t => Some (t, StatusDnd)
    | None => None
    end.
Proof.
  intros H. unfold update_status.
  destruct (get_server_info_cfg w c) as [Hc _].
  destruct (get_server_info w c) as [[info|] c1]; cbn [fst snd status_of] in *;
    [|discriminate H].
  injection H as H.
  assert (Hs : status info <> STATUS_ONLINE).
  { rewrite H. vm_compute. discriminate. }
  rewrite (select_presence_offline (presence (cfg c1)) info _ Hs).
  rewrite Hc. destruct (offline_text (presence (cfg c))); reflexivity.
Qed.

(** The server down and three Jellyfin sessions playing. *)
Lemma offline_poll_presence_witness :
  let w := {| w_connect := false; w_sections := Raise ExternalError;
              w_sessions := Raise ExternalError;
              w_time := float_of_Z 1700000000; w_now := 1700000000 * 1000000;
              w_utcnow := 1700000000 * 1000000;
              w_jellyfin := JfReply 200 (Ok [film_session; film_session; film_session]) |} in
  status_of (fst (get_server_info w sample_cog)) = Some STATUS_OFFLINE
  /\ fst (update_status w sample_cog) = Some (DEFAULT_OFFLINE_TEXT, StatusDnd).
Proof.
  intros w.
  assert (H : status_of (fst (get_server_info w sample_cog)) = Some STATUS_OFFLINE)
    by (vm_compute; reflexivity).
  split; [exact H|]. exact (offline_poll_presence w sample_cog H).
Defined.

(** ** More on the dashboard message *)

Lemma has_message_edited (f : faults) (d d1 : discord) (p q : positive) (e : embed) :
  edit_message f d p e = Ok d1 -> has_message d1 q = has_message d q.
Proof.
  unfold edit_message. destruct (edit_fault f); [discriminate|].
  intros H. injection H as <-. unfold has_message. cbn [messages].
  induction (messages d) as [|m l IH]; cbn [map existsb]; [reflexivity|].
  rewrite IH. f_equal.
  destruct (Pos.eqb (fst m) p) eqn:E; [|reflexivity].
  apply Pos.eqb_eq in E. cbn [fst]. rewrite E. reflexivity.
Qed.

Lemma edit_message_file (f : faults) (d d1 : discord) (p : positive) (e : embed) :
  edit_message f d p e = Ok d1 ->
  id_file d1 = id_file d /\ id_file_writes d1 = id_file_writes d.
Proof.
  unfold edit_message. destruct (edit_fault f); [discriminate|].
  intros H. injection H as <-. split; reflexivity.
Qed.

Lemma has_message_sent (d : discord) (e : embed) (f : faults) (id : Z) :
  has_message
    (_save_message_id f
       {| messages := (messages d ++ [(next_message_id d, e)])%list;
          next_message_id := Pos.succ (next_message_id d);
          id_file := id_file d; id_file_writes := id_file_writes d |} id)
    (next_message_id d) = true.
Proof.
  unfold _save_message_id, has_message.
  destruct (write_fault f); cbn [messages]; rewrite existsb_app; cbn [existsb fst];
    rewrite Pos.eqb_refl; rewrite orb_true_r; reflexivity.
Qed.

Lemma create_if_unknown_cases (f : faults) (c : cog) (d : discord) (e : embed) :
  truthy_opt truthy_int (dashboard_message_id c) = false ->
  (send_fault f = true
   /\ create_if_unknown f c d e = (Raise ExternalError, c, d))
  \/ (send_fault f = false
      /\ create_if_unknown f c d e
         = (Ok tt, set_dashboard_message_id c (Some (Zpos (next_message_id d))),
            _save_message_id f
              {| messages := (messages d ++ [(next_message_id d, e)])%list;
                 next_message_id := Pos.succ (next_message_id d);
                 id_file := id_file d; id_file_writes := id_file_writes d |}
              (Zpos (next_message_id d)))).
Proof.
  intros H. unfold create_if_unknown, send_message. rewrite H. cbn [negb].
  destruct (send_fault f); [left | right]; split; reflexivity.
Qed.

(** An update that succeeds leaves the cog with the id of a message that is
    in the channel. *)
Theorem upsert_success_names_a_message (f : faults) (c : cog) (d : discord)
  (e : embed) :
  fst (fst (_update_dashboard_message f c d e)) = Ok tt ->
  exists p,
    dashboard_message_id (snd (fst (_update_dashboard_message f c d e)))
    = Some (Zpos p)
    /\ has_message (snd (_update_dashboard_message f c d e)) p = true.
Proof.
  assert (Hcreate : forall c0,
    truthy_opt truthy_int (dashboard_message_id c0) = false ->
    fst (fst (create_if_unknown f c0 d e)) = Ok tt ->
    exists p,
      dashboard_message_id (snd (fst (create_if_unknown f c0 d e))) = Some (Zpos p)
      /\ has_message (snd (create_if_unknown f c0 d e)) p = true).
  { intros c0 H0 Hok.
    destruct (create_if_unknown_cases f c0 d e H0) as [[_ E] | [_ E]];
      rewrite E in *; cbn [fst snd] in *; [discriminate|].
    exists (next_message_id d). split; [reflexivity | apply has_message_sent]. }
  unfold _update_dashboard_message.
  destruct (truthy_opt truthy_int (dashboard_message_id c)) eqn:Ht;
    [|apply Hcreate; exact Ht].
  destruct (dashboard_message_id c) as [mid|] eqn:Hid; [|discriminate Ht].
  cbn [need rbind].
  destruct (fetch_message f d mid) as [p|x] eqn:Hf; cbn [rbind].
  - destruct (edit_message f d p e) as [d1|x] eqn:He.
    + intros _. unfold create_if_unknown. rewrite Hid, Ht. cbn [negb fst snd].
      unfold fetch_message in Hf. destruct (fetch_fault f); [discriminate|].
      destruct mid as [|q|q]; try discriminate.
      destruct (has_message d q) eqn:Hq; [|discriminate].
      injection Hf as <-. exists q. split; [exact Hid|].
      rewrite (has_message_edited f d d1 q q e He). exact Hq.
    + destruct x; try (cbn [fst]; discriminate).
      apply Hcreate. reflexivity.
  - destruct x; try (cbn [fst]; discriminate).
    apply Hcreate. reflexivity.
Qed.

(** An update that raises leaves the channel and the id file as they were;
    the stored id is unchanged or forgotten. *)
Theorem upsert_failure_touches_nothing (f : faults) (c : cog) (d : discord)
  (e : embed) (x : exn) :
  fst (fst (_update_dashboard_message f c d e)) = Raise x ->
  snd (_update_dashboard_message f c d e) = d
  /\ (dashboard_message_id (snd (fst (_update_dashboard_message f c d e)))
      = dashboard_message_id c
      \/ dashboard_message_id (snd (fst (_update_dashboard_message f c d e)))
         = None).
Proof.
  assert (Hcreate : forall c0,
    truthy_opt truthy_int (dashboard_message_id c0) = false ->
    fst (fst (create_if_unknown f c0 d e)) = Raise x ->
    snd (create_if_unknown f c0 d e) = d
    /\ snd (fst (create_if_unknown f c0 d e)) = c0).
  { intros c0 H0 Hr.
    destruct (create_if_unknown_cases f c0 d e H0) as [[_ E] | [_ E]];
      rewrite E in *; cbn [fst snd] in *; [split; reflexivity | discriminate]. }
  unfold _update_dashboard_message.
  destruct (truthy_opt truthy_int (dashboard_message_id c)) eqn:Ht.
  2:{ intros Hr. destruct (Hcreate c Ht Hr) as [-> ->]. auto. }
  destruct (dashboard_message_id c) as [mid|] eqn:Hid; [|discriminate Ht].
  cbn [need rbind].
  assert (Hreset : fst (fst (create_if_unknown f (set_dashboard_message_id c None) d e))
                   = Raise x ->
                   snd (create_if_unknown f (set_dashboard_message_id c None) d e) = d
                   /\ (dashboard_message_id
                         (snd (fst (create_if_unknown f (set_dashboard_message_id c None) d e)))
                       = Some mid
                       \/ dashboard_message_id
                            (snd (fst (create_if_unknown f (set_dashboard_message_id c None) d e)))
                          = None)).
  { intros Hr. destruct (Hcreate (set_dashboard_message_id c None) eq_refl Hr) as [-> ->].
    split; [reflexivity | right; reflexivity]. }
  destruct (fetch_message f d mid) as [p|y] eqn:Hf; cbn [rbind].
  - destruct (edit_message f d p e) as [d1|y] eqn:He.
    + unfold create_if_unknown. rewrite Hid, Ht. cbn [negb fst]. discriminate.
    + destruct y; try (cbn [fst snd]; intros _; split; [reflexivity | left; exact Hid]).
      exact Hreset.
  - destruct y; try (cbn [fst snd]; intros _; split; [reflexivity | left; exact Hid]).
    exact Hreset.
Qed.

(** The stored message is gone and Discord refuses the new one. *)
Lemma upsert_failure_witness :
  let f := {| fetch_fault := false; edit_fault := None; send_fault := true;
              write_fault := false |} in
  let c := set_dashboard_message_id sample_cog (Some 41) in
  let run := _update_dashboard_message f c (sample_discord 41) new_embed in
  fst (fst run) = Raise ExternalError
  /\ snd run = sample_discord 41
  /\ dashboard_message_id (snd (fst run)) = None.
Proof.
  intros f c run.
  assert (H : fst (fst run) = Raise ExternalError) by reflexivity.
  split; [exact H|].
  destruct (upsert_failure_touches_nothing f c (sample_discord 41) new_embed
              ExternalError H) as [H1 _].
  split; [exact H1 | reflexivity].
Defined.

(** The first update of a fresh cog. *)
Lemma upsert_success_witness :
  let run := _update_dashboard_message no_faults sample_cog
               {| messages := []; next_message_id := 90%positive;
                  id_file := None; id_file_writes := 0 |} new_embed in
  fst (fst run) = Ok tt
  /\ dashboard_message_id (snd (fst run)) = Some 90
  /\ has_message (snd run) 90 = true.
Proof.
  intros run.
  assert (H : fst (fst run) = Ok tt) by reflexivity.
  split; [exact H|].
  destruct (upsert_success_names_a_message no_faults sample_cog _ new_embed H)
    as (p & H1 & H2).
  assert (E : p = 90%positive).
  { assert (H3 : dashboard_message_id (snd (fst run)) = Some 90) by reflexivity.
    unfold run in H3. rewrite H3 in H1. injection H1 as <-. reflexivity. }
  subst p. split; [exact H1 | exact H2].
Defined.

(** ** The stream-count template *)

(** With the server online and [n > 0] streams, a template made of plain
    text around [{count}] and [{s}] yields that text with the count and the
    plural letter filled in: no letter for one stream, "s" otherwise. *)
Theorem stream_count_presence (pc : presence_config) (info : server_info)
  (jellyfin_count : Z) (pre mid post : string) :
  let n := Z.of_nat (List.length (active_users info)) + jellyfin_count in
  status info = STATUS_ONLINE ->
  0 < n ->
  stream_text pc = Some (pre ++ "{count}" ++ mid ++ "{s}" ++ post) ->
  lacks "{" pre = true -> lacks "}" pre = true ->
  lacks "{" mid = true -> lacks "}" mid = true ->
  lacks "{" post = true -> lacks "}" post = true ->
  select_presence pc info jellyfin_count
  = Ok (pre ++ str_of_int n ++ mid ++ (if n =? 1 then "" else "s") ++ post,
        StatusOnline).
Proof.
  intros n Hs Hn Ht P1 P2 M1 M2 Q1 Q2.
  unfold select_presence. fold n.
  apply String.eqb_eq in Hs. rewrite Hs. cbn [negb].
  apply Z.ltb_lt in Hn. rewrite Hn. rewrite Ht. cbn [lookup rbind].
  rewrite (format_stream_text_filled pre mid post n _ P1 P2 M1 M2 Q1 Q2).
  cbn [rbind]. destruct (n =? 1); reflexivity.
Qed.

(** The default template with two Plex streams and one Jellyfin stream, and
    with a single stream. *)
Lemma stream_count_presence_witness :
  let pc := sample_presence [] in
  select_presence pc (online_info ["a"; "b"] (films 5)) 1
  = Ok ("3 active Streams " ++ GLYPH_ONLINE, StatusOnline)
  /\ select_presence pc (online_info ["a"] (films 5)) 0
     = Ok ("1 active Stream " ++ GLYPH_ONLINE, StatusOnline).
Proof.
  intros pc. split.
  - exact (stream_count_presence pc (online_info ["a"; "b"] (films 5)) 1
             "" " active Stream" (" " ++ GLYPH_ONLINE)
             eq_refl eq_refl eq_refl eq_refl eq_refl eq_refl eq_refl eq_refl eq_refl).
  - exact (stream_count_presence pc (online_info ["a"] (films 5)) 0
             "" " active Stream" (" " ++ GLYPH_ONLINE)
             eq_refl eq_refl eq_refl eq_refl eq_refl eq_refl eq_refl eq_refl eq_refl).
Defined.

Lemma append_nil_r (x : string) : x ++ "" = x.
Proof.
  induction x as [|ch x IH]; cbn [append]; [reflexivity | rewrite IH; reflexivity].
Qed.

Lemma append_snoc (acc : string) (ch : ascii) (fl : string) :
  (acc ++ String ch "") ++ fl = acc ++ String ch fl.
Proof.
  induction acc as [|x a IHa]; cbn [append]; [reflexivity | rewrite IHa; reflexivity].
Qed.

Lemma format_aux_field (count s fl : string) :
  forall acc rest,
  lacks "{" fl = true -> lacks "}" fl = true ->
  format_aux count s (Some acc) (fl ++ String "}" rest)
  = (v <- field_value count s (acc ++ fl) ;;
     r <- format_aux count s None rest ;;
     Ok (v ++ r)).
Proof.
  induction fl as [|ch fl IH]; intros acc rest H1 H2.
  - cbn [append format_aux].
    change (Ascii.eqb "}" "}") with true. cbv iota.
    rewrite append_nil_r. reflexivity.
  - cbn [lacks] in H1, H2.
    apply andb_true_iff in H1. destruct H1 as [H1 H1'].
    apply andb_true_iff in H2. destruct H2 as [H2 H2'].
    apply negb_true_iff in H1, H2.
    cbn [append format_aux]. rewrite H1, H2. rewrite (IH _ _ H1' H2').
    rewrite append_snoc. reflexivity.
Qed.

Lemma format_aux_open (count s fl rest : string) :
  lacks "{" fl = true ->
  format_aux count s None (String "{" (fl ++ String "}" rest))
  = format_aux count s (Some "") (fl ++ String "}" rest).
Proof.
  intros F1. cbn [append format_aux].
  change (Ascii.eqb "{" "{") with true. cbv iota.
  destruct fl as [|ch fl]; cbn [append]; [reflexivity|].
  cbn [lacks] in F1. apply andb_true_iff in F1. destruct F1 as [F1 _].
  apply negb_true_iff in F1.
  destruct ch as [b0 b1 b2 b3 b4 b5 b6 b7].
  destruct b0, b1, b2, b3, b4, b5, b6, b7; try reflexivity.
  discriminate F1.
Qed.

Lemma field_value_unknown (count s name : string) :
  plain_field name = true -> name <> "count" -> name <> "s" ->
  field_value count s name = Raise KeyError.
Proof.
  intros Hp H1 H2. unfold field_value.
  apply String.eqb_neq in H1, H2. rewrite H1, H2.
  unfold plain_field in Hp. apply andb_true_iff in Hp. destruct Hp as [Hp Hd].
  apply andb_true_iff in Hp. destruct Hp as [_ Hx].
  apply negb_true_iff in Hd, Hx. rewrite Hd, Hx. reflexivity.
Qed.

(** With the server online and a stream active, a template whose first
    replacement field, after text without braces, is a plain name other than
    [count] and [s] makes the formatting raise [KeyError], so that the tick
    ends without a presence.  A plain name is made of ASCII characters, is
    not a number, and has no conversion, format specification, attribute or
    index. *)
Theorem unknown_template_field_stops_presence (pc : presence_config)
  (info : server_info) (jellyfin_count : Z) (pre field post : string) :
  status info = STATUS_ONLINE ->
  0 < Z.of_nat (List.length (active_users info)) + jellyfin_count ->
  stream_text pc = Some (pre ++ "{" ++ field ++ "}" ++ post) ->
  lacks "{" pre = true -> lacks "}" pre = true ->
  lacks "{" field = true -> lacks "}" field = true ->
  plain_field field = true -> field <> "count" -> field <> "s" ->
  select_presence pc info jellyfin_count = Raise KeyError.
Proof.
  intros Hs Hn Ht P1 P2 F1 F2 Hp N1 N2.
  unfold select_presence.
  apply String.eqb_eq in Hs. rewrite Hs. cbn [negb].
  apply Z.ltb_lt in Hn. rewrite Hn. rewrite Ht. cbn [lookup rbind].
  unfold format_stream_text.
  rewrite (format_aux_plain _ _ pre _ P1 P2).
  change ("{" ++ field ++ "}" ++ post) with (String "{" (field ++ String "}" post)).
  rewrite (format_aux_open _ _ field post F1), (format_aux_field _ _ field "" post F1 F2).
  cbn [append]. rewrite (field_value_unknown _ _ field Hp N1 N2). reflexivity.
Qed.

(** The templates "{viewers} watching" and "{0abc}" with one stream
    active. *)
Lemma unknown_template_field_witness :
  select_presence
    {| presence_sections := Some []; offline_text := Some DEFAULT_OFFLINE_TEXT;
       stream_text := Some "{viewers} watching" |}
    (online_info ["a"] (films 5)) 0
  = Raise KeyError
  /\ select_presence
       {| presence_sections := Some []; offline_text := Some DEFAULT_OFFLINE_TEXT;
          stream_text := Some "now: {0abc}" |}
       (online_info ["a"] (films 5)) 0
     = Raise KeyError.
Proof.
  split.
  - refine (unknown_template_field_stops_presence
              {| presence_sections := Some [];
                 offline_text := Some DEFAULT_OFFLINE_TEXT;
                 stream_text := Some "{viewers} watching" |}
              (online_info ["a"] (films 5)) 0 "" "viewers" " watching"
              eq_refl eq_refl eq_refl eq_refl eq_refl eq_refl eq_refl eq_refl _ _);
      discriminate.
  - refine (unknown_template_field_stops_presence
              {| presence_sections := Some [];
                 offline_text := Some DEFAULT_OFFLINE_TEXT;
                 stream_text := Some "now: {0abc}" |}
              (online_info ["a"] (films 5)) 0 "now: " "0abc" ""
              eq_refl eq_refl eq_refl eq_refl eq_refl eq_refl eq_refl eq_refl _ _);
      discriminate.
Defined.

(** ** What a refresh of the library statistics stores *)

Lemma dict_has_set {V : Type} (k k' : string) (v : V) (d : list (string * V)) :
  dict_has k (dict_set k' v d) = String.eqb k k' || dict_has k d.
Proof.
  unfold dict_has. destruct (String.eqb_spec k k') as [->|Hne]; cbn [orb].
  - rewrite dict_get_set_same. reflexivity.
  - rewrite (dict_get_set_other k k' v d Hne). reflexivity.
Qed.

Lemma dict_has_In {V : Type} (k : string) (d : list (string * V)) :
  dict_has k d = true <-> In k (map fst d).
Proof.
  unfold dict_has. rewrite <- dict_get_keys. rewrite existsb_exists. split.
  - intros (x & Hx & E). apply String.eqb_eq in E. subst x. exact Hx.
  - intros H. exists k. split; [exact H | apply String.eqb_refl].
Qed.

Lemma dict_has_not_In {V : Type} (k : string) (d : list (string * V)) :
  dict_has k d = false <-> ~ In k (map fst d).
Proof.
  rewrite <- dict_has_In. destruct (dict_has k d); split; intros H;
    try reflexivity; try discriminate; try (intros H'; discriminate).
  exfalso. apply H. reflexivity.
Qed.

Lemma dict_get_absent {V : Type} (k : string) (d : list (string * V)) :
  ~ In k (map fst d) -> dict_get k d = None.
Proof.
  intros H. apply dict_has_not_In in H. unfold dict_has in H.
  destruct (dict_get k d); [discriminate | reflexivity].
Qed.

Lemma dict_set_keys {V : Type} (k : string) (v : V) (d : list (string * V)) :
  map fst (dict_set k v d)
  = if dict_has k d then map fst d else (map fst d ++ [k])%list.
Proof.
  induction d as [|[k' v'] d IH]; cbn [dict_set map fst app]; [reflexivity|].
  unfold dict_has in *. cbn [dict_get].
  destruct (String.eqb_spec k k') as [->|Hne]; cbn [map fst]; [reflexivity|].
  rewrite IH. destruct (dict_get k d); reflexivity.
Qed.

Lemma dict_set_NoDup {V : Type} (k : string) (v : V) (d : list (string * V)) :
  NoDup (map fst d) -> NoDup (map fst (dict_set k v d)).
Proof.
  induction d as [|[k' v'] d IH]; cbn [dict_set map fst]; intros H.
  - constructor; [intros [] | constructor].
  - inversion H as [|x l Hx Hl]; subst.
    destruct (String.eqb_spec k k') as [->|Hne]; cbn [map fst].
    + constructor; assumption.
    + constructor; [|apply IH; exact Hl].
      intros Hin. apply dict_has_In in Hin. rewrite dict_has_set in Hin.
      apply orb_true_iff in Hin. destruct Hin as [E|E].
      * apply String.eqb_eq in E. congruence.
      * apply dict_has_In in E. contradiction.
Qed.

Lemma find_app_or {A : Type} (f : A -> bool) (l1 l2 : list A) :
  find f (l1 ++ l2)%list
  = match find f l1 with Some x => Some x | None => find f l2 end.
Proof.
  induction l1 as [|a l1 IH]; cbn [app find]; [reflexivity|].
  destruct (f a); [reflexivity | exact IH].
Qed.

Lemma sections_fold_get (title : string) (secs : list plex_library_section) :
  forall d : list (string * plex_library_section),
  dict_get title (fold_left (fun d s => dict_set (sec_title s) s d) secs d)
  = match section_named title secs with
    | Some s => Some s
    | None => dict_get title d
    end.
Proof.
  unfold section_named.
  induction secs as [|s rest IH]; intros d; cbn [fold_left rev find]; [reflexivity|].
  rewrite IH, find_app_or. cbn [find].
  destruct (find (fun s0 => String.eqb title (sec_title s0)) (rev rest)); [reflexivity|].
  destruct (String.eqb_spec title (sec_title s)) as [->|Hne].
  - apply dict_get_set_same.
  - apply dict_get_set_other. exact Hne.
Qed.

Lemma sections_by_title_get (title : string) (secs : list plex_library_section) :
  dict_get title (sections_by_title secs) = section_named title secs.
Proof.
  unfold sections_by_title. rewrite sections_fold_get.
  destruct (section_named title secs); reflexivity.
Qed.

Lemma sections_fold_NoDup (secs : list plex_library_section) :
  forall d : list (string * plex_library_section),
  NoDup (map fst d) ->
  NoDup (map fst (fold_left (fun d s => dict_set (sec_title s) s d) secs d)).
Proof.
  induction secs as [|s rest IH]; intros d H; cbn [fold_left]; [exact H|].
  apply IH. apply dict_set_NoDup. exact H.
Qed.

Lemma sections_fold_keys (secs : list plex_library_section) :
  forall (d : list (string * plex_library_section)) (seen : list string),
  (forall k, existsb (String.eqb k) seen = dict_has k d) ->
  map fst (fold_left (fun d s => dict_set (sec_title s) s d) secs d)
  = (map fst d ++ first_titles seen secs)%list.
Proof.
  induction secs as [|s rest IH]; intros d seen Hseen; cbn [fold_left first_titles].
  - rewrite app_nil_r. reflexivity.
  - rewrite Hseen. destruct (dict_has (sec_title s) d) eqn:Eh.
    + rewrite (IH _ seen).
      * rewrite dict_set_keys, Eh. reflexivity.
      * intros k. rewrite dict_has_set, Hseen.
        destruct (String.eqb_spec k (sec_title s)) as [->|Hne];
          [rewrite Eh|]; reflexivity.
    + rewrite (IH _ (sec_title s :: seen)).
      * rewrite dict_set_keys, Eh. rewrite <- app_assoc. reflexivity.
      * intros k. rewrite dict_has_set. cbn [existsb]. rewrite Hseen. reflexivity.
Qed.

Lemma sections_by_title_keys (secs : list plex_library_section) :
  map fst (sections_by_title secs) = first_titles [] secs.
Proof.
  unfold sections_by_title. rewrite (sections_fold_keys secs [] []); reflexivity.
Qed.

Lemma sections_by_title_has (title : string) (secs : list plex_library_section) :
  dict_has title (sections_by_title secs) = listed title secs.
Proof.
  unfold dict_has. rewrite sections_by_title_get. unfold section_named, listed.
  destruct (find _ (rev secs)) as [s|] eqn:E.
  - apply find_some in E. destruct E as [Hin E]. symmetry.
    apply existsb_exists. exists s. split; [apply in_rev; exact Hin | exact E].
  - symmetry. destruct (existsb _ secs) eqn:Ex; [|reflexivity].
    apply existsb_exists in Ex. destruct Ex as (s & Hin & Es).
    apply in_rev in Hin. pose proof (find_none _ _ E s Hin) as Hn.
    cbv beta in Hn. congruence.
Qed.

(** The loop over the configured titles, run on a part [l] of them. *)
Lemma configured_loop_content
  (sections : list (string * plex_library_section))
  (conf : list (string * section_config)) :
  forall (l : list (string * section_config)) (acc st : stats),
  rfold (fun (st : stats) (kv : string * section_config) =>
           let title := fst kv in
           match dict_get title sections with
           | Some section =>
               config <- match dict_get title conf with
                         | Some cf => Ok cf
                         | None => Raise KeyError
                         end ;;
               e <- _build_section_stats section config ;;
               Ok (dict_set title e st)
           | None => Ok st
           end) l acc = Ok st ->
  forall k,
  if existsb (String.eqb k) (map fst l) && dict_has k sections
  then exists sec cf e,
         dict_get k sections = Some sec /\ dict_get k conf = Some cf
         /\ _build_section_stats sec cf = Ok e /\ dict_get k st = Some e
  else dict_get k st = dict_get k acc.
Proof.
  induction l as [|[t cf0] rest IH]; intros acc st H k.
  - cbn [rfold] in H. injection H as <-. reflexivity.
  - cbn [rfold] in H. cbv beta zeta in H. cbn [fst] in H.
    cbn [map fst existsb].
    destruct (dict_get t sections) as [sec|] eqn:Es.
    + destruct (dict_get t conf) as [cf|] eqn:Ec; cbn [rbind] in H; [|discriminate].
      destruct (_build_section_stats sec cf) as [e|] eqn:Eb; cbn [rbind] in H;
        [|discriminate].
      specialize (IH _ _ H k).
      destruct (existsb (String.eqb k) (map fst rest) && dict_has k sections) eqn:Er.
      * apply andb_true_iff in Er. destruct Er as [Er1 Er2].
        rewrite Er1, Er2, orb_true_r. exact IH.
      * destruct (String.eqb_spec k t) as [->|Hne]; cbn [orb].
        -- unfold dict_has. rewrite Es. cbn [andb].
           exists sec, cf, e. rewrite IH, dict_get_set_same. auto.
        -- rewrite Er. rewrite IH. apply dict_get_set_other. exact Hne.
    + cbn [rbind] in H. specialize (IH _ _ H k).
      destruct (String.eqb_spec k t) as [->|Hne]; cbn [orb]; [|exact IH].
      unfold dict_has in *. rewrite Es in *. rewrite andb_false_r in *. exact IH.
Qed.

(** The loop over the server's sections, run on a part [l] of them. *)
Lemma unconfigured_loop_content (conf : list (string * section_config)) :
  forall (l : list (string * plex_library_section)) (acc st : stats),
  NoDup (map fst l) ->
  unconfigured_stats l conf acc = Ok st ->
  forall k,
  match dict_get k l with
  | Some sec =>
      if dict_has k conf then dict_get k st = dict_get k acc
      else exists all,
             sec_all sec = Ok all
             /\ dict_get k st
                = Some (default_stats k (Z.of_nat (List.length all)))
  | None => dict_get k st = dict_get k acc
  end.
Proof.
  unfold unconfigured_stats.
  induction l as [|[t sec] rest IH]; intros acc st Hnd H k.
  - cbn [rfold] in H. injection H as <-. reflexivity.
  - cbn [map fst] in Hnd. inversion Hnd as [|x l Ht Hrest]; subst.
    cbn [rfold] in H. cbn [dict_get].
    destruct (dict_has t conf) eqn:Ec.
    + cbn [rbind] in H. specialize (IH _ _ Hrest H k).
      destruct (String.eqb_spec k t) as [->|Hne]; [|exact IH].
      rewrite Ec. rewrite (dict_get_absent t rest Ht) in IH. exact IH.
    + destruct (sec_all sec) as [all|] eqn:Ea; cbn [rbind] in H; [|discriminate].
      specialize (IH _ _ Hrest H k).
      destruct (String.eqb_spec k t) as [->|Hne].
      * rewrite Ec. rewrite (dict_get_absent t rest Ht) in IH.
        exists all. split; [exact Ea|]. rewrite IH. apply dict_get_set_same.
      * destruct (dict_get k rest) as [sec'|].
        -- destruct (dict_has k conf); [|exact IH].
           rewrite IH. apply dict_get_set_other. exact Hne.
        -- rewrite IH. apply dict_get_set_other. exact Hne.
Qed.

Lemma build_section_stats_inv (sec : plex_library_section) (cf : section_config)
  (e : section_stats) :
  _build_section_stats sec cf = Ok e ->
  exists all eps name glyph flag,
    sec_all sec = Ok all
    /\ sc_display_name cf = Some name
    /\ sc_emoji cf = Some glyph
    /\ sc_show_episodes cf = Some flag
    /\ (if flag then sum_leafCount all = Ok eps else eps = 0)
    /\ e = {| count := Z.of_nat (List.length all); episodes := eps;
              display_name := name; emoji := glyph; show_episodes := flag |}.
Proof.
  unfold _build_section_stats. intros H.
  destruct (sec_all sec) as [all|] eqn:Ea; cbn [rbind] in H; [|discriminate].
  destruct (sc_show_episodes cf) as [flag|] eqn:Ee; cbn [lookup rbind] in H;
    [|discriminate].
  destruct flag; cbn [rbind] in H.
  - destruct (sum_leafCount all) as [eps|] eqn:Es; cbn [rbind] in H; [|discriminate].
    destruct (sc_display_name cf) as [name|]; cbn [lookup rbind] in H; [|discriminate].
    destruct (sc_emoji cf) as [glyph|]; cbn [lookup rbind] in H; [|discriminate].
    injection H as <-. exists all, eps, name, glyph, true. auto 10.
  - destruct (sc_display_name cf) as [name|]; cbn [lookup rbind] in H; [|discriminate].
    destruct (sc_emoji cf) as [glyph|]; cbn [lookup rbind] in H; [|discriminate].
    injection H as <-. exists all, 0, name, glyph, false. auto 10.
Qed.

(** The statistics a successful refresh stores, title by title.  The
    [plex_sections] group then has its [sections] and its [show_all].  A
    title the server does not list has no entry.  A listed title that is
    configured has its three settings, and the entry of
    [_build_section_stats]: the number of items, the configured display
    settings, and the episodes summed up only when the configuration asks
    for them.  A listed title that is not configured has the default entry
    when [show_all] is set and no entry otherwise.  Of two sections with one
    title the server's last one counts. *)
Theorem refreshed_stats_content (w : world) (c : cog)
  (secs : list plex_library_section) (st : stats) :
  w_sections w = Ok secs ->
  query_library_stats w c = Ok st ->
  exists conf all_wanted,
    sections_of (plex_sections (cfg c)) = Some conf
    /\ show_all (plex_sections (cfg c)) = Some all_wanted
    /\ forall title,
       match section_named title secs with
       | None => dict_get title st = None
       | Some sec =>
           match dict_get title conf with
           | Some cf =>
               exists all eps name glyph flag,
                 sec_all sec = Ok all
                 /\ sc_display_name cf = Some name
                 /\ sc_emoji cf = Some glyph
                 /\ sc_show_episodes cf = Some flag
                 /\ (if flag then sum_leafCount all = Ok eps else eps = 0)
                 /\ dict_get title st
                    = Some {| count := Z.of_nat (List.length all);
                              episodes := eps;
                              display_name := name;
                              emoji := glyph;
                              show_episodes := flag |}
           | None =>
               if all_wanted
               then exists all,
                      sec_all sec = Ok all
                      /\ dict_get title st
                         = Some (default_stats title (Z.of_nat (List.length all)))
               else dict_get title st = None
           end
       end.
Proof.
  intros Hs H. unfold query_library_stats in H. rewrite Hs in H.
  cbn [rbind] in H. cbv zeta in H.
  change (fold_left (fun d s => dict_set (sec_title s) s d) secs [])
    with (sections_by_title secs) in H.
  destruct (sections_of (plex_sections (cfg c))) as [conf|];
    cbn [lookup rbind] in H; [|discriminate].
  destruct (show_all (plex_sections (cfg c))) as [all_wanted|];
    cbn [lookup rbind] in H; [|discriminate].
  exists conf, all_wanted. split; [reflexivity|]. split; [reflexivity|].
  intros title.
  set (sections := sections_by_title secs) in *.
  assert (Hconf : forall st0,
    configured_stats sections conf [] = Ok st0 ->
    match section_named title secs with
    | None => dict_get title st0 = None
    | Some sec =>
        match dict_get title conf with
        | Some cf =>
            exists e, _build_section_stats sec cf = Ok e
                      /\ dict_get title st0 = Some e
        | None => dict_get title st0 = None
        end
    end).
  { intros st0 H0. unfold configured_stats in H0.
    pose proof (configured_loop_content sections conf conf [] st0 H0 title) as HC.
    rewrite dict_get_keys in HC. unfold dict_has in HC.
    unfold sections in HC at 1. rewrite sections_by_title_get in HC.
    destruct (section_named title secs) as [sec|] eqn:En.
    - destruct (dict_get title conf) as [cf|] eqn:Ec; cbn [andb] in HC.
      + destruct HC as (sec' & cf' & e & H1 & H2 & H3 & H4).
        unfold sections in H1. rewrite sections_by_title_get, En in H1.
        injection H1 as <-. injection H2 as <-. exists e. auto.
      + exact HC.
    - rewrite andb_false_r in HC. exact HC. }
  destruct all_wanted; cbn [negb] in H.
  - destruct (configured_stats sections conf []) as [st0|] eqn:E0;
      cbn [rbind] in H; [|discriminate].
    specialize (Hconf st0 eq_refl).
    assert (Hnd : NoDup (map fst sections)).
    { unfold sections, sections_by_title. apply sections_fold_NoDup. constructor. }
    pose proof (unconfigured_loop_content conf sections st0 st Hnd H title) as HU.
    unfold sections in HU at 1. rewrite sections_by_title_get in HU.
    destruct (section_named title secs) as [sec|] eqn:En.
    + unfold dict_has in HU.
      destruct (dict_get title conf) as [cf|] eqn:Ec.
      * destruct Hconf as (e & Hb & He).
        destruct (build_section_stats_inv sec cf e Hb)
          as (all & eps & name & glyph & flag & H1 & H2 & H3 & H4 & H5 & ->).
        exists all, eps, name, glyph, flag. rewrite HU. auto 10.
      * exact HU.
    + rewrite HU. exact Hconf.
  - specialize (Hconf st H).
    destruct (section_named title secs) as [sec|] eqn:En; [|exact Hconf].
    destruct (dict_get title conf) as [cf|] eqn:Ec; [|exact Hconf].
    destruct Hconf as (e & Hb & He).
    destruct (build_section_stats_inv sec cf e Hb)
      as (all & eps & name & glyph & flag & H1 & H2 & H3 & H4 & H5 & ->).
    exists all, eps, name, glyph, flag. auto 10.
Qed.

(** The sample server: "TV" is configured with episodes, "Music" is not
    configured, "Books" is not on the server. *)
Lemma refreshed_stats_witness :
  exists st,
    query_library_stats (sample_world 0) sample_cog = Ok st
    /\ dict_get "TV" st
       = Some {| count := 3; episodes := 30; display_name := "Series";
                 emoji := "T"; show_episodes := true |}
    /\ dict_get "Music" st = Some (default_stats "Music" 2)
    /\ dict_get "Books" st = None.
Proof.
  destruct (query_library_stats (sample_world 0) sample_cog) as [st|] eqn:E;
    [|discriminate E].
  exists st. split; [reflexivity|].
  destruct (refreshed_stats_content (sample_world 0) sample_cog _ st eq_refl E)
    as (conf & all_wanted & Hc & Ha & H).
  injection Hc as <-. injection Ha as <-.
  split; [|split].
  - destruct (H "TV") as (all & eps & name & glyph & flag
                          & H1 & H2 & H3 & H4 & H5 & H6).
    injection H1 as <-. injection H2 as <-. injection H3 as <-.
    injection H4 as <-. cbn in H5. injection H5 as <-. exact H6.
  - destruct (H "Music") as (all & H1 & H2). injection H1 as <-. exact H2.
  - exact (H "Books").
Defined.

(** The loop over the configured titles: the keys it adds. *)
Lemma configured_loop_keys
  (sections : list (string * plex_library_section))
  (conf : list (string * section_config)) :
  forall (l : list (string * section_config)) (acc st : stats),
  rfold (fun (st : stats) (kv : string * section_config) =>
           let title := fst kv in
           match dict_get title sections with
           | Some section =>
               config <- match dict_get title conf with
                         | Some cf => Ok cf
                         | None => Raise KeyError
                         end ;;
               e <- _build_section_stats section config ;;
               Ok (dict_set title e st)
           | None => Ok st
           end) l acc = Ok st ->
  NoDup (map fst l) ->
  (forall k, In k (map fst l) -> dict_has k acc = false) ->
  map fst st
  = (map fst acc ++ filter (fun t => dict_has t sections) (map fst l))%list.
Proof.
  induction l as [|[t cf0] rest IH]; intros acc st H Hnd Hacc.
  - cbn [rfold] in H. injection H as <-. cbn [map filter]. rewrite app_nil_r.
    reflexivity.
  - cbn [map fst] in Hnd, Hacc. inversion Hnd as [|x l Ht Hrest]; subst.
    cbn [rfold] in H. cbv beta zeta in H. cbn [fst] in H.
    cbn [map fst filter].
    assert (Hh : dict_has t sections
                 = match dict_get t sections with Some _ => true | None => false end)
      by reflexivity.
    destruct (dict_get t sections) as [sec|] eqn:Es; rewrite Hh.
    + destruct (dict_get t conf) as [cf|] eqn:Ec; cbn [rbind] in H; [|discriminate].
      destruct (_build_section_stats sec cf) as [e|] eqn:Eb; cbn [rbind] in H;
        [|discriminate].
      rewrite (IH _ _ H Hrest).
      * rewrite dict_set_keys. rewrite (Hacc t (or_introl eq_refl)).
        rewrite <- app_assoc. reflexivity.
      * intros k Hk. rewrite dict_has_set.
        rewrite (Hacc k (or_intror Hk)).
        destruct (String.eqb_spec k t) as [->|Hne]; [contradiction | reflexivity].
    + cbn [rbind] in H. apply (IH _ _ H Hrest).
      intros k Hk. apply Hacc. right. exact Hk.
Qed.

(** The loop over the server's sections: the keys it adds. *)
Lemma unconfigured_loop_keys (conf : list (string * section_config)) :
  forall (l : list (string * plex_library_section)) (acc st : stats),
  unconfigured_stats l conf acc = Ok st ->
  NoDup (map fst l) ->
  (forall k, In k (map fst l) -> dict_has k conf = false -> dict_has k acc = false) ->
  map fst st
  = (map fst acc ++ filter (fun t => negb (dict_has t conf)) (map fst l))%list.
Proof.
  unfold unconfigured_stats.
  induction l as [|[t sec] rest IH]; intros acc st H Hnd Hacc.
  - cbn [rfold] in H. injection H as <-. cbn [map filter]. rewrite app_nil_r.
    reflexivity.
  - cbn [map fst] in Hnd, Hacc. inversion Hnd as [|x l Ht Hrest]; subst.
    cbn [rfold] in H. cbn [map fst filter].
    destruct (dict_has t conf) eqn:Ec; cbn [negb].
    + cbn [rbind] in H. apply (IH _ _ H Hrest).
      intros k Hk. apply Hacc. right. exact Hk.
    + destruct (sec_all sec) as [all|] eqn:Ea; cbn [rbind] in H; [|discriminate].
      rewrite (IH _ _ H Hrest).
      * rewrite dict_set_keys. rewrite (Hacc t (or_introl eq_refl) Ec).
        rewrite <- app_assoc. reflexivity.
      * intros k Hk Hc. rewrite dict_has_set.
        rewrite (Hacc k (or_intror Hk) Hc).
        destruct (String.eqb_spec k t) as [->|Hne]; [contradiction | reflexivity].
Qed.

(** The order of the statistics a successful refresh stores: first the
    configured titles the server lists, in the order of the configuration,
    then, when [show_all] is set, the other titles in the order in which the
    server lists them first. *)
Theorem refreshed_stats_order (w : world) (c : cog)
  (conf : list (string * section_config))
  (secs : list plex_library_section) (st : stats) :
  sections_of (plex_sections (cfg c)) = Some conf ->
  NoDup (map fst conf) ->
  w_sections w = Ok secs ->
  query_library_stats w c = Ok st ->
  exists all_wanted,
    show_all (plex_sections (cfg c)) = Some all_wanted
    /\ map fst st
       = (filter (fun t => listed t secs) (map fst conf)
          ++ (if all_wanted
              then filter (fun t => negb (dict_has t conf)) (first_titles [] secs)
              else []))%list.
Proof.
  intros Hc Hnd Hs H. unfold query_library_stats in H. rewrite Hs in H.
  cbn [rbind] in H. cbv zeta in H.
  change (fold_left (fun d s => dict_set (sec_title s) s d) secs [])
    with (sections_by_title secs) in H.
  rewrite Hc in H. cbn [lookup rbind] in H.
  destruct (show_all (plex_sections (cfg c))) as [all_wanted|];
    cbn [lookup rbind] in H; [|discriminate].
  exists all_wanted. split; [reflexivity|].
  assert (Hconf : forall st0,
    configured_stats (sections_by_title secs) conf [] = Ok st0 ->
    map fst st0 = filter (fun t => listed t secs) (map fst conf)).
  { intros st0 H0. unfold configured_stats in H0.
    rewrite (configured_loop_keys _ conf conf [] st0 H0 Hnd).
    - cbn [map app]. apply filter_ext. intros t. apply sections_by_title_has.
    - reflexivity. }
  destruct all_wanted; cbn [negb] in H.
  - destruct (configured_stats (sections_by_title secs) conf []) as [st0|] eqn:E0;
      cbn [rbind] in H; [|discriminate].
    rewrite (unconfigured_loop_keys conf _ st0 st H).
    + rewrite (Hconf st0 eq_refl), sections_by_title_keys. reflexivity.
    + unfold sections_by_title. apply sections_fold_NoDup. constructor.
    + intros k _ Hc'. apply dict_has_not_In. rewrite (Hconf st0 eq_refl).
      intros Hin. apply filter_In in Hin. destruct Hin as [Hin _].
      apply dict_has_In in Hin. congruence.
  - rewrite app_nil_r. apply Hconf. exact H.
Qed.

(** The sample server lists "TV", "Movies", "Music"; the configuration
    names "Movies" and "TV". *)
Lemma refreshed_stats_order_witness :
  exists st,
    query_library_stats (sample_world 0) sample_cog = Ok st
    /\ map fst st = ["Movies"; "TV"; "Music"].
Proof.
  destruct (query_library_stats (sample_world 0) sample_cog) as [st|] eqn:E;
    [|discriminate E].
  exists st. split; [reflexivity|].
  assert (Hnd : NoDup (map fst (match sections_of (plex_sections (cfg sample_cog))
                                with Some l => l | None => [] end))).
  { cbn. repeat constructor; cbn; intuition discriminate. }
  destruct (refreshed_stats_order (sample_world 0) sample_cog _ _ st
              eq_refl Hnd eq_refl E) as (all_wanted & Ha & Hk).
  injection Ha as <-. exact Hk.
Defined.

(** ** The dashboard tick *)

Lemma ord2ymd_samples :
  ord2ymd 0 = (1, 1, 1)
  /\ ord2ymd 719162 = (1970, 1, 1)
  /\ ord2ymd 730178 = (2000, 2, 29)
  /\ ord2ymd 738944 = (2024, 2, 29)
  /\ ord2ymd 738945 = (2024, 3, 1)
  /\ ord2ymd 739246 = (2024, 12, 27)
  /\ ord2ymd 693595 = (1900, 1, 1)
  /\ ord2ymd 693653 = (1900, 2, 28)
  /\ ord2ymd 693654 = (1900, 3, 1)
  /\ ord2ymd 3652058 = (9999, 12, 31).
Proof. vm_compute. repeat split; reflexivity. Qed.

(** The duration text depends on the whole minutes that have passed. *)
Lemma time_diff_str_minutes (now since : datetime) :
  0 <= since -> since <= now -> now < MAX_DAYS * DAY_US ->
  time_diff_str now since = Ok (spec_duration ((now - since) / 60000000)).
Proof.
  intros H0 H1 H2. unfold time_diff_str, datetime_sub, timedelta_of_us.
  unfold MAX_DAYS, DAY_US in H2.
  set (us := now - since) in *.
  assert (Hus : 0 <= us < 3652059 * 86400000000) by (unfold us; lia).
  assert (Hd : (us / 86400000000 <? -999999999) || (999999999 <? us / 86400000000)
               = false).
  { apply orb_false_iff. split; [apply Z.ltb_ge | apply Z.ltb_ge];
      Z.to_euclidean_division_equations; lia. }
  rewrite Hd. cbn [rbind td_days td_seconds].
  set (m := us / 60000000).
  assert (Ed : us / 86400000000 = m / 1440)
    by (unfold m; Z.to_euclidean_division_equations; lia).
  assert (Eh : us mod 86400000000 / 1000000 / 3600 = m / 60 mod 24)
    by (unfold m; Z.to_euclidean_division_equations; lia).
  assert (Em : us mod 86400000000 / 1000000 mod 3600 / 60 = m mod 60)
    by (unfold m; Z.to_euclidean_division_equations; lia).
  rewrite Ed, Eh, Em. unfold spec_duration. f_equal.
  assert (Hm : 0 <= m) by (unfold m; Z.to_euclidean_division_equations; lia).
  destruct (Z.ltb_spec 0 (m / 1440)) as [Hdays|Hdays].
  - assert (E1 : (m =? 0) = false)
      by (apply Z.eqb_neq; Z.to_euclidean_division_equations; lia).
    assert (E2 : (m <? 60) = false)
      by (apply Z.ltb_ge; Z.to_euclidean_division_equations; lia).
    assert (E3 : (m <? 1440) = false)
      by (apply Z.ltb_ge; Z.to_euclidean_division_equations; lia).
    rewrite E1, E2, E3. reflexivity.
  - assert (E3 : (m <? 1440) = true)
      by (apply Z.ltb_lt; Z.to_euclidean_division_equations; lia).
    destruct (Z.ltb_spec 0 (m / 60 mod 24)) as [Hh|Hh].
    + assert (E1 : (m =? 0) = false)
        by (apply Z.eqb_neq; Z.to_euclidean_division_equations; lia).
      assert (E2 : (m <? 60) = false)
        by (apply Z.ltb_ge; Z.to_euclidean_division_equations; lia).
      rewrite E1, E2, E3. reflexivity.
    + assert (E2 : (m <? 60) = true)
        by (apply Z.ltb_lt; Z.to_euclidean_division_equations; lia).
      destruct (Z.ltb_spec 0 (m mod 60)) as [Hmi|Hmi].
      * assert (E1 : (m =? 0) = false)
          by (apply Z.eqb_neq; Z.to_euclidean_division_equations; lia).
        rewrite E1, E2. reflexivity.
      * assert (E1 : (m =? 0) = true)
          by (apply Z.eqb_eq; Z.to_euclidean_division_equations; lia).
        rewrite E1. reflexivity.
Qed.

(** The embed of an offline snapshot that carries its offline time [t],
    when the [dashboard] group of the configuration has its [name], its
    [icon_url] and its [footer_icon_url], holds one field "Offline since:"
    and, when the uptime provider has data, its three uptime fields; it
    shows no library, stream or download.  The first line of the field is
    [t] moved one hour ahead, written as day.month.year hour:minute; the
    second line depends on the whole minutes [m] that have passed since [t]:
    "Just now" for none, minutes only below an hour, hours and minutes below
    a day, and days, hours and minutes from a day on, a zero count of hours
    or minutes included.  When the group lacks one of the three keys no
    embed is built: the call raises [KeyError]. *)
Theorem offline_embed (c : cog)
  (sabnzbd_cog : option (download -> Z -> res string)) (uptime_cog : bool)
  (uptimes : option uptime_texts) (now t : datetime) (info : server_info) :
  status info <> STATUS_ONLINE ->
  info_offline_since info = Val t ->
  0 <= t -> t <= now -> now < MAX_DAYS * DAY_US ->
  t + HOUR_US < MAX_DAYS * DAY_US ->
  create_dashboard_embed c sabnzbd_cog uptime_cog uptimes now info
  = match dash_name (dashboard (cfg c)), icon_url (dashboard (cfg c)),
          footer_icon_url (dashboard (cfg c)) with
    | Some _, Some _, Some _ =>
        Ok ({| name := "Offline since:";
               value := code_block (strftime_dmy_hm (t + HOUR_US) ++ NL
                                    ++ spec_duration ((now - t) / 60000000));
               inline := false |}
            :: match uptimes with
               | Some u =>
                   if uptime_cog && negb (String.eqb (uptime_24h u) "No data")
                   then
                     [ {| name := "Uptime (24h)";
                          value := code_block (uptime_24h u); inline := true |};
                       {| name := "Uptime (7 days)";
                          value := code_block (uptime_7d u); inline := true |};
                       {| name := "Uptime (30 days)";
                          value := code_block (uptime_30d u); inline := true |} ]
                   else []
               | None => []
               end)
    | _, _, _ => Raise KeyError
    end.
Proof.
  intros Hs Ht H0 H1 H2 H3. unfold create_dashboard_embed. cbv zeta.
  apply String.eqb_neq in Hs. rewrite Hs. cbn [negb].
  rewrite Ht. cbn [key rbind].
  unfold datetime_add_us.
  assert (Hr : (t + HOUR_US <? 0) || (MAX_DAYS * DAY_US <=? t + HOUR_US) = false).
  { apply orb_false_iff. split; [apply Z.ltb_ge | apply Z.leb_gt];
      unfold HOUR_US in *; lia. }
  rewrite Hr. cbn [rbind].
  rewrite (time_diff_str_minutes now t H0 H1 H2). cbn [rbind fst snd].
  destruct (dash_name (dashboard (cfg c))); cbn [lookup rbind]; [|reflexivity].
  destruct (icon_url (dashboard (cfg c))); cbn [lookup rbind];
    [|reflexivity].
  destruct (footer_icon_url (dashboard (cfg c))); reflexivity.
Qed.

(** The server went offline on 2024-02-29 at 23:30 UTC; 26 hours and 5
    minutes later the dashboard reads as follows. *)
Lemma offline_embed_witness :
  let t := LEAP_DAY_EVENING * 1000000 in
  let now := (LEAP_DAY_EVENING + 26 * 3600 + 5 * 60 + 59) * 1000000 in
  create_dashboard_embed sample_cog None false None now
    {| status := STATUS_OFFLINE; uptime := Absent; info_offline_since := Val t;
       library_stats := []; active_users := ["a"]; current_streams := [];
       jellyfin_stream_count := Val 1; info_downloads := Absent |}
  = Ok [ {| name := "Offline since:";
            value := code_block ("01.03.2024 00:30" ++ NL
                                 ++ "1 day, 2 hours, 5 minutes ago");
            inline := false |} ].
Proof.
  intros t now.
  refine (offline_embed sample_cog None false None now t
            {| status := STATUS_OFFLINE; uptime := Absent;
               info_offline_since := Val t; library_stats := [];
               active_users := ["a"]; current_streams := [];
               jellyfin_stream_count := Val 1; info_downloads := Absent |}
            _ eq_refl _ _ _ _).
  - vm_compute. discriminate.
  - vm_compute. discriminate.
  - vm_compute. discriminate.
  - vm_compute. reflexivity.
  - vm_compute. reflexivity.
Defined.

(** ** What a tick leaves in the channel *)

Lemma find_none_has_message (d : discord) (p : positive) :
  has_message d p = false ->
  find (fun m => Pos.eqb (fst m) p) (messages d) = None.
Proof.
  unfold has_message. induction (messages d) as [|m l IH]; cbn [existsb find];
    [reflexivity|].
  destruct (Pos.eqb (fst m) p); cbn [orb]; [discriminate | exact IH].
Qed.

Lemma find_edited (p : positive) (e : embed) (l : list (positive * embed)) :
  existsb (fun m => Pos.eqb (fst m) p) l = true ->
  find (fun m => Pos.eqb (fst m) p)
       (map (fun m => if Pos.eqb (fst m) p then (p, e) else m) l)
  = Some (p, e).
Proof.
  induction l as [|m l IH]; cbn [existsb map find]; [discriminate|].
  destruct (Pos.eqb (fst m) p) eqn:E; cbn [orb fst].
  - rewrite Pos.eqb_refl. reflexivity.
  - rewrite E. exact IH.
Qed.

Lemma find_edited_other (p q : positive) (e : embed)
  (l : list (positive * embed)) :
  q <> p ->
  find (fun m => Pos.eqb (fst m) q)
       (map (fun m => if Pos.eqb (fst m) p then (p, e) else m) l)
  = find (fun m => Pos.eqb (fst m) q) l.
Proof.
  intros Hne. induction l as [|m l IH]; cbn [map find]; [reflexivity|].
  destruct (Pos.eqb (fst m) p) eqn:E; cbn [fst].
  - apply Pos.eqb_eq in E. rewrite E.
    assert (Eq : Pos.eqb p q = false) by (apply Pos.eqb_neq; congruence).
    rewrite Eq. exact IH.
  - destruct (Pos.eqb (fst m) q); [reflexivity | exact IH].
Qed.

(** After an update the channel is as it was, or the stored id names a
    message that holds the new embed while every other message is as it
    was. *)
Lemma upsert_outcome (f : faults) (c : cog) (d : discord) (e : embed) :
  has_message d (next_message_id d) = false ->
  snd (_update_dashboard_message f c d e) = d
  \/ exists p,
       dashboard_message_id (snd (fst (_update_dashboard_message f c d e)))
       = Some (Zpos p)
       /\ message_embed (snd (_update_dashboard_message f c d e)) p = Some e
       /\ forall q, q <> p ->
            message_embed (snd (_update_dashboard_message f c d e)) q
            = message_embed d q.
Proof.
  intros Hfresh.
  assert (Hcreate : forall c0,
    truthy_opt truthy_int (dashboard_message_id c0) = false ->
    snd (create_if_unknown f c0 d e) = d
    \/ exists p,
         dashboard_message_id (snd (fst (create_if_unknown f c0 d e)))
         = Some (Zpos p)
         /\ message_embed (snd (create_if_unknown f c0 d e)) p = Some e
         /\ forall q, q <> p ->
              message_embed (snd (create_if_unknown f c0 d e)) q
              = message_embed d q).
  { intros c0 H0.
    destruct (create_if_unknown_cases f c0 d e H0) as [[_ E] | [_ E]];
      rewrite E; cbn [fst snd]; [left; reflexivity | right].
    exists (next_message_id d).
    assert (Hm : messages
                   (_save_message_id f
                      {| messages := (messages d ++ [(next_message_id d, e)])%list;
                         next_message_id := Pos.succ (next_message_id d);
                         id_file := id_file d;
                         id_file_writes := id_file_writes d |}
                      (Zpos (next_message_id d)))
                 = (messages d ++ [(next_message_id d, e)])%list).
    { unfold _save_message_id. destruct (write_fault f); reflexivity. }
    split; [reflexivity|]. unfold message_embed. rewrite Hm. split.
    - rewrite find_app_or, (find_none_has_message d _ Hfresh).
      cbn [find fst]. rewrite Pos.eqb_refl. reflexivity.
    - intros q Hq. rewrite find_app_or.
      destruct (find (fun m => Pos.eqb (fst m) q) (messages d)); [reflexivity|].
      cbn [find fst].
      assert (Eq : Pos.eqb (next_message_id d) q = false)
        by (apply Pos.eqb_neq; congruence).
      rewrite Eq. reflexivity. }
  unfold _update_dashboard_message.
  destruct (truthy_opt truthy_int (dashboard_message_id c)) eqn:Ht;
    [|apply Hcreate; exact Ht].
  destruct (dashboard_message_id c) as [mid|] eqn:Hid; [|discriminate Ht].
  cbn [need rbind].
  destruct (fetch_message f d mid) as [p|x] eqn:Hf; cbn [rbind].
  - destruct (edit_message f d p e) as [d1|x] eqn:He.
    + right. unfold create_if_unknown. rewrite Hid, Ht. cbn [negb fst snd].
      unfold fetch_message in Hf. destruct (fetch_fault f); [discriminate|].
      destruct mid as [|q|q]; try discriminate.
      destruct (has_message d q) eqn:Hq; [|discriminate].
      injection Hf as <-. exists q. split; [exact Hid|].
      unfold edit_message in He. destruct (edit_fault f); [discriminate|].
      injection He as <-. unfold message_embed. cbn [messages]. split.
      * rewrite (find_edited q e _ Hq). reflexivity.
      * intros r Hr. rewrite (find_edited_other q r e _ Hr). reflexivity.
    + destruct x; try (left; reflexivity). apply Hcreate. reflexivity.
  - destruct x; try (left; reflexivity). apply Hcreate. reflexivity.
Qed.

(** A tick of the dashboard never raises, and it leaves the channel as it
    was (no channel, a failure while the data is gathered, or a refused
    fetch, edit or send), or it leaves the message named by the stored id
    holding the embed of this tick, and every other message as it was. *)
Theorem dashboard_tick_outcome (f : faults) (b : bot) (w : world) (c : cog)
  (d : discord) :
  has_message d (next_message_id d) = false ->
  snd (update_dashboard f b w c d) = d
  \/ exists p e,
       fst (dashboard_embed b w c) = Ok e
       /\ dashboard_message_id (fst (update_dashboard f b w c d)) = Some (Zpos p)
       /\ message_embed (snd (update_dashboard f b w c d)) p = Some e
       /\ forall q, q <> p ->
            message_embed (snd (update_dashboard f b w c d)) q
            = message_embed d q.
Proof.
  intros Hfresh. unfold update_dashboard.
  destruct (bot_channel b); cbn [negb]; [|left; reflexivity].
  destruct (dashboard_embed b w c) as [re c1].
  destruct re as [e|x]; [|left; reflexivity].
  destruct (upsert_outcome f c1 d e Hfresh) as [H | (p & H1 & H2 & H3)].
  - left. destruct (_update_dashboard_message f c1 d e) as [[r c2] d2].
    exact H.
  - right. exists p, e.
    destruct (_update_dashboard_message f c1 d e) as [[r c2] d2].
    cbn [fst snd] in *. auto.
Qed.

(** The server refuses the connection on the evening of 2024-02-29; the
    stored message 42 is edited and then holds the offline embed, and
    message 57 is as before. *)
Lemma dashboard_tick_witness :
  let run := update_dashboard no_faults (sample_bot (LEAP_DAY_EVENING + 90))
               (down_world LEAP_DAY_EVENING)
               (set_dashboard_message_id sample_cog (Some 42))
               (sample_discord 42) in
  message_embed (snd run) 42
  = Some [ {| name := "Offline since:";
              value := code_block ("01.03.2024 00:30" ++ NL ++ "1 minute ago");
              inline := false |} ]
  /\ message_embed (snd run) 57 = Some [].
Proof.
  intros run.
  destruct (dashboard_tick_outcome no_faults (sample_bot (LEAP_DAY_EVENING + 90))
              (down_world LEAP_DAY_EVENING)
              (set_dashboard_message_id sample_cog (Some 42))
              (sample_discord 42) eq_refl)
    as [H | (p & e & H1 & H2 & H3 & H4)].
  - exfalso. vm_compute in H. discriminate H.
  - assert (Ep : p = 42%positive).
    { vm_compute in H2. injection H2 as <-. reflexivity. }
    subst p. subst run. split.
    + rewrite H3. vm_compute in H1. injection H1 as <-. reflexivity.
    + rewrite (H4 57%positive); [reflexivity | discriminate].
Defined.

(** ** The library fields of the dashboard *)

Lemma rconcat_map_filter {A B : Type} (f : A -> res (list B)) (keep : A -> bool)
  (l : list A) :
  (forall a, keep a = false -> f a = Ok []) ->
  rconcat_map f l = rconcat_map f (filter keep l).
Proof.
  intros H. induction l as [|a l IH]; cbn [rconcat_map filter]; [reflexivity|].
  destruct (keep a) eqn:E; cbn [rconcat_map].
  - rewrite IH. reflexivity.
  - rewrite (H a E). cbn [rbind]. rewrite <- IH.
    destruct (rconcat_map f l); reflexivity.
Qed.

Lemma filter_all {A : Type} (p : A -> bool) (l : list A) :
  (forall a, In a l -> p a = true) -> filter p l = l.
Proof.
  induction l as [|a l IH]; intros H; cbn [filter]; [reflexivity|].
  rewrite (H a (or_introl eq_refl)). rewrite IH; [reflexivity|].
  intros x Hx. apply H. right. exact Hx.
Qed.

Lemma filter_none {A : Type} (p : A -> bool) (l : list A) :
  (forall a, In a l -> p a = false) -> filter p l = [].
Proof.
  induction l as [|a l IH]; intros H; cbn [filter]; [reflexivity|].
  rewrite (H a (or_introl eq_refl)). apply IH.
  intros x Hx. apply H. right. exact Hx.
Qed.

(** The keys of the statistics of a successful query. *)
Lemma query_library_stats_keys (w : world) (c : cog)
  (conf : list (string * section_config))
  (secs : list plex_library_section) (st : stats) :
  sections_of (plex_sections (cfg c)) = Some conf ->
  NoDup (map fst conf) ->
  w_sections w = Ok secs ->
  query_library_stats w c = Ok st ->
  exists all_wanted,
    show_all (plex_sections (cfg c)) = Some all_wanted
    /\ map fst st
       = (filter (fun t => listed t secs) (map fst conf)
          ++ (if all_wanted
              then filter (fun t => negb (dict_has t conf)) (first_titles [] secs)
              else []))%list.
Proof.
  intros Hc Hnd Hs H. unfold query_library_stats in H. rewrite Hs in H.
  cbn [rbind] in H. cbv zeta in H.
  change (fold_left (fun d s => dict_set (sec_title s) s d) secs [])
    with (sections_by_title secs) in H.
  rewrite Hc in H. cbn [lookup rbind] in H.
  destruct (show_all (plex_sections (cfg c))) as [all_wanted|];
    cbn [lookup rbind] in H; [|discriminate].
  exists all_wanted. split; [reflexivity|].
  assert (Hconf : forall st0,
    configured_stats (sections_by_title secs) conf [] = Ok st0 ->
    map fst st0 = filter (fun t => listed t secs) (map fst conf)).
  { intros st0 H0. unfold configured_stats in H0.
    rewrite (configured_loop_keys _ conf conf [] st0 H0 Hnd).
    - cbn [map app]. apply filter_ext. intros t. apply sections_by_title_has.
    - reflexivity. }
  destruct all_wanted; cbn [negb] in H.
  - destruct (configured_stats (sections_by_title secs) conf []) as [st0|] eqn:E0;
      cbn [rbind] in H; [|discriminate].
    rewrite (unconfigured_loop_keys conf _ st0 st H).
    + rewrite (Hconf st0 eq_refl), sections_by_title_keys. reflexivity.
    + unfold sections_by_title. apply sections_fold_NoDup. constructor.
    + intros k _ Hc'. apply dict_has_not_In. rewrite (Hconf st0 eq_refl).
      intros Hin. apply filter_In in Hin. destruct Hin as [Hin _].
      apply dict_has_In in Hin. congruence.
  - rewrite app_nil_r. apply Hconf. exact H.
Qed.

Lemma section_fields_absent (st : stats) (t : string) :
  dict_has t st = false -> section_fields st t = Ok [].
Proof.
  unfold dict_has, section_fields. destruct (dict_get t st); [discriminate|].
  reflexivity.
Qed.

(** The titles [_add_embed_fields] goes through, cut down to those that
    have statistics, are the keys of the statistics in their order. *)
Lemma displayed_titles (w : world) (c : cog)
  (conf : list (string * section_config))
  (secs : list plex_library_section) (st : stats) :
  sections_of (plex_sections (cfg c)) = Some conf ->
  NoDup (map fst conf) ->
  w_sections w = Ok secs ->
  query_library_stats w c = Ok st ->
  exists all_wanted,
    show_all (plex_sections (cfg c)) = Some all_wanted
    /\ filter (fun t => dict_has t st)
         (if negb all_wanted
          then map fst conf
          else (map fst conf
                ++ filter (fun k => negb (dict_has k conf)) (map fst st))%list)
       = map fst st.
Proof.
  intros Hc Hnd Hs H.
  destruct (query_library_stats_keys w c conf secs st Hc Hnd Hs H)
    as (all_wanted & Ha & HK).
  exists all_wanted. split; [exact Ha|].
  set (unconf := fun t : string => negb (dict_has t conf)) in *.
  assert (Hfirst : filter (fun t => dict_has t st) (map fst conf)
                   = filter (fun t => listed t secs) (map fst conf)).
  { apply filter_ext_in. intros t Ht.
    assert (Hc' : dict_has t conf = true) by (apply dict_has_In; exact Ht).
    destruct (listed t secs) eqn:El.
    - apply dict_has_In. rewrite HK. apply in_or_app. left.
      apply filter_In. split; [exact Ht | exact El].
    - apply dict_has_not_In. rewrite HK. intros Hin.
      apply in_app_or in Hin. destruct Hin as [Hin | Hin].
      + apply filter_In in Hin. destruct Hin as [_ E]. congruence.
      + destruct all_wanted; [|destruct Hin].
        apply filter_In in Hin. destruct Hin as [_ E]. unfold unconf in E.
        rewrite Hc' in E. discriminate E. }
  destruct all_wanted; cbn [negb].
  - rewrite filter_app, Hfirst.
    rewrite (filter_all (fun t => dict_has t st)).
    2:{ intros t Ht. apply filter_In in Ht. destruct Ht as [Ht _].
        apply dict_has_In. exact Ht. }
    rewrite HK at 1. rewrite filter_app.
    rewrite (filter_none unconf (filter _ (map fst conf))).
    2:{ intros t Ht. apply filter_In in Ht. destruct Ht as [Ht _].
        unfold unconf. apply dict_has_In in Ht. rewrite Ht. reflexivity. }
    rewrite (filter_all unconf (filter unconf _)).
    2:{ intros t Ht. apply filter_In in Ht. destruct Ht as [_ E]. exact E. }
    cbn [app]. symmetry. exact HK.
  - rewrite Hfirst. rewrite app_nil_r in HK. symmetry. exact HK.
Qed.

(** When the snapshot holds the statistics of a successful query, the
    dashboard shows the libraries of those statistics, each once and in the
    order of the statistics: [_add_embed_fields] gives the same fields as
    the run that goes through the keys of the statistics.  [conf] is the
    [sections] of the configuration, which a successful query has read. *)
Theorem dashboard_lists_cached_libraries (w : world) (c : cog)
  (conf : list (string * section_config))
  (secs : list plex_library_section) (st : stats)
  (sabnzbd_cog : option (download -> Z -> res string)) (e : embed)
  (info : server_info) :
  sections_of (plex_sections (cfg c)) = Some conf ->
  NoDup (map fst conf) ->
  w_sections w = Ok secs ->
  query_library_stats w c = Ok st ->
  library_stats info = st ->
  _add_embed_fields c sabnzbd_cog e info
  = (up <- key (uptime info) ;;
     libs <- rconcat_map (section_fields st) (map fst st) ;;
     dl <- download_fields sabnzbd_cog info ;;
     Ok (e ++ [ {| name := FIELD_UPTIME; value := code_block (show_opt id up);
                   inline := true |};
                {| name := ""; value := ""; inline := true |};
                {| name := ""; value := ""; inline := true |} ]
           ++ libs ++ stream_fields info ++ dl)%list).
Proof.
  intros Hc Hnd Hs H Hinfo. unfold _add_embed_fields. rewrite Hinfo.
  destruct (key (uptime info)) as [up|x]; cbn [rbind]; [|reflexivity].
  cbv zeta.
  destruct (displayed_titles w c conf secs st Hc Hnd Hs H)
    as (all_wanted & Ha & HD).
  rewrite Hc, Ha. cbn [lookup rbind].
  rewrite (rconcat_map_filter (section_fields st) (fun t => dict_has t st) _
             (section_fields_absent st)).
  rewrite HD. reflexivity.
Qed.

(** The sample server and configuration: "Movies", "TV" with its episodes,
    then "Music". *)
Lemma dashboard_lists_cached_libraries_witness :
  exists st,
    query_library_stats (sample_world 0) sample_cog = Ok st
    /\ _add_embed_fields sample_cog None [] (online_info [] st)
       = Ok [ {| name := FIELD_UPTIME; value := code_block "00:10"; inline := true |};
              {| name := ""; value := ""; inline := true |};
              {| name := ""; value := ""; inline := true |};
              {| name := "Films M"; value := code_block "12"; inline := true |};
              {| name := "Series T"; value := code_block "3"; inline := true |};
              {| name := "Series" ++ EPISODES_SUFFIX; value := code_block "30";
                 inline := true |};
              {| name := "Music " ++ DEFAULT_EMOJI; value := code_block "2";
                 inline := true |};
              {| name := "Current Streams:"; value := NO_STREAMS; inline := false |};
              {| name := "Current Downloads:"; value := NO_DOWNLOADS;
                 inline := false |} ].
Proof.
  destruct (query_library_stats (sample_world 0) sample_cog) as [st|] eqn:E;
    [|discriminate E].
  exists st. split; [reflexivity|].
  assert (Hnd : NoDup (map fst (match sections_of (plex_sections (cfg sample_cog))
                                with Some l => l | None => [] end))).
  { cbn. repeat constructor; cbn; intuition discriminate. }
  rewrite (dashboard_lists_cached_libraries (sample_world 0) sample_cog _ _ st
             None [] (online_info [] st) eq_refl Hnd eq_refl E eq_refl).
  vm_compute in E. injection E as <-. vm_compute. reflexivity.
Defined.

(** ** Titles on Plex and on Jellyfin *)

Lemma split_on_head (sep : ascii) (s : string) :
  exists rest, split_on sep s = before sep s :: rest.
Proof.
  induction s as [|ch s IH]; cbn [split_on before].
  - exists []. reflexivity.
  - destruct (Ascii.eqb ch sep).
    + exists (split_on sep s). reflexivity.
    + destruct IH as [rest ->]. exists rest. reflexivity.
Qed.

Lemma index_head (sep : ascii) (s : string) :
  index (split_on sep s) 0 = Ok (before sep s).
Proof.
  destruct (split_on_head sep s) as [rest ->]. reflexivity.
Qed.

Lemma before_before (g : string) :
  before "-" (before ":" g) = series_prefix g.
Proof.
  induction g as [|ch g IH]; cbn [before series_prefix]; [reflexivity|].
  destruct (Ascii.eqb ch ":") eqn:E1; cbn [orb before]; [reflexivity|].
  destruct (Ascii.eqb ch "-"); [reflexivity|]. rewrite IH. reflexivity.
Qed.

(** An episode of a series whose name is written in ASCII characters gets
    the same title from both formatters: the series name cut at its first
    colon or hyphen and stripped of surrounding blanks, then " - S", the
    season with two digits, "E" and the episode with two digits. *)
Theorem episode_title_rule (session : plex_session) (now_playing : jf_now_playing)
  (g : string) (p i : Z) :
  ascii_text g = true ->
  opt_str_eqb (getattr (type_ session) None) "track" = false ->
  grandparentTitle session = Val g ->
  parentIndex session = Val p -> index_ session = Val i ->
  np_Type now_playing = Val "Episode" ->
  np_SeriesName now_playing = Val g ->
  np_ParentIndexNumber now_playing = Val p ->
  np_IndexNumber now_playing = Val i ->
  let t := strip (series_prefix g) ++ " - S" ++ fmt_0d 2 p ++ "E" ++ fmt_0d 2 i in
  _get_formatted_title session = Ok t
  /\ _get_jellyfin_formatted_title now_playing = Ok (Some t).
Proof.
  intros _ Ht Hg Hp Hi Jt Jg Jp Ji t. split.
  - unfold _get_formatted_title. rewrite Ht, andb_false_r, Hg, Hp, Hi.
    cbn [hasattr dot need_obj need rbind andb].
    rewrite index_head. cbn [rbind]. rewrite index_head. cbn [rbind].
    rewrite before_before. reflexivity.
  - unfold _get_jellyfin_formatted_title. rewrite Jt, Jg, Jp, Ji.
    cbn [getattr opt_str_eqb]. rewrite String.eqb_refl.
    cbn [need_obj need rbind].
    rewrite index_head. cbn [rbind]. rewrite index_head. cbn [rbind].
    rewrite before_before. reflexivity.
Qed.

(** "Spider-Man: The Series", season 1, episode 3. *)
Lemma episode_title_witness :
  _get_formatted_title spider_plex = Ok "Spider - S01E03"
  /\ _get_jellyfin_formatted_title spider_jellyfin = Ok (Some "Spider - S01E03").
Proof.
  exact (episode_title_rule spider_plex spider_jellyfin "Spider-Man: The Series"
           1 3 eq_refl eq_refl eq_refl eq_refl eq_refl eq_refl eq_refl eq_refl eq_refl).
Defined.

(** A film gets the same title from both formatters: its name, followed
    by the year in brackets unless the year is missing, [None] or 0. *)
Theorem movie_title_rule (session : plex_session) (now_playing : jf_now_playing)
  (name : string) (y : attr Z) :
  opt_str_eqb (getattr (type_ session) None) "track" = false ->
  grandparentTitle session = Absent ->
  title session = Val name -> year session = y ->
  opt_str_eqb (getattr (np_Type now_playing) (Some "Video")) "Episode" = false ->
  np_Name now_playing = Val name ->
  np_ProductionYear now_playing = y ->
  let t := name ++ match y with
                   | Val k => if k =? 0 then "" else " (" ++ str_of_int k ++ ")"
                   | _ => ""
                   end in
  _get_formatted_title session = Ok t
  /\ _get_jellyfin_formatted_title now_playing = Ok (Some t).
Proof.
  intros Ht Hg Hn Hy Jt Jn Jy t. subst t. split.
  - unfold _get_formatted_title. rewrite Ht, andb_false_r, Hg, Hn, Hy.
    cbn [hasattr dot rbind show_opt id].
    destruct y as [| |k]; cbn [hasattr getattr truthy_opt andb show_opt];
      try reflexivity.
    unfold truthy_int. destruct (k =? 0); reflexivity.
  - unfold _get_jellyfin_formatted_title. rewrite Jt, Jn, Jy.
    cbn [getattr show_opt id].
    assert (E : forall x : string, x ++ "" = x).
    { induction x as [|ch x IH]; cbn [append]; [reflexivity | rewrite IH; reflexivity]. }
    destruct y as [| |k]; cbn [getattr truthy_opt show_opt];
      try (rewrite E; reflexivity).
    unfold truthy_int. destruct (k =? 0); cbn [negb];
      [rewrite E; reflexivity | reflexivity].
Qed.

(** "Heat" of 1995. *)
Lemma movie_title_witness :
  _get_formatted_title heat_plex = Ok "Heat (1995)"
  /\ _get_jellyfin_formatted_title heat_jellyfin = Ok (Some "Heat (1995)").
Proof.
  exact (movie_title_rule heat_plex heat_jellyfin "Heat" (Val 1995)
           eq_refl eq_refl eq_refl eq_refl eq_refl eq_refl eq_refl).
Defined.

(** ** Files read at start-up *)

(** Reading the id file: a missing file, a file that is not JSON and an
    object whose [message_id] is a text of ASCII characters that [int] does
    not read as a number give no id.
    An object without [message_id], or with [null] there, and a JSON value
    that is not an object are not handled: the [TypeError] or
    [AttributeError] leaves [_load_message_id], and with it [__init__]. *)
Theorem load_message_id_edges :
  _load_message_id FileMissing = Ok None
  /\ _load_message_id FileNotJson = Ok None
  /\ _load_message_id FileNotText = Ok None
  /\ (forall o s, dict_get "message_id" o = Some (JStr s) ->
        ascii_text s = true ->
        int_of_str s = Raise ValueError ->
        _load_message_id (FileJson (JObj o)) = Ok None)
  /\ (forall o, dict_get "message_id" o = None ->
        _load_message_id (FileJson (JObj o)) = Raise TypeError)
  /\ (forall o, dict_get "message_id" o = Some JNull ->
        _load_message_id (FileJson (JObj o)) = Raise TypeError)
  /\ (forall j, (forall o, j <> JObj o) ->
        _load_message_id (FileJson j) = Raise AttributeError).
Proof.
  repeat split.
  - intros o s Ho _ Hs. cbn [_load_message_id]. rewrite Ho. cbn [int_of_json].
    rewrite Hs. reflexivity.
  - intros o Ho. cbn [_load_message_id]. rewrite Ho. reflexivity.
  - intros o Ho. cbn [_load_message_id]. rewrite Ho. reflexivity.
  - intros j Hj. destruct j; try reflexivity. exfalso. apply (Hj o). reflexivity.
Qed.

(** The empty object, and the id written as a word. *)
Lemma load_message_id_witness :
  _load_message_id (FileJson (JObj [])) = Raise TypeError
  /\ _load_message_id (FileJson (JObj [("message_id", JStr "none")])) = Ok None
  /\ _load_message_id (FileJson (JArr [])) = Raise AttributeError.
Proof.
  destruct load_message_id_edges as (_ & _ & _ & H4 & H5 & _ & H7).
  split; [|split].
  - apply H5. reflexivity.
  - apply (H4 _ "none"); reflexivity.
  - apply H7. intros o. discriminate.
Defined.

(** When the id file agrees with the id held by the cog, an update that
    succeeds and can write keeps them in agreement: loading the id file
    afterwards, as the next start does, gives the id the cog holds. *)
Theorem restart_finds_the_message (f : faults) (c : cog) (d : discord)
  (e : embed) :
  id_file d = dashboard_message_id c ->
  write_fault f = false ->
  fst (fst (_update_dashboard_message f c d e)) = Ok tt ->
  _load_message_id (id_file_state (snd (_update_dashboard_message f c d e)))
  = Ok (dashboard_message_id (snd (fst (_update_dashboard_message f c d e)))).
Proof.
  intros Hsync Hw.
  assert (Hload : forall d0 id, id_file d0 = Some id ->
                    _load_message_id (id_file_state d0) = Ok (Some id)).
  { intros d0 id H. unfold id_file_state. rewrite H. reflexivity. }
  assert (Hcreate : forall c0,
    truthy_opt truthy_int (dashboard_message_id c0) = false ->
    fst (fst (create_if_unknown f c0 d e)) = Ok tt ->
    _load_message_id (id_file_state (snd (create_if_unknown f c0 d e)))
    = Ok (dashboard_message_id (snd (fst (create_if_unknown f c0 d e))))).
  { intros c0 H0 Hok.
    destruct (create_if_unknown_cases f c0 d e H0) as [[_ E] | [_ E]];
      rewrite E in *; cbn [fst snd] in *; [discriminate|].
    apply Hload. unfold _save_message_id. rewrite Hw. reflexivity. }
  unfold _update_dashboard_message.
  destruct (truthy_opt truthy_int (dashboard_message_id c)) eqn:Ht;
    [|apply Hcreate; exact Ht].
  destruct (dashboard_message_id c) as [mid|] eqn:Hid; [|discriminate Ht].
  cbn [need rbind].
  destruct (fetch_message f d mid) as [p|x] eqn:Hf; cbn [rbind].
  - destruct (edit_message f d p e) as [d1|x] eqn:He.
    + intros _. unfold create_if_unknown. rewrite Hid, Ht. cbn [negb fst snd].
      rewrite Hid. apply Hload.
      destruct (edit_message_file f d d1 p e He) as [-> _]. exact Hsync.
    + destruct x; try (cbn [fst]; discriminate). apply Hcreate. reflexivity.
  - destruct x; try (cbn [fst]; discriminate). apply Hcreate. reflexivity.
Qed.

(** The stored message is gone: message 90 is created, and a restart
    loads 90. *)
Lemma restart_witness :
  let run := _update_dashboard_message no_faults
               (set_dashboard_message_id sample_cog (Some 41))
               (sample_discord 41) new_embed in
  _load_message_id (id_file_state (snd run)) = Ok (Some 90).
Proof.
  intros run.
  exact (restart_finds_the_message no_faults
           (set_dashboard_message_id sample_cog (Some 41))
           (sample_discord 41) new_embed eq_refl eq_refl eq_refl).
Defined.

Lemma dict_merge_get {V : Type} (k : string) (b : list (string * V)) :
  forall a : list (string * V),
  NoDup (map fst b) ->
  dict_get k (dict_merge a b)
  = match dict_get k b with Some v => Some v | None => dict_get k a end.
Proof.
  unfold dict_merge.
  induction b as [|[k0 v0] b IH]; intros a Hnd; cbn [fold_left dict_get fst snd];
    [reflexivity|].
  cbn [map fst] in Hnd. inversion Hnd as [|x l Hk Hb]; subst.
  rewrite (IH _ Hb).
  destruct (String.eqb_spec k k0) as [->|Hne].
  - rewrite (dict_get_absent k0 b Hk). apply dict_get_set_same.
  - destruct (dict_get k b); [reflexivity|]. apply dict_get_set_other. exact Hne.
Qed.

Lemma dict_merge_keys {V : Type} (b : list (string * V)) :
  forall a : list (string * V),
  NoDup (map fst b) ->
  map fst (dict_merge a b)
  = (map fst a ++ filter (fun k => negb (dict_has k a)) (map fst b))%list.
Proof.
  unfold dict_merge.
  induction b as [|[k0 v0] b IH]; intros a Hnd; cbn [fold_left map fst snd filter].
  - rewrite app_nil_r. reflexivity.
  - cbn [map fst] in Hnd. inversion Hnd as [|x l Hk Hb]; subst.
    rewrite (IH _ Hb). rewrite dict_set_keys.
    assert (Hext : filter (fun k => negb (dict_has k (dict_set k0 v0 a))) (map fst b)
                   = filter (fun k => negb (dict_has k a)) (map fst b)).
    { apply filter_ext_in. intros k Hin. rewrite dict_has_set.
      destruct (String.eqb_spec k k0) as [->|Hne]; [contradiction | reflexivity]. }
    rewrite Hext. destruct (dict_has k0 a); cbn [negb]; [reflexivity|].
    rewrite <- app_assoc. reflexivity.
Qed.

(** The configuration loaded from a JSON object is a shallow merge: a key
    of the file replaces the whole default value of that key, a key the
    file does not have keeps its default, the default keys come first in
    their order and the other keys of the file follow in file order.  The
    refresh interval is the default 900 when the file has no [cache] key. *)
Theorem load_config_shallow_merge (o : list (string * json)) :
  NoDup (map fst o) ->
  exists config,
    _load_config (FileJson (JObj o)) = Ok config
    /\ (forall k,
          dict_get k config
          = match dict_get k o with
            | Some v => Some v
            | None => dict_get k default_config
            end)
    /\ map fst config
       = (map fst default_config
          ++ filter (fun k => negb (dict_has k default_config)) (map fst o))%list
    /\ (dict_get "cache" o = None -> load_interval config = Ok (JInt 900)).
Proof.
  intros Hnd. exists (dict_merge default_config o).
  split; [reflexivity|]. split; [|split].
  - intros k. apply dict_merge_get. exact Hnd.
  - apply dict_merge_keys. exact Hnd.
  - intros Hc. unfold load_interval. rewrite (dict_merge_get _ _ _ Hnd), Hc.
    reflexivity.
Qed.

(** A file that sets the offline text only: the other presence defaults
    are gone, the other groups are the defaults. *)
Lemma load_config_witness :
  exists config,
    _load_config
      (FileJson (JObj [("presence", JObj [("offline_text", JStr "down")])]))
    = Ok config
    /\ dict_get "presence" config = Some (JObj [("offline_text", JStr "down")])
    /\ dict_get "cache" config
       = Some (JObj [("library_update_interval", JInt 900)])
    /\ load_interval config = Ok (JInt 900).
Proof.
  assert (Hnd : NoDup (map fst [("presence", JObj [("offline_text", JStr "down")])])).
  { cbn. repeat constructor. intros []. }
  destruct (load_config_shallow_merge _ Hnd) as (config & H1 & H2 & _ & H4).
  exists config. split; [exact H1|]. split; [|split].
  - rewrite H2. reflexivity.
  - rewrite H2. reflexivity.
  - apply H4. reflexivity.
Defined.

(** ** Download sizes that cannot be read *)

(** One size text of ASCII characters that is neither "Unknown" nor a
    number followed by one word makes the whole total raise [ValueError],
    wherever the record stands after well-formed ones; the dashboard tick
    that asked for the total then ends without an update. *)
Theorem malformed_size_stops_total (l1 l2 : list download) (d : download) :
  Forall sized l1 -> malformed d ->
  _calculate_total_size (l1 ++ d :: l2)%list = Raise ValueError.
Proof.
  intros H1 (_ & Hu & Hm). unfold _calculate_total_size, total_size_mb.
  rewrite rfold_app.
  destruct (total_size_sized l1 H1 (I 0) (or_introl eq_refl)) as (a & Hr & _).
  rewrite Hr. cbn [rbind rfold].
  apply String.eqb_neq in Hu. rewrite Hu.
  assert (Hs : size_in_mb (size d) = Raise ValueError).
  { unfold size_in_mb. destruct Hm as [Hl | (v & u & Hs & Hf)].
    - destruct (split_ws (size d)) as [|v [|u [|w r]]]; try reflexivity.
      exfalso. apply Hl. reflexivity.
    - rewrite Hs, Hf. reflexivity. }
  rewrite Hs. reflexivity.
Qed.

(** A size written without a blank after two good records. *)
Lemma malformed_size_witness :
  _calculate_total_size
    [ {| size := "1 MB" |}; {| size := "Unknown" |}; {| size := "1.5GB" |};
      {| size := "2 MB" |} ]
  = Raise ValueError.
Proof.
  refine (malformed_size_stops_total
            [ {| size := "1 MB" |}; {| size := "Unknown" |} ]
            [ {| size := "2 MB" |} ] {| size := "1.5GB" |} _ _).
  - apply Forall_cons.
    + right. split; [reflexivity|].
      exists "1", "MB", (float_of_Z 1). split; vm_compute; reflexivity.
    + apply Forall_cons; [left; reflexivity | apply Forall_nil].
  - split; [reflexivity|]. split; [discriminate|]. left. vm_compute. discriminate.
Defined.
